(** * insight-response-gen: section generation and document analysis services

    A shallow embedding of [src/lib/services/openai-service.ts]
    (class [OpenAIService]) and of the document analyzer service
    (class [DocumentAnalyzerService]), with the properties of the
    specification stated over it.

    JavaScript strings are sequences of UTF-16 code units, response bodies
    are sequences of bytes, JSON values are a tree type, and the services'
    asynchronous methods are computations in a state-and-exception monad
    over the instance state and the log of observable effects. *)

From Stdlib Require Import ZArith NArith List String Ascii Bool Lia.
From Stdlib Require Import Strings.Byte.
Import ListNotations.

Local Open Scope list_scope.

(* ================================================================== *)
(** * JavaScript strings *)
(* ================================================================== *)

Module JsString.

(** A JavaScript string: its UTF-16 code units. *)
Definition jsstring := list N.

(** The code units of an ASCII literal of the source. *)
Definition lit (s : string) : jsstring :=
  map N_of_ascii (list_ascii_of_string s).

(** [a === b] on strings. *)
Fixpoint eqb (a b : jsstring) : bool :=
  match a, b with
  | [], [] => true
  | x :: a', y :: b' => N.eqb x y && eqb a' b'
  | _, _ => false
  end.

(** [s.startsWith(p)] *)
Fixpoint startsWith (s p : jsstring) : bool :=
  match p, s with
  | [], _ => true
  | y :: p', x :: s' => N.eqb x y && startsWith s' p'
  | _ :: _, [] => false
  end.

(** [s.slice(n)] for a non-negative [n]. *)
Definition slice (n : nat) (s : jsstring) : jsstring := skipn n s.

(** [s.split(c)] for a one-unit separator [c]: the pieces between the
    separators, a single empty piece for the empty string. *)
Fixpoint split (c : N) (s : jsstring) : list jsstring :=
  match s with
  | [] => [[]]
  | x :: r =>
      if N.eqb x c then [] :: split c r
      else match split c r with
           | l :: ls => (x :: l) :: ls
           | [] => [[x]]
           end
  end.

(** [xs.join(sep)] *)
Fixpoint join (sep : jsstring) (xs : list jsstring) : jsstring :=
  match xs with
  | [] => []
  | [x] => x
  | x :: r => x ++ sep ++ join sep r
  end.

(** [s.indexOf(p) >= 0], that is [s.includes(p)]. *)
Fixpoint includes (s p : jsstring) : bool :=
  startsWith s p ||
  match s with
  | [] => false
  | _ :: s' => includes s' p
  end.

(** White space and line terminators of ECMAScript, as removed by
    [String.prototype.trim]. *)
Definition isWhiteSpace (c : N) : bool :=
  ((9 <=? c) && (c <=? 13) || (c =? 32) || (c =? 160) || (c =? 5760)
   || (8192 <=? c) && (c <=? 8202) || (c =? 8232) || (c =? 8233)
   || (c =? 8239) || (c =? 8287) || (c =? 12288) || (c =? 65279))%N.

Fixpoint trimStart (s : jsstring) : jsstring :=
  match s with
  | c :: r => if isWhiteSpace c then trimStart r else s
  | [] => []
  end.

(** [s.trim()] *)
Definition trim (s : jsstring) : jsstring :=
  rev (trimStart (rev (trimStart s))).

(** Decimal digits of a natural number, as [String(n)] prints an integer. *)
Fixpoint digits_fuel (fuel : nat) (n : N) (acc : jsstring) : jsstring :=
  match fuel with
  | O => acc
  | S f =>
      let acc' := (48 + n mod 10)%N :: acc in
      if (n <? 10)%N then acc' else digits_fuel f (n / 10)%N acc'
  end.

Definition ofN (n : N) : jsstring :=
  digits_fuel (S (N.to_nat (N.log2 n))) n [].

End JsString.

Import JsString.

(* ================================================================== *)
(** * [String.prototype.replace] with a string pattern *)
(* ================================================================== *)

Module Replace.

(** The replacement text: [$$], [$&], [$`] and [$'] are substitution
    patterns; with a string pattern there are no captures, so every other
    [$] stands for itself. *)
Fixpoint getSubstitution (matched before after repl : jsstring) : jsstring :=
  match repl with
  | [] => []
  | c :: r =>
      if negb (N.eqb c 36) then c :: getSubstitution matched before after r
      else match r with
           | [] => [c]
           | d :: r' =>
               if N.eqb d 36 then 36%N :: getSubstitution matched before after r'
               else if N.eqb d 38 then matched ++ getSubstitution matched before after r'
               else if N.eqb d 96 then before ++ getSubstitution matched before after r'
               else if N.eqb d 39 then after ++ getSubstitution matched before after r'
               else c :: getSubstitution matched before after r
           end
  end.

(** The text before and after the first occurrence of [pat] in [s]. *)
Fixpoint findFirst (before_rev s pat : jsstring) : option (jsstring * jsstring) :=
  if startsWith s pat then Some (rev before_rev, skipn (List.length pat) s)
  else match s with
       | [] => None
       | c :: r => findFirst (c :: before_rev) r pat
       end.

(** [s.replace(pat, repl)]: only the first occurrence is replaced. *)
Definition replace (s pat repl : jsstring) : jsstring :=
  match findFirst [] s pat with
  | None => s
  | Some (before, after) => before ++ getSubstitution pat before after repl ++ after
  end.

End Replace.

(* ================================================================== *)
(** * [TextDecoder]: UTF-8 bytes to a JavaScript string *)
(* ================================================================== *)

Module Utf8.

(** The decoder is between characters, or inside a multi-byte sequence
    with a partial code point, the number of bytes still missing and the
    range allowed for the next byte. *)
Inductive dstate :=
| Idle
| Pending (cp : N) (missing : nat) (lo hi : N).

(** A byte met between characters. *)
Definition lead (b : N) : dstate * list N :=
  (if b <=? 0x7F then (Idle, [b])
   else if (0xC2 <=? b) && (b <=? 0xDF) then
     (Pending (N.land b 0x1F) 1 0x80 0xBF, [])
   else if (0xE0 <=? b) && (b <=? 0xEF) then
     (Pending (N.land b 0xF) 2
        (if b =? 0xE0 then 0xA0 else 0x80) (if b =? 0xED then 0x9F else 0xBF), [])
   else if (0xF0 <=? b) && (b <=? 0xF4) then
     (Pending (N.land b 0x7) 3
        (if b =? 0xF0 then 0x90 else 0x80) (if b =? 0xF4 then 0x8F else 0xBF), [])
   else (Idle, [0xFFFD]))%N.

(** The code points of a byte sequence; an ill-formed sequence gives
    U+FFFD and the offending byte is read again as a lead byte. *)
Fixpoint decodeFrom (st : dstate) (bs : list N) : list N :=
  match bs with
  | [] => match st with Idle => [] | Pending _ _ _ _ => [0xFFFD%N] end
  | b :: r =>
      match st with
      | Idle => let '(st', out) := lead b in out ++ decodeFrom st' r
      | Pending cp n lo hi =>
          if ((lo <=? b) && (b <=? hi))%N then
            let cp' := N.lor (N.shiftl cp 6) (N.land b 0x3F) in
            match n with
            | S (S n') => decodeFrom (Pending cp' (S n') 0x80 0xBF) r
            | _ => cp' :: decodeFrom Idle r
            end
          else
            let '(st', out) := lead b in
            0xFFFD%N :: out ++ decodeFrom st' r
      end
  end.

(** UTF-16 code units of a code point. *)
Definition units (cp : N) : list N :=
  (if cp <? 0x10000 then [cp]
   else let c := cp - 0x10000 in [0xD800 + c / 0x400; 0xDC00 + c mod 0x400])%N.

Definition stripBOM (cps : list N) : list N :=
  match cps with
  | c :: r => if N.eqb c 0xFEFF then r else cps
  | [] => []
  end.

(** [new TextDecoder().decode(value)]: every call decodes its bytes on
    their own (no [stream] option), replaces ill-formed input and drops a
    leading byte order mark. *)
Definition decode (value : list byte) : jsstring :=
  flat_map units (stripBOM (decodeFrom Idle (map Byte.to_N value))).

(** The bytes of an ASCII literal. *)
Definition bytes (s : string) : list byte := list_byte_of_string s.

End Utf8.

(* ================================================================== *)
(** * JSON values and [JSON.parse] *)
(* ================================================================== *)

Module Json.

Set Warnings "-register-all".

(** A value built by [JSON.parse].  A number keeps its decimal reading
    [m * 10^e]; an object keeps its own properties in creation order. *)
Inductive json :=
| JNull
| JBool (b : bool)
| JNum (m e : Z)
| JStr (s : jsstring)
| JArr (xs : list json)
| JObj (props : list (jsstring * json)).

Section Props.
Context {A : Type}.

(** Own property lookup. *)
Fixpoint objGet (o : list (jsstring * A)) (k : jsstring) : option A :=
  match o with
  | [] => None
  | (k', v) :: r => if JsString.eqb k' k then Some v else objGet r k
  end.

(** Creating or overwriting an own data property: an existing key keeps
    its place. *)
Fixpoint objDefine (o : list (jsstring * A)) (k : jsstring) (v : A)
  : list (jsstring * A) :=
  match o with
  | [] => [(k, v)]
  | (k', v') :: r =>
      if JsString.eqb k' k then (k', v) :: r else (k', v') :: objDefine r k v
  end.
End Props.

Definition isCh (c : N) (a : ascii) : bool := N.eqb c (N_of_ascii a).
Definition dquote : N := 34.
Definition backslash : N := 92.

Definition isWs (c : N) : bool :=
  ((c =? 32) || (c =? 9) || (c =? 10) || (c =? 13))%N.

Fixpoint skipWs (s : jsstring) : jsstring :=
  match s with
  | c :: r => if isWs c then skipWs r else s
  | [] => []
  end.

Definition isDigit (c : N) : bool := ((48 <=? c) && (c <=? 57))%N.

Definition hexVal (c : N) : option N :=
  (if isDigit c then Some (c - 48)
   else if (97 <=? c) && (c <=? 102) then Some (c - 87)
   else if (65 <=? c) && (c <=? 70) then Some (c - 55)
   else None)%N.

Definition hex4 (a b c d : N) : option N :=
  match hexVal a, hexVal b, hexVal c, hexVal d with
  | Some x, Some y, Some z, Some w => Some (((x * 16 + y) * 16 + z) * 16 + w)%N
  | _, _, _, _ => None
  end.

(** The characters of a string literal after its opening quote, up to the
    closing quote. *)
Fixpoint stringBody (s acc_rev : jsstring) : option (jsstring * jsstring) :=
  match s with
  | [] => None
  | c :: r =>
      if N.eqb c dquote then Some (rev acc_rev, r)
      else if N.eqb c backslash then
        match r with
        | [] => None
        | x :: r1 =>
            if N.eqb x dquote || N.eqb x backslash || isCh x "/"
            then stringBody r1 (x :: acc_rev)
            else if isCh x "b" then stringBody r1 (8%N :: acc_rev)
            else if isCh x "f" then stringBody r1 (12%N :: acc_rev)
            else if isCh x "n" then stringBody r1 (10%N :: acc_rev)
            else if isCh x "r" then stringBody r1 (13%N :: acc_rev)
            else if isCh x "t" then stringBody r1 (9%N :: acc_rev)
            else if isCh x "u" then
              match r1 with
              | h1 :: h2 :: h3 :: h4 :: r2 =>
                  match hex4 h1 h2 h3 h4 with
                  | Some u => stringBody r2 (u :: acc_rev)
                  | None => None
                  end
              | _ => None
              end
            else None
        end
      else if (c <? 32)%N then None
      else stringBody r (c :: acc_rev)
  end.

(** The leading digits of [s], and what follows them. *)
Fixpoint takeDigits (s : jsstring) : list N * jsstring :=
  match s with
  | c :: r =>
      if isDigit c then let '(ds, rest) := takeDigits r in (c :: ds, rest)
      else ([], s)
  | [] => ([], [])
  end.

Definition digitsValue (ds : list N) : Z :=
  fold_left (fun acc d => (acc * 10 + (Z.of_N d - 48))%Z) ds 0%Z.

(** A number literal: an optional minus sign; a single 0 or a digit
    string that does not start with 0; optionally a point and at least one
    digit; optionally e or E, a sign and at least one digit. *)
Definition signPart (s : jsstring) : bool * jsstring :=
  match s with
  | c :: r => if isCh c "-" then (true, r) else (false, s)
  | [] => (false, s)
  end.

Definition intPart (s : jsstring) : option (list N * jsstring) :=
  match s with
  | c :: r =>
      if isCh c "0" then Some ([c], r)
      else if isDigit c then Some (takeDigits s)
      else None
  | [] => None
  end.

Definition fracPart (s : jsstring) : option (list N * jsstring) :=
  match s with
  | c :: r =>
      if isCh c "." then
        match takeDigits r with
        | ([], _) => None
        | (fds, r') => Some (fds, r')
        end
      else Some ([], s)
  | [] => Some ([], s)
  end.

Definition expSign (s : jsstring) : bool * jsstring :=
  match s with
  | c :: r =>
      if isCh c "-" then (true, r)
      else if isCh c "+" then (false, r)
      else (false, s)
  | [] => (false, s)
  end.

Definition expPart (s : jsstring) : option (Z * jsstring) :=
  match s with
  | c :: r =>
      if isCh c "e" || isCh c "E" then
        let '(eneg, r1) := expSign r in
        match takeDigits r1 with
        | ([], _) => None
        | (eds, r2) =>
            Some ((if eneg then - digitsValue eds else digitsValue eds)%Z, r2)
        end
      else Some (0%Z, s)
  | [] => Some (0%Z, s)
  end.

Definition number (s : jsstring) : option (json * jsstring) :=
  let '(neg, s1) := signPart s in
  match intPart s1 with
  | None => None
  | Some (ids, s2) =>
      match fracPart s2 with
      | None => None
      | Some (fds, s3) =>
          match expPart s3 with
          | None => None
          | Some (ex, s4) =>
              let m := digitsValue (ids ++ fds) in
              Some (JNum (if neg then - m else m)%Z
                         (ex - Z.of_nat (List.length fds))%Z, s4)
          end
      end
  end.

(** Outcome of a parsing function: a value and the text after it, a
    syntax error, or recursion budget exhausted. *)
Inductive presult (A : Type) :=
| POk (a : A) (rest : jsstring)
| PSyntax
| PFuel.
Arguments POk {A}.
Arguments PSyntax {A}.
Arguments PFuel {A}.

Fixpoint parseValue (fuel : nat) (s : jsstring) : presult json :=
  match fuel with
  | O => PFuel
  | S f =>
      match skipWs s with
      | [] => PSyntax
      | c :: r =>
          if isCh c "{" then
            match skipWs r with
            | [] => PSyntax
            | c' :: r' =>
                if isCh c' "}" then POk (JObj []) r'
                else match parseMembers f [] (c' :: r') with
                     | POk kvs rest => POk (JObj kvs) rest
                     | PSyntax => PSyntax
                     | PFuel => PFuel
                     end
            end
          else if isCh c "[" then
            match skipWs r with
            | [] => PSyntax
            | c' :: r' =>
                if isCh c' "]" then POk (JArr []) r'
                else match parseElements f [] (c' :: r') with
                     | POk xs rest => POk (JArr xs) rest
                     | PSyntax => PSyntax
                     | PFuel => PFuel
                     end
            end
          else if N.eqb c dquote then
            match stringBody r [] with
            | Some (str, rest) => POk (JStr str) rest
            | None => PSyntax
            end
          else if startsWith (c :: r) (lit "true") then POk (JBool true) (skipn 4 (c :: r))
          else if startsWith (c :: r) (lit "false") then POk (JBool false) (skipn 5 (c :: r))
          else if startsWith (c :: r) (lit "null") then POk JNull (skipn 4 (c :: r))
          else match number (c :: r) with
               | Some (v, rest) => POk v rest
               | None => PSyntax
               end
      end
  end

with parseElements (fuel : nat) (acc_rev : list json) (s : jsstring)
  : presult (list json) :=
  match fuel with
  | O => PFuel
  | S f =>
      match parseValue f s with
      | POk v r =>
          match skipWs r with
          | [] => PSyntax
          | c :: r' =>
              if isCh c "," then parseElements f (v :: acc_rev) r'
              else if isCh c "]" then POk (rev (v :: acc_rev)) r'
              else PSyntax
          end
      | PSyntax => PSyntax
      | PFuel => PFuel
      end
  end

with parseMembers (fuel : nat) (acc : list (jsstring * json)) (s : jsstring)
  : presult (list (jsstring * json)) :=
  match fuel with
  | O => PFuel
  | S f =>
      match skipWs s with
      | [] => PSyntax
      | c :: r =>
          if negb (N.eqb c dquote) then PSyntax
          else match stringBody r [] with
               | None => PSyntax
               | Some (k, r1) =>
                   match skipWs r1 with
                   | [] => PSyntax
                   | c1 :: r2 =>
                       if negb (isCh c1 ":") then PSyntax
                       else match parseValue f r2 with
                            | POk v r3 =>
                                match skipWs r3 with
                                | [] => PSyntax
                                | c3 :: r4 =>
                                    if isCh c3 "," then parseMembers f (objDefine acc k v) r4
                                    else if isCh c3 "}" then POk (objDefine acc k v) r4
                                    else PSyntax
                                end
                            | PSyntax => PSyntax
                            | PFuel => PFuel
                            end
                   end
               end
      end
  end.

(** Recursion budget that a text of the given length never exhausts (see
    [parseValue_fuel]). *)
Definition budget (s : jsstring) : nat := 2 * List.length s + 2.

(** [JSON.parse(text)]; [None] stands for the [SyntaxError] it throws. *)
Definition parse (text : jsstring) : option json :=
  match parseValue (budget text) text with
  | POk v rest => match skipWs rest with [] => Some v | _ :: _ => None end
  | PSyntax => None
  | PFuel => None
  end.

End Json.

Import Json.

(* ================================================================== *)
(** * Operations of the language on parsed values *)
(* ================================================================== *)

Module Value.

(** A number literal whose value rounds to zero as a binary64 number:
    it is zero, or at most half of the least positive number [2^-1074]. *)
Definition numIsZero (m e : Z) : bool :=
  ((m =? 0) || ((e <? 0) && (Z.abs m * 2 ^ 1075 <=? 10 ^ (- e))))%Z.

(** Truthiness; [None] is [undefined]. *)
Definition truthy (v : option json) : bool :=
  match v with
  | None => false
  | Some JNull => false
  | Some (JBool b) => b
  | Some (JNum m e) => negb (numIsZero m e)
  | Some (JStr s) => match s with [] => false | _ :: _ => true end
  | Some (JArr _) => true
  | Some (JObj _) => true
  end.

(** [v.name] for a value [v] that is neither [null] nor [undefined], and a
    name that the prototypes do not define (every name read by the
    services is such a name). *)
Definition getField (v : json) (name : jsstring) : option json :=
  match v with
  | JObj o => objGet o name
  | JArr xs =>
      if JsString.eqb name (lit "length")
      then Some (JNum (Z.of_nat (List.length xs)) 0) else None
  | JStr s =>
      if JsString.eqb name (lit "length")
      then Some (JNum (Z.of_nat (List.length s)) 0) else None
  | _ => None
  end.

(** [v[i]] for a value [v] that is neither [null] nor [undefined]. *)
Definition getIndex (v : json) (i : nat) : option json :=
  match v with
  | JObj o => objGet o (ofN (N.of_nat i))
  | JArr xs => nth_error xs i
  | JStr s => match nth_error s i with Some c => Some (JStr [c]) | None => None end
  | _ => None
  end.

Definition nullish (v : option json) : bool :=
  match v with
  | None => true
  | Some JNull => true
  | Some _ => false
  end.

(** [v?.name] and [v?.[i]] *)
Definition optField (v : option json) (name : jsstring) : option json :=
  match v with
  | None => None
  | Some JNull => None
  | Some x => getField x name
  end.

Definition optIndex (v : option json) (i : nat) : option json :=
  match v with
  | None => None
  | Some JNull => None
  | Some x => getIndex x i
  end.

(** [a || b] *)
Definition orElse (a : option json) (b : json) : json :=
  match a with
  | Some x => if truthy a then x else b
  | None => b
  end.

End Value.

Import Value.

(* ================================================================== *)
(** * Binary64 arithmetic of the progress estimate *)
(* ================================================================== *)

Module Double.

(** A positive normal binary64 number [m * 2^e], [2^52 <= m < 2^53]. *)
Definition double := (Z * Z)%type.

(** The binary64 number nearest to [p / q] ([0 < p], [0 < q]), ties to
    even.  The results used here are far from the subnormal and overflow
    ranges. *)
Definition nearest (p q : Z) : double :=
  let d := (Z.log2 p - Z.log2 q)%Z in
  let ge := (if 0 <=? d then q * 2 ^ d <=? p else q <=? p * 2 ^ (- d))%Z in
  let e := (if ge then d - 52 else d - 53)%Z in
  let num := (if e <? 0 then p * 2 ^ (- e) else p)%Z in
  let den := (if e <? 0 then q else q * 2 ^ e)%Z in
  let m0 := (num / den)%Z in
  let r := (num mod den)%Z in
  let up := ((den <? 2 * r) || ((den =? 2 * r) && Z.odd m0))%Z in
  let m := (if up then m0 + 1 else m0)%Z in
  if (m =? 2 ^ 53)%Z then (2 ^ 52, e + 1)%Z else (m, e).

Definition ofInt (n : Z) : double := nearest n 1.

(** [x / y] and [x * y], correctly rounded. *)
Definition div (x y : double) : double :=
  let '(mx, ex) := x in
  let '(my, ey) := y in
  let s := (ex - ey)%Z in
  if (s <? 0)%Z then nearest mx (my * 2 ^ (- s)) else nearest (mx * 2 ^ s) my.

Definition mul (x y : double) : double :=
  let '(mx, ex) := x in
  let '(my, ey) := y in
  let s := (ex + ey)%Z in
  if (s <? 0)%Z then nearest (mx * my) (2 ^ (- s)) else nearest (mx * my * 2 ^ s) 1.

(** [Math.floor(x)] *)
Definition floor (x : double) : Z :=
  let '(m, e) := x in
  if (e <? 0)%Z then (m / 2 ^ (- e))%Z else (m * 2 ^ e)%Z.

End Double.

(** [Math.min(95, Math.floor((chunkCount / 50) * 100))] for a positive
    [chunkCount]. *)
Definition progressEstimate (chunkCount : Z) : Z :=
  Z.min 95
    (Double.floor
       (Double.mul (Double.div (Double.ofInt chunkCount) (Double.ofInt 50))
                   (Double.ofInt 100))).

(* ================================================================== *)
(** * What the JavaScript engine decides *)
(* ================================================================== *)

(** The [TypeError]s the services can provoke. *)
Inductive typeError :=
| ReadOfNull (name : jsstring)        (* [null.name] *)
| ReadOfUndefined (name : jsstring)   (* [undefined.name] *)
| NotAFunction (name : jsstring)      (* [v.name(...)] where [v.name] is no function *)
| NoPrimitive.                        (* an object without a usable [toString] *)

(** Texts that the language leaves to the engine: the digits of a number
    (binary64 printing) and the messages of built-in errors.  The
    theorems hold for every engine. *)
Record Runtime := {
  numberToString : Z -> Z -> jsstring;
  syntaxErrorMessage : jsstring -> jsstring;
  typeErrorMessage : typeError -> jsstring
}.

Section ToString.
Variable rt : Runtime.

(** The string that [s + v] appends for a value [v]: [None] when the
    conversion throws a [TypeError], which is the case of an object
    whose own [toString] property hides the inherited method. *)
Fixpoint toStr (v : json) : option jsstring :=
  match v with
  | JNull => Some (lit "null")
  | JBool true => Some (lit "true")
  | JBool false => Some (lit "false")
  | JNum m e => Some (numberToString rt m e)
  | JStr s => Some s
  | JObj o =>
      match objGet o (lit "toString") with
      | Some _ => None
      | None => Some (lit "[object Object]")
      end
  | JArr xs =>
      (fix joinAll (ys : list json) : option jsstring :=
         match ys with
         | [] => Some []
         | y :: r =>
             let item :=
               match y with
               | JNull => Some []
               | _ => toStr y
               end in
             match item, r with
             | None, _ => None
             | Some s, [] => Some s
             | Some s, _ :: _ =>
                 match joinAll r with
                 | Some t => Some (s ++ lit "," ++ t)
                 | None => None
                 end
             end
         end) xs
  end.
End ToString.

(* ================================================================== *)
(** * Effects: instance state, observable log, exceptions *)
(* ================================================================== *)

(** [GenerationProgress] *)
Inductive genStatus := StPending | StGenerating | StCompleted | StError.

Record GenerationProgress := {
  gp_sectionId : jsstring;
  gp_status : genStatus;
  gp_progress : Z;
  gp_content : option jsstring;
  gp_error : option jsstring
}.

(** [AnalysisProgress] *)
Inductive anaStatus := AIdle | AAnalyzing | ACompleted | AError.

Record AnalysisProgress := {
  ap_status : anaStatus;
  ap_progress : Z;
  ap_currentStep : option jsstring;
  ap_error : option jsstring
}.

(** A chat-completion request, as far as the services vary it. *)
Record Request := {
  req_url : jsstring;
  req_model : jsstring;
  req_userContent : jsstring;
  req_max_tokens : Z;
  req_stream : bool;
  req_signal : nat
}.

(** A value that is thrown or that rejects a promise. *)
Inductive thrown :=
| ErrorObject (message : jsstring)   (* [error instanceof Error] *)
| OtherValue.

(** How a response body ends after its last read. *)
Inductive bodyEnd := EndDone | EndFails (e : thrown).

Record Body := {
  reads : list (list byte);
  ending : bodyEnd
}.

Record Response := {
  status : N;
  statusText : jsstring;
  body : option Body
}.

(** [response.ok] *)
Definition ok (r : Response) : bool := ((200 <=? status r) && (status r <=? 299))%N.

Inductive FetchOutcome :=
| FetchRejects (e : thrown)
| FetchResponds (r : Response).

(** What an observer of the page can see, in order. *)
Inductive Event :=
| Aborted (controller : nat)
| Fetched (req : Request)
| ProgressEv (p : GenerationProgress)
| ChunkEv (delta : json)
| SectionChunkEv (sectionId : jsstring) (delta : json)
| AnalysisEv (p : AnalysisProgress)
| SetAnalysis (analysis : json)
| ConsoleError (message : jsstring) (e : thrown)
| Alert (message : jsstring).

(** The state of one service instance and of its surroundings. *)
Record World := {
  abortController : option nat;   (* [this.abortController] *)
  nextController : nat;           (* the next [new AbortController()] *)
  fetches : nat;                  (* requests issued so far *)
  log : list Event                (* observable effects, newest first *)
}.

(** The observable effects in the order in which they happened. *)
Definition trace (w : World) : list Event := rev (log w).

Inductive result (A : Type) :=
| Returned (a : A)
| Threw (e : thrown).
Arguments Returned {A}.
Arguments Threw {A}.

(** Steps that can throw but touch neither the instance nor the page. *)
Module Res.

Definition bind {A B} (r : result A) (k : A -> result B) : result B :=
  match r with
  | Returned a => k a
  | Threw e => Threw e
  end.

End Res.

Module Eff.

Definition M (A : Type) : Type := World -> result A * World.

Definition lift {A} (r : result A) : M A := fun w => (r, w).

Definition ret {A} (a : A) : M A := fun w => (Returned a, w).

Definition bind {A B} (m : M A) (k : A -> M B) : M B :=
  fun w =>
    match m w with
    | (Returned a, w') => k a w'
    | (Threw e, w') => (Threw e, w')
    end.

Definition throw {A} (e : thrown) : M A := fun w => (Threw e, w).

(** [try { m } catch (e) { handler e }] *)
Definition tryCatch {A} (m : M A) (handler : thrown -> M A) : M A :=
  fun w =>
    match m w with
    | (Returned a, w') => (Returned a, w')
    | (Threw e, w') => handler e w'
    end.

(** [try { m } finally { fin }]: [fin] runs on both exits, and its own
    failure replaces the outcome of [m]. *)
Definition tryFinally {A} (m : M A) (fin : M unit) : M A :=
  fun w =>
    let '(r, w') := m w in
    match fin w' with
    | (Returned _, w'') => (r, w'')
    | (Threw e, w'') => (Threw e, w'')
    end.

Definition emit (ev : Event) : M unit :=
  fun w => (Returned tt,
            {| abortController := abortController w;
               nextController := nextController w;
               fetches := fetches w;
               log := ev :: log w |}).

Definition getController : M (option nat) :=
  fun w => (Returned (abortController w), w).

Definition setController (c : option nat) : M unit :=
  fun w => (Returned tt,
            {| abortController := c;
               nextController := nextController w;
               fetches := fetches w;
               log := log w |}).

(** [new AbortController()] *)
Definition newController : M nat :=
  fun w => (Returned (nextController w),
            {| abortController := abortController w;
               nextController := S (nextController w);
               fetches := fetches w;
               log := log w |}).

(** [controller.abort()] *)
Definition abort (c : nat) : M unit := emit (Aborted c).

(** An optional callback: [f?.(x)] *)
Definition call {A} (f : option (A -> M unit)) (x : A) : M unit :=
  match f with
  | Some g => g x
  | None => ret tt
  end.

End Eff.

Import Eff.

Declare Scope eff_scope.
Delimit Scope eff_scope with eff.
Notation "x <- m ;; k" := (bind m (fun x => k))
  (at level 100, m at next level, right associativity) : eff_scope.
Notation "m ;;; k" := (bind m (fun _ => k))
  (at level 100, right associativity) : eff_scope.
Notation "x <-- r ;; k" := (Res.bind r (fun x => k))
  (at level 100, r at next level, right associativity) : eff_scope.

(** Text literals.  [text] joins lines with line feeds; in [litq] and
    [textq] a backquote stands for a double quote. *)
Definition nl : jsstring := [10%N].
Definition text (lines : list string) : jsstring := join nl (map lit lines).
Definition litq (s : string) : jsstring :=
  map (fun c => if N.eqb c 96 then 34%N else c) (lit s).
Definition textq (lines : list string) : jsstring := join nl (map litq lines).

(* ================================================================== *)
(** * Configuration and the data of a generation *)
(* ================================================================== *)

(** The part of [APIConfiguration] that the services read. *)
Record Config := {
  enableAIGeneration : bool;
  openai_model : jsstring;
  openai_maxTokens : Z
}.

Record GenerationContext := {
  rfpContent : option jsstring;
  companyProfile : option jsstring;
  requirements : option (list jsstring);
  constraints : option (list jsstring);
  targetAudience : option jsstring
}.

Record SectionTemplate := {
  tpl_id : jsstring;
  tpl_name : jsstring;
  tpl_description : jsstring;
  tpl_promptTemplate : jsstring;
  tpl_maxTokens : option Z
}.

(** Truthiness of an optional string and of an optional number. *)
Definition present (s : option jsstring) : option jsstring :=
  match s with
  | Some (c :: r) => Some (c :: r)
  | _ => None
  end.

Definition nonEmptyList (l : option (list jsstring)) : option (list jsstring) :=
  match l with
  | Some (x :: r) => Some (x :: r)
  | _ => None
  end.

Definition completionsUrl : jsstring := lit "https://api.openai.com/v1/chat/completions".
Definition tpl_executive_summary : SectionTemplate :=
  {| tpl_id := lit "executive-summary";
     tpl_name := lit "Executive Summary";
     tpl_description := lit "High-level overview of the proposed solution";
     tpl_promptTemplate := text [
       "Create a compelling executive summary for the {sectionType} section of an RFP response. ";
       "        This should be a concise, high-level overview that captures the key value propositions and differentiators.";
       "        Focus on business outcomes and strategic benefits. Leverage the critical requirements matrix and win themes";
       "        to demonstrate clear understanding of the customer's needs and your strategic positioning." ]%string;
     tpl_maxTokens := Some 800%Z |}.

Definition tpl_company_overview : SectionTemplate :=
  {| tpl_id := lit "company-overview";
     tpl_name := lit "Company Overview";
     tpl_description := lit "Introduction to the company and its capabilities";
     tpl_promptTemplate := text [
       "Write a professional company overview section that establishes credibility and expertise.";
       "        Highlight relevant experience, certifications, and success stories that align with the RFP requirements.";
       "        Address the strategic intelligence insights and demonstrate how your company's strengths position you";
       "        to overcome incumbent advantages and competitive challenges." ]%string;
     tpl_maxTokens := Some 600%Z |}.

Definition tpl_technical_approach : SectionTemplate :=
  {| tpl_id := lit "technical-approach";
     tpl_name := lit "Technical Approach";
     tpl_description := lit "Detailed technical methodology and solution design";
     tpl_promptTemplate := text [
       "Develop a comprehensive technical approach section that demonstrates deep understanding of the requirements.";
       "        Include methodology, architecture considerations, implementation strategy, and technical innovations.";
       "        Show how your approach addresses the specific challenges outlined in the RFP and leverages the evaluation criteria";
       "        to maximize scoring potential. Address any red flags identified in the analysis with mitigation strategies." ]%string;
     tpl_maxTokens := Some 1200%Z |}.

Definition tpl_project_timeline : SectionTemplate :=
  {| tpl_id := lit "project-timeline";
     tpl_name := lit "Project Timeline";
     tpl_description := lit "Detailed project schedule and milestones";
     tpl_promptTemplate := text [
       "Create a realistic and detailed project timeline with clear milestones and deliverables.";
       "        Include phases, key activities, dependencies, and resource allocation considerations.";
       "        Demonstrate project management expertise and risk mitigation strategies. Address timeline pressures";
       "        identified in the strategic intelligence and ensure alignment with critical deadlines." ]%string;
     tpl_maxTokens := Some 800%Z |}.

Definition tpl_team_structure : SectionTemplate :=
  {| tpl_id := lit "team-structure";
     tpl_name := lit "Team Structure";
     tpl_description := lit "Proposed team composition and roles";
     tpl_promptTemplate := text [
       "Design an optimal team structure for this project, including key roles, responsibilities, and qualifications.";
       "        Highlight team member expertise, relevant experience, and how the team composition ensures project success.";
       "        Include organizational structure and reporting relationships. Align team capabilities with stakeholder";
       "        priorities and evaluation criteria to maximize scoring potential." ]%string;
     tpl_maxTokens := Some 700%Z |}.

Definition tpl_pricing : SectionTemplate :=
  {| tpl_id := lit "pricing";
     tpl_name := lit "Pricing Framework";
     tpl_description := lit "Cost structure and pricing strategy";
     tpl_promptTemplate := text [
       "Develop a competitive and transparent pricing framework that demonstrates value for money.";
       "        Include cost breakdown, payment terms, and value-added services. Leverage budget indicators and price";
       "        sensitivity analysis to position pricing strategically. Justify pricing decisions and show ROI for the client." ]%string;
     tpl_maxTokens := Some 600%Z |}.

Definition tpl_references : SectionTemplate :=
  {| tpl_id := lit "references";
     tpl_name := lit "References & Case Studies";
     tpl_description := lit "Relevant client references and success stories";
     tpl_promptTemplate := text [
       "Create compelling case studies and references that demonstrate relevant experience and successful outcomes.";
       "        Include specific metrics, challenges overcome, and client testimonials where appropriate.";
       "        Focus on projects similar in scope and complexity to the current RFP. Provide proof points that align";
       "        with the required proof points identified in the win themes analysis." ]%string;
     tpl_maxTokens := Some 900%Z |}.

Definition tpl_compliance : SectionTemplate :=
  {| tpl_id := lit "compliance";
     tpl_name := lit "Compliance & Certifications";
     tpl_description := lit "Regulatory compliance and quality certifications";
     tpl_promptTemplate := text [
       "Detail all relevant certifications, compliance standards, and quality assurance processes.";
       "        Include specific certifications, audit results, and compliance frameworks that apply to this project.";
       "        Demonstrate commitment to quality, security, and regulatory requirements." ]%string;
     tpl_maxTokens := Some 500%Z |}.

(** [OpenAIService.getSectionTemplates()]: the entries of the returned
    object, key and template. *)
Definition getSectionTemplates : list (jsstring * SectionTemplate) :=
  [ (lit "executive-summary", tpl_executive_summary);
    (lit "company-overview", tpl_company_overview);
    (lit "technical-approach", tpl_technical_approach);
    (lit "project-timeline", tpl_project_timeline);
    (lit "team-structure", tpl_team_structure);
    (lit "pricing", tpl_pricing);
    (lit "references", tpl_references);
    (lit "compliance", tpl_compliance) ].

(* ================================================================== *)
(** * The environment of a service instance *)
(* ================================================================== *)

(** Everything a service call depends on besides its arguments and the
    instance state: the engine, the configuration read by the
    constructor, the answer of the network to the n-th request, and the
    document index behind [companyDocuments.getRelevantContentForRFP],
    whose module is outside the sources at hand. *)
Record Env := {
  runtime : Runtime;
  config : Config;
  network : nat -> FetchOutcome;
  getRelevantContentForRFP : jsstring -> jsstring -> jsstring
}.

Local Open Scope eff_scope.

(** [fetch(url, init)]: the request leaves, and the network settles it. *)
Definition fetch (env : Env) (req : Request) : M Response :=
  fun w =>
    let w' := {| abortController := abortController w;
                 nextController := nextController w;
                 fetches := S (fetches w);
                 log := Fetched req :: log w |} in
    match network env (fetches w) with
    | FetchRejects e => (Threw e, w')
    | FetchResponds r => (Returned r, w')
    end.

(** [JSON.parse(text)] with its [SyntaxError]. *)
Definition jsonParse (env : Env) (text : jsstring) : result json :=
  match parse text with
  | Some v => Returned v
  | None => Threw (ErrorObject (syntaxErrorMessage (runtime env) text))
  end.

(** [error instanceof Error ? error.message : fallback] *)
Definition messageOr (error : thrown) (fallback : jsstring) : jsstring :=
  match error with
  | ErrorObject message => message
  | OtherValue => fallback
  end.

(* ================================================================== *)
(** * [OpenAIService] *)
(* ================================================================== *)

Module OpenAIService.

Section Instance.
Variable env : Env.

(** [buildPrompt(sectionType, context, template)] *)
Definition buildPrompt (sectionType : jsstring) (context : GenerationContext)
           (template : SectionTemplate) : jsstring :=
  let basePrompt := tpl_promptTemplate template in
  let prompt :=
    Replace.replace
      (Replace.replace basePrompt (lit "{sectionType}") sectionType)
      (lit "{templateName}") (tpl_name template) in
  let prompt :=
    match present (rfpContent context) with
    | Some rfp => prompt ++ nl ++ nl ++ lit "RFP Content:" ++ nl ++ rfp
    | None => prompt
    end in
  let prompt :=
    match present (companyProfile context) with
    | Some profile => prompt ++ nl ++ nl ++ lit "Company Profile:" ++ nl ++ profile
    | None => prompt
    end in
  let prompt :=
    match nonEmptyList (requirements context) with
    | Some reqs =>
        prompt ++ nl ++ nl ++ lit "Key Requirements:" ++ nl
               ++ join nl (map (fun req => lit "- " ++ req) reqs)
    | None => prompt
    end in
  let prompt :=
    match nonEmptyList (constraints context) with
    | Some cs =>
        prompt ++ nl ++ nl ++ lit "Constraints:" ++ nl
               ++ join nl (map (fun constraint => lit "- " ++ constraint) cs)
    | None => prompt
    end in
  let prompt :=
    match present (targetAudience context) with
    | Some audience => prompt ++ nl ++ nl ++ lit "Target Audience:" ++ nl ++ audience
    | None => prompt
    end in
  match present (rfpContent context) with
  | Some rfp =>
      match present (Some (getRelevantContentForRFP env rfp sectionType)) with
      | Some relevantContent =>
          prompt ++ nl ++ nl ++ lit "Relevant Company Information:" ++ nl
                 ++ relevantContent
      | None => prompt
      end
  | None => prompt
  end.

(** How the scan of one read leaves the read loop. *)
Inductive scanExit :=
| Finished (content : jsstring)                         (* [return accumulatedContent] *)
| Continue (accumulatedContent : jsstring) (chunkCount : Z).

Section Call.
Variable sectionType : jsstring.
Variable onProgress : option (GenerationProgress -> M unit).
Variable onChunk : option (json -> M unit).

Definition progressEvent (st : genStatus) (p : Z) (content error : option jsstring)
  : GenerationProgress :=
  {| gp_sectionId := sectionType; gp_status := st; gp_progress := p;
     gp_content := content; gp_error := error |}.

(** [parsed.choices?.[0]?.delta?.content] *)
Definition deltaContent (parsed : json) : result (option json) :=
  match parsed with
  | JNull => Threw (ErrorObject (typeErrorMessage (runtime env)
                                   (ReadOfNull (lit "choices"))))
  | _ =>
      Returned (optField (optField (optIndex (getField parsed (lit "choices")) 0)
                                   (lit "delta")) (lit "content"))
  end.

(** [accumulatedContent + content] *)
Definition appendText (accumulatedContent : jsstring) (content : json)
  : result jsstring :=
  match toStr (runtime env) content with
  | Some s => Returned (accumulatedContent ++ s)
  | None => Threw (ErrorObject (typeErrorMessage (runtime env) NoPrimitive))
  end.

(** The inner [try] of the line loop, for a payload other than
    [[DONE]].  The two locals are assigned before the callbacks run, so
    a callback that throws is swallowed with the locals updated. *)
Definition handleData (data accumulatedContent : jsstring) (chunkCount : Z)
  : M (jsstring * Z) :=
  tryCatch
    (parsed <- lift (jsonParse env data) ;;
     v <- lift (deltaContent parsed) ;;
     match v with
     | Some content =>
         if truthy v then
           accumulated' <- lift (appendText accumulatedContent content) ;;
           let chunkCount' := (chunkCount + 1)%Z in
           (tryCatch
              (call onChunk content ;;;
               let progress := progressEstimate chunkCount' in
               call onProgress
                 (progressEvent StGenerating progress (Some accumulated') None))
              (fun _ => ret tt)) ;;;
           ret (accumulated', chunkCount')
         else ret (accumulatedContent, chunkCount)
     | None => ret (accumulatedContent, chunkCount)
     end)
    (fun _ => ret (accumulatedContent, chunkCount)).

(** [for (const line of lines) { ... }] *)
Fixpoint scanLines (lines : list jsstring) (accumulatedContent : jsstring)
         (chunkCount : Z) : M scanExit :=
  match lines with
  | [] => ret (Continue accumulatedContent chunkCount)
  | line :: rest =>
      if startsWith line (lit "data: ") then
        let data := slice 6 line in
        if JsString.eqb data (lit "[DONE]") then
          call onProgress
            (progressEvent StCompleted 100 (Some accumulatedContent) None) ;;;
          ret (Finished accumulatedContent)
        else
          st <- handleData data accumulatedContent chunkCount ;;
          scanLines rest (fst st) (snd st)
      else scanLines rest accumulatedContent chunkCount
  end.

(** [while (true) { const { done, value } = await reader.read(); ... }]
    over the reads that the body delivers before it ends. *)
Fixpoint readLoop (pending : list (list byte)) (ending : bodyEnd)
         (accumulatedContent : jsstring) (chunkCount : Z) : M jsstring :=
  match pending with
  | [] =>
      match ending with
      | EndDone => ret accumulatedContent
      | EndFails e => throw e
      end
  | value :: later =>
      let chunk := Utf8.decode value in
      let lines := split 10 chunk in
      exit <- scanLines lines accumulatedContent chunkCount ;;
      match exit with
      | Finished content => ret content
      | Continue accumulated' chunkCount' =>
          readLoop later ending accumulated' chunkCount'
      end
  end.

(** [generateSection(sectionType, context, template, onProgress, onChunk)] *)
Definition generateSection (context : GenerationContext) (template : SectionTemplate)
  : M jsstring :=
  if negb (enableAIGeneration (config env)) then
    throw (ErrorObject (lit "AI generation is disabled in configuration"))
  else
    previous <- getController ;;
    match previous with
    | Some c => abort c
    | None => ret tt
    end ;;;
    fresh <- newController ;;
    setController (Some fresh) ;;;
    let prompt := buildPrompt sectionType context template in
    let maxTokens :=
      match tpl_maxTokens template with
      | Some n => if (n =? 0)%Z then openai_maxTokens (config env) else n
      | None => openai_maxTokens (config env)
      end in
    tryFinally
      (tryCatch
         (call onProgress (progressEvent StGenerating 0 None None) ;;;
          current <- getController ;;
          signal <- match current with
                    | Some c => ret c
                    | None => throw (ErrorObject (typeErrorMessage (runtime env)
                                                    (ReadOfUndefined (lit "signal"))))
                    end ;;
          response <- fetch env {| req_url := completionsUrl;
                                   req_model := openai_model (config env);
                                   req_userContent := prompt;
                                   req_max_tokens := maxTokens;
                                   req_stream := true;
                                   req_signal := signal |} ;;
          if negb (ok response) then
            throw (ErrorObject (lit "OpenAI API error: " ++ ofN (status response)
                                  ++ lit " " ++ statusText response))
          else
            match body response with
            | None => throw (ErrorObject (lit "No response body received"))
            | Some b => readLoop (reads b) (ending b) [] 0
            end)
         (fun error =>
            let errorMessage := messageOr error (lit "Unknown error occurred") in
            call onProgress (progressEvent StError 0 None (Some errorMessage)) ;;;
            throw error))
      (setController None).
End Call.

(** [results[key] = value] on the object literal [{}]: the key
    [__proto__] reaches the inherited setter, which ignores a string. *)
Definition objSet (results : list (jsstring * jsstring)) (key value : jsstring)
  : list (jsstring * jsstring) :=
  if JsString.eqb key (lit "__proto__") then results
  else objDefine results key value.

(** [generateMultipleSections(sections, context, onProgress, onChunk)] *)
Fixpoint generateRest (sections : list (jsstring * SectionTemplate))
         (context : GenerationContext)
         (onProgress : option (GenerationProgress -> M unit))
         (onChunk : option (jsstring -> json -> M unit))
         (results : list (jsstring * jsstring)) : M (list (jsstring * jsstring)) :=
  match sections with
  | [] => ret results
  | (sectionType, template) :: rest =>
      results' <-
        tryCatch
          (content <- generateSection sectionType onProgress
                        (Some (fun chunk =>
                                 match onChunk with
                                 | Some f => f sectionType chunk
                                 | None => ret tt
                                 end))
                        context template ;;
           ret (objSet results sectionType content))
          (fun error =>
             emit (ConsoleError (lit "Error generating section " ++ sectionType ++ lit ":")
                                error) ;;;
             ret (objSet results sectionType
                    (lit "Error generating content: "
                       ++ messageOr error (lit "Unknown error")))) ;;
      generateRest rest context onProgress onChunk results'
  end.

Definition generateMultipleSections (sections : list (jsstring * SectionTemplate))
           (context : GenerationContext)
           (onProgress : option (GenerationProgress -> M unit))
           (onChunk : option (jsstring -> json -> M unit))
  : M (list (jsstring * jsstring)) :=
  generateRest sections context onProgress onChunk [].

(** [cancelGeneration()] *)
Definition cancelGeneration : M unit :=
  current <- getController ;;
  match current with
  | Some c => abort c ;;; setController None
  | None => ret tt
  end.

End Instance.

End OpenAIService.

(* ================================================================== *)
(** * [DocumentAnalyzerService] *)
(* ================================================================== *)

(** The fixed text of [buildAnalysisPrompt] before and after the embedded
    document; a backquote in these literals stands for a double quote. *)
Definition analysisPromptHead : jsstring :=
  textq [
    "You are an expert RFP analyst with 20+ years of experience in enterprise software procurement. Your task is to analyze RFP documents with the precision of top consulting firms like McKinsey and Accenture.";
    EmptyString;
    "Extract and structure the following:";
    EmptyString;
    "1. **Critical Requirements Matrix**";
    "   - Mandatory requirements (MUST have) with compliance mapping";
    "   - Desired requirements (SHOULD have) with weight scores";
    "   - Optional requirements (NICE to have)";
    "   - Hidden requirements (implied but not stated)";
    EmptyString;
    "2. **Evaluation Criteria Decoder**";
    "   - Scoring methodology and weights";
    "   - Decision-maker priorities (read between the lines)";
    "   - Budget indicators and price sensitivity";
    "   - Risk factors and compliance requirements";
    EmptyString;
    "3. **Strategic Intelligence**";
    "   - Incumbent vendor advantages (if any)";
    "   - Political landscape and stakeholder dynamics";
    "   - Timeline pressures and urgency indicators";
    "   - Competitive positioning opportunities";
    EmptyString;
    "4. **Win Theme Identification**";
    "   - Primary value drivers for this customer";
    "   - Pain points to address";
    "   - Differentiators that matter most";
    "   - Proof points needed";
    EmptyString;
    "5. **Red Flags & Risks**";
    "   - Unrealistic requirements";
    "   - Conflicting specifications";
    "   - Missing information gaps";
    "   - Potential deal breakers";
    EmptyString;
    "Document Content:";
    EmptyString ]%string.

Definition analysisPromptTail : jsstring :=
  textq [
    EmptyString;
    EmptyString;
    "Please respond with a valid JSON object containing these fields with confidence scores for each finding:";
    "{";
    "  `criticalRequirementsMatrix`: {";
    "    `mandatory`: [";
    "      {";
    "        `requirement`: `requirement description`,";
    "        `complianceMapping`: `how to demonstrate compliance`,";
    "        `confidence`: 0.95";
    "      }";
    "    ],";
    "    `desired`: [";
    "      {";
    "        `requirement`: `requirement description`,";
    "        `weightScore`: `percentage or importance level`,";
    "        `confidence`: 0.85";
    "      }";
    "    ],";
    "    `optional`: [";
    "      {";
    "        `requirement`: `requirement description`,";
    "        `confidence`: 0.75";
    "      }";
    "    ],";
    "    `hidden`: [";
    "      {";
    "        `requirement`: `implied requirement`,";
    "        `evidence`: `why this is implied`,";
    "        `confidence`: 0.70";
    "      }";
    "    ]";
    "  },";
    "  `evaluationCriteria`: {";
    "    `scoringMethodology`: `description of how evaluation will be conducted`,";
    "    `criteria`: [";
    "      {";
    "        `criterion`: `criteria name`,";
    "        `weight`: `percentage`,";
    "        `priority`: `high/medium/low`,";
    "        `confidence`: 0.90";
    "      }";
    "    ],";
    "    `budgetIndicators`: `budget range and price sensitivity analysis`,";
    "    `riskFactors`: [";
    "      {";
    "        `factor`: `risk description`,";
    "        `severity`: `High|Medium|Low`,";
    "        `confidence`: 0.80";
    "      }";
    "    ]";
    "  },";
    "  `strategicIntelligence`: {";
    "    `incumbentAdvantages`: `analysis of current vendor advantages`,";
    "    `politicalLandscape`: `stakeholder dynamics and decision-making process`,";
    "    `timelinePressures`: `urgency indicators and timeline analysis`,";
    "    `competitiveOpportunities`: `positioning opportunities for new vendors`,";
    "    `confidence`: 0.75";
    "  },";
    "  `winThemes`: {";
    "    `primaryValueDrivers`: [`driver1`, `driver2`],";
    "    `painPoints`: [`pain point 1`, `pain point 2`],";
    "    `keyDifferentiators`: [`differentiator 1`, `differentiator 2`],";
    "    `requiredProofPoints`: [`proof point 1`, `proof point 2`],";
    "    `confidence`: 0.85";
    "  },";
    "  `redFlags`: [";
    "    {";
    "      `flag`: `red flag description`,";
    "      `severity`: `High|Medium|Low`,";
    "      `impact`: `potential impact on proposal`,";
    "      `confidence`: 0.90";
    "    }";
    "  ],";
    "  `deadlines`: [";
    "    {";
    "      `task`: `task description`,";
    "      `date`: `YYYY-MM-DD`,";
    "      `daysRemaining`: number,";
    "      `urgency`: `High|Medium|Low`";
    "    }";
    "  ],";
    "  `stakeholders`: [";
    "    {";
    "      `name`: `person name`,";
    "      `role`: `job title`,";
    "      `department`: `department name`,";
    "      `influence`: `High|Medium|Low`,";
    "      `priorities`: [`priority1`, `priority2`]";
    "    }";
    "  ]";
    "}";
    EmptyString;
    "Ensure all dates are in YYYY-MM-DD format and calculate days remaining from today's date. Provide confidence scores (0.0-1.0) for each finding based on the clarity and specificity of the information in the document." ]%string.

(** [content.match(/\{[\s\S]*\}/)]: the match runs from the first opening
    brace to the last closing brace after it. *)
Module Regex.

Fixpoint fromFirst (c : N) (s : jsstring) : option jsstring :=
  match s with
  | [] => None
  | x :: r => if N.eqb x c then Some s else fromFirst c r
  end.

Definition matchBraces (content : jsstring) : option jsstring :=
  match fromFirst 123 content with
  | Some (open :: r) =>
      match fromFirst 125 (rev r) with
      | Some t => Some (open :: rev t)
      | None => None
      end
  | _ => None
  end.

End Regex.

Record ValidationResult := {
  isValid : bool;
  validationError : option jsstring
}.

Module DocumentAnalyzer.

(** [validateDocumentContent(content)] *)
Definition validateDocumentContent (content : jsstring) : ValidationResult :=
  if match content with [] => true | _ :: _ => false end
     || (List.length (trim content) =? 0)%nat
  then {| isValid := false; validationError := Some (lit "Document content is empty") |}
  else if (List.length (trim content) <? 50)%nat
  then {| isValid := false;
          validationError :=
            Some (lit "Document content is too short for meaningful analysis") |}
  else {| isValid := true; validationError := None |}.

Section Instance.
Variable env : Env.

(** [buildAnalysisPrompt(documentContent)] *)
Definition buildAnalysisPrompt (documentContent : jsstring) : jsstring :=
  analysisPromptHead ++ documentContent ++ analysisPromptTail.

(** [await response.json()]: the whole body, decoded and parsed. *)
Definition responseJson (response : Response) : result json :=
  match body response with
  | None => jsonParse env []
  | Some b =>
      match ending b with
      | EndFails e => Threw e
      | EndDone => jsonParse env (Utf8.decode (List.concat (reads b)))
      end
  end.

(** [analysis.name] on the parsed analysis. *)
Definition field (analysis : json) (name : jsstring) : result (option json) :=
  match analysis with
  | JNull => Threw (ErrorObject (typeErrorMessage (runtime env) (ReadOfNull name)))
  | _ => Returned (getField analysis name)
  end.

Definition notSpecified : json := JStr (lit "Not specified").
Definition half : json := JNum 5 (-1).

(** [processAnalysis(analysis)] *)
Definition processAnalysis (analysis : json) : result json :=
  crm <-- field analysis (lit "criticalRequirementsMatrix") ;;
  ec <-- field analysis (lit "evaluationCriteria") ;;
  si <-- field analysis (lit "strategicIntelligence") ;;
  wt <-- field analysis (lit "winThemes") ;;
  redFlags <-- field analysis (lit "redFlags") ;;
  deadlines <-- field analysis (lit "deadlines") ;;
  stakeholders <-- field analysis (lit "stakeholders") ;;
  Returned (JObj
    [ (lit "criticalRequirementsMatrix", JObj
        [ (lit "mandatory", orElse (optField crm (lit "mandatory")) (JArr []));
          (lit "desired", orElse (optField crm (lit "desired")) (JArr []));
          (lit "optional", orElse (optField crm (lit "optional")) (JArr []));
          (lit "hidden", orElse (optField crm (lit "hidden")) (JArr [])) ]);
      (lit "evaluationCriteria", JObj
        [ (lit "scoringMethodology",
            orElse (optField ec (lit "scoringMethodology")) notSpecified);
          (lit "criteria", orElse (optField ec (lit "criteria")) (JArr []));
          (lit "budgetIndicators",
            orElse (optField ec (lit "budgetIndicators")) notSpecified);
          (lit "riskFactors", orElse (optField ec (lit "riskFactors")) (JArr [])) ]);
      (lit "strategicIntelligence", JObj
        [ (lit "incumbentAdvantages",
            orElse (optField si (lit "incumbentAdvantages")) notSpecified);
          (lit "politicalLandscape",
            orElse (optField si (lit "politicalLandscape")) notSpecified);
          (lit "timelinePressures",
            orElse (optField si (lit "timelinePressures")) notSpecified);
          (lit "competitiveOpportunities",
            orElse (optField si (lit "competitiveOpportunities")) notSpecified);
          (lit "confidence", orElse (optField si (lit "confidence")) half) ]);
      (lit "winThemes", JObj
        [ (lit "primaryValueDrivers",
            orElse (optField wt (lit "primaryValueDrivers")) (JArr []));
          (lit "painPoints", orElse (optField wt (lit "painPoints")) (JArr []));
          (lit "keyDifferentiators",
            orElse (optField wt (lit "keyDifferentiators")) (JArr []));
          (lit "requiredProofPoints",
            orElse (optField wt (lit "requiredProofPoints")) (JArr []));
          (lit "confidence", orElse (optField wt (lit "confidence")) half) ]);
      (lit "redFlags", orElse redFlags (JArr []));
      (lit "deadlines", orElse deadlines (JArr []));
      (lit "stakeholders", orElse stakeholders (JArr [])) ]).

Definition analysisEvent (st : anaStatus) (p : Z) (step error : option jsstring)
  : AnalysisProgress :=
  {| ap_status := st; ap_progress := p; ap_currentStep := step; ap_error := error |}.

(** [data.choices?.[0]?.message?.content] *)
Definition messageContent (data : json) : result (option json) :=
  match data with
  | JNull => Threw (ErrorObject (typeErrorMessage (runtime env)
                                   (ReadOfNull (lit "choices"))))
  | _ =>
      Returned (optField (optField (optIndex (getField data (lit "choices")) 0)
                                   (lit "message")) (lit "content"))
  end.

(** [content.match(...)]: only a string has the method. *)
Definition matchJson (content : json) : result (option jsstring) :=
  match content with
  | JStr s => Returned (Regex.matchBraces s)
  | _ => Threw (ErrorObject (typeErrorMessage (runtime env)
                               (NotAFunction (lit "match"))))
  end.

(** [analyzeDocument(documentContent, onProgress)] *)
Definition analyzeDocument (documentContent : jsstring)
           (onProgress : option (AnalysisProgress -> M unit)) : M json :=
  if negb (enableAIGeneration (config env)) then
    throw (ErrorObject (lit "AI generation is disabled in configuration"))
  else
    previous <- getController ;;
    match previous with
    | Some c => abort c
    | None => ret tt
    end ;;;
    fresh <- newController ;;
    setController (Some fresh) ;;;
    tryCatch
      (call onProgress
         (analysisEvent AAnalyzing 0 (Some (lit "Preparing analysis...")) None) ;;;
       let prompt := buildAnalysisPrompt documentContent in
       current <- getController ;;
       signal <- match current with
                 | Some c => ret c
                 | None => throw (ErrorObject (typeErrorMessage (runtime env)
                                                 (ReadOfUndefined (lit "signal"))))
                 end ;;
       response <- fetch env {| req_url := completionsUrl;
                                req_model := openai_model (config env);
                                req_userContent := prompt;
                                req_max_tokens := openai_maxTokens (config env);
                                req_stream := false;
                                req_signal := signal |} ;;
       if negb (ok response) then
         throw (ErrorObject (lit "OpenAI API error: " ++ ofN (status response)
                               ++ lit " " ++ statusText response))
       else
         call onProgress
           (analysisEvent AAnalyzing 50
              (Some (lit "Processing analysis results...")) None) ;;;
         data <- lift (responseJson response) ;;
         content <- lift (messageContent data) ;;
         match content with
         | Some c =>
             if negb (truthy content) then
               throw (ErrorObject (lit "No analysis content received from OpenAI"))
             else
               jsonMatch <- lift (matchJson c) ;;
               match jsonMatch with
               | None => throw (ErrorObject (lit "Invalid JSON response from analysis"))
               | Some matched =>
                   call onProgress
                     (analysisEvent AAnalyzing 90
                        (Some (lit "Finalizing results...")) None) ;;;
                   analysis <- lift (jsonParse env matched) ;;
                   processedAnalysis <- lift (processAnalysis analysis) ;;
                   call onProgress
                     (analysisEvent ACompleted 100
                        (Some (lit "Analysis complete")) None) ;;;
                   ret processedAnalysis
               end
         | None => throw (ErrorObject (lit "No analysis content received from OpenAI"))
         end)
      (fun error =>
         let errorMessage := messageOr error (lit "Unknown error occurred") in
         call onProgress (analysisEvent AError 0 None (Some errorMessage)) ;;;
         throw (ErrorObject (lit "Document analysis failed: " ++ errorMessage))).

(** [cancelAnalysis()] *)
Definition cancelAnalysis : M unit :=
  current <- getController ;;
  match current with
  | Some c => abort c
  | None => ret tt
  end.

(** [handleAnalyzeDocument] of the analyzer page, the caller of
    [analyzeDocument]; [setProgress] and [setAnalysis] are logged. *)
Definition handleAnalyzeDocument (documentContent : jsstring) : M unit :=
  let validation := validateDocumentContent documentContent in
  if negb (isValid validation) then
    emit (Alert (match present (validationError validation) with
                 | Some e => e
                 | None => lit "Please provide valid document content for analysis"
                 end))
  else
    tryCatch
      (emit (AnalysisEv (analysisEvent AAnalyzing 0
                           (Some (lit "Starting analysis...")) None)) ;;;
       result <- analyzeDocument documentContent
                   (Some (fun progressUpdate => emit (AnalysisEv progressUpdate))) ;;
       emit (SetAnalysis result) ;;;
       emit (AnalysisEv (analysisEvent ACompleted 100
                           (Some (lit "Analysis complete")) None)))
      (fun error =>
         emit (ConsoleError (lit "Analysis failed:") error) ;;;
         emit (AnalysisEv (analysisEvent AError 0 None
                             (Some (messageOr error (lit "Analysis failed")))))).

End Instance.

End DocumentAnalyzer.

(* ================================================================== *)
(** * A sample engine, network and page for computed examples *)
(* ================================================================== *)

Module Sample.

(** Decimal digits of a positive integer without its trailing zeros, and
    the number of zeros removed. *)
Fixpoint stripZeros (fuel : nat) (m : Z) (removed : Z) : Z * Z :=
  match fuel with
  | O => (m, removed)
  | S f => if (m mod 10 =? 0)%Z then stripZeros f (m / 10)%Z (removed + 1)%Z
           else (m, removed)
  end.

Definition zeros (n : Z) : jsstring := repeat 48%N (Z.to_nat n).

(** [Number::toString] of ECMAScript on the decimal reading [m * 10^e];
    this is what an engine prints when the literal has at most 15
    significant digits and lies in the normal binary64 range. *)
Definition printNumber (m e : Z) : jsstring :=
  if (m =? 0)%Z then lit "0"
  else
    let '(d, z) := stripZeros (Z.to_nat (Z.log2 (Z.abs m)) + 1) (Z.abs m) 0 in
    let digits := ofN (Z.to_N d) in
    let k := Z.of_nat (List.length digits) in
    let n := (k + e + z)%Z in
    let sign := if (m <? 0)%Z then lit "-" else [] in
    let expo x := (if (x <? 0)%Z then lit "-" else lit "+") ++ ofN (Z.to_N (Z.abs x)) in
    sign ++
    (if ((k <=? n) && (n <=? 21))%Z then digits ++ zeros (n - k)
     else if ((0 <? n) && (n <=? 21))%Z then
       firstn (Z.to_nat n) digits ++ lit "." ++ skipn (Z.to_nat n) digits
     else if ((-6 <? n) && (n <=? 0))%Z then lit "0." ++ zeros (- n) ++ digits
     else match digits with
          | [d1] => [d1] ++ lit "e" ++ expo (n - 1)%Z
          | d1 :: more => [d1] ++ lit "." ++ more ++ lit "e" ++ expo (n - 1)%Z
          | [] => []
          end).

Definition engine : Runtime :=
  {| numberToString := printNumber;
     syntaxErrorMessage := fun _ => lit "Unexpected token in JSON";
     typeErrorMessage := fun k =>
       match k with
       | ReadOfNull name =>
           lit "Cannot read properties of null (reading '" ++ name ++ lit "')"
       | ReadOfUndefined name =>
           lit "Cannot read properties of undefined (reading '" ++ name ++ lit "')"
       | NotAFunction name => name ++ lit " is not a function"
       | NoPrimitive => lit "Cannot convert object to primitive value"
       end |}.

Definition cfg (enabled : bool) : Config :=
  {| enableAIGeneration := enabled;
     openai_model := lit "gpt-4";
     openai_maxTokens := 2000 |}.

(** An environment whose network answers every request in the same way
    and whose document index is empty. *)
Definition env (enabled : bool) (answer : FetchOutcome) : Env :=
  {| runtime := engine;
     config := cfg enabled;
     network := fun _ => answer;
     getRelevantContentForRFP := fun _ _ => [] |}.

(** An environment whose network answers the n-th request as the n-th
    element of a script, and with a server error beyond it. *)
Definition scripted (answers : list FetchOutcome) : Env :=
  {| runtime := engine;
     config := cfg true;
     network := fun n => nth n answers
                           (FetchResponds {| status := 500;
                                             statusText := lit "Internal Server Error";
                                             body := None |});
     getRelevantContentForRFP := fun _ _ => [] |}.

(** A fresh instance: no controller, nothing logged. *)
Definition fresh : World :=
  {| abortController := None; nextController := 0; fetches := 0; log := [] |}.

(** A 200 response whose body arrives in the given reads. *)
Definition bodyOf (rs : list (list byte)) : Body :=
  {| reads := rs; ending := EndDone |}.

Definition response (rs : list (list byte)) : Response :=
  {| status := 200; statusText := lit "OK"; body := Some (bodyOf rs) |}.

Definition streamed (rs : list (list byte)) : FetchOutcome :=
  FetchResponds (response rs).

(** A response without body that reports a server error. *)
Definition serverError : FetchOutcome :=
  FetchResponds {| status := 500; statusText := lit "Internal Server Error";
                   body := None |}.

(** Bytes of a literal in which a backquote stands for a double quote. *)
Definition bytesq (s : string) : list byte :=
  map (fun b => if Byte.eqb b x60 then x22 else b) (Utf8.bytes s).

Definition noContext : GenerationContext :=
  {| rfpContent := None; companyProfile := None; requirements := None;
     constraints := None; targetAudience := None |}.

End Sample.


(* ================================================================== *)
(** * Binary64 arithmetic of the adjusted progress *)
(* ================================================================== *)

Module Number.

(** A finite binary64 number [m * 2^e]: [m] is zero, or
    [2^52 <= |m| < 2^53]. *)
Definition number := (Z * Z)%type.

(** The binary64 number nearest to [p / q] ([0 < q]), ties to even;
    rounding is symmetric in the sign. *)
Definition nearest (p q : Z) : number :=
  if (p =? 0)%Z then (0, 0)%Z
  else if (p <? 0)%Z then let '(m, e) := Double.nearest (- p) q in (- m, e)%Z
  else Double.nearest p q.

Definition ofInt (n : Z) : number := nearest n 1.

(** A decimal literal [m * 10^-k] of the source, as [0.9]. *)
Definition literal (m k : Z) : number := nearest m (10 ^ k).

(** [x * y] and [x + y], correctly rounded. *)
Definition mul (x y : number) : number :=
  let '(mx, ex) := x in
  let '(my, ey) := y in
  let s := (ex + ey)%Z in
  if (s <? 0)%Z then nearest (mx * my) (2 ^ (- s)) else nearest (mx * my * 2 ^ s) 1.

Definition add (x y : number) : number :=
  let '(mx, ex) := x in
  let '(my, ey) := y in
  let e := Z.min ex ey in
  let sum := (mx * 2 ^ (ex - e) + my * 2 ^ (ey - e))%Z in
  if (e <? 0)%Z then nearest sum (2 ^ (- e)) else nearest (sum * 2 ^ e) 1.

(** [Math.round(x)]: the integer nearest to [x], a half goes up. *)
Definition round (x : number) : Z :=
  let '(m, e) := x in
  if (e <? 0)%Z then ((2 * m + 2 ^ (- e)) / 2 ^ (1 - e))%Z else (m * 2 ^ e)%Z.

End Number.

(* ================================================================== *)
(** * [DocumentAnalyzerService]: analysis of an uploaded file *)
(* ================================================================== *)

(** A [File] of the browser: its name, size and type, and what a
    [FileReader] delivers for [readAsText]: the text with [onload], or
    nothing with [onerror]. *)
Record File := {
  file_name : jsstring;
  file_size : Z;
  file_type : jsstring;
  file_text : option jsstring
}.

Definition pdfType : jsstring := lit "application/pdf".
Definition docxType : jsstring :=
  lit "application/vnd.openxmlformats-officedocument.wordprocessingml.document".
Definition textType : jsstring := lit "text/plain".

Module FileAnalysis.

(** [extractTextFromFile(file)]: how the promise settles. *)
Definition extractTextFromFile (file : File) : result jsstring :=
  if JsString.eqb (file_type file) textType then
    match file_text file with
    | Some text => Returned text
    | None => Threw (ErrorObject (lit "Failed to read text file"))
    end
  else if JsString.eqb (file_type file) pdfType then
    Threw (ErrorObject (lit "PDF text extraction not implemented yet"))
  else if JsString.eqb (file_type file) docxType then
    Threw (ErrorObject (lit "DOCX text extraction not implemented yet"))
  else Threw (ErrorObject (lit "Unsupported file type")).

(** [Math.round(10 + (progressUpdate.progress * 0.9))] *)
Definition adjustedProgress (progress : Z) : Z :=
  Number.round
    (Number.add (Number.ofInt 10)
                (Number.mul (Number.ofInt progress) (Number.literal 9 1))).

(** [{ ...progressUpdate, progress: Math.round(adjustedProgress) }] *)
Definition adjust (progressUpdate : AnalysisProgress) : AnalysisProgress :=
  {| ap_status := ap_status progressUpdate;
     ap_progress := adjustedProgress (ap_progress progressUpdate);
     ap_currentStep := ap_currentStep progressUpdate;
     ap_error := ap_error progressUpdate |}.

Section Instance.
Variable env : Env.

(** [analyzeDocumentFromFile(file, onProgress)] *)
Definition analyzeDocumentFromFile (file : File)
           (onProgress : option (AnalysisProgress -> M unit)) : M json :=
  tryCatch
    (call onProgress
       (DocumentAnalyzer.analysisEvent AAnalyzing 0
          (Some (lit "Extracting text from file...")) None) ;;;
     documentContent <- lift (extractTextFromFile file) ;;
     call onProgress
       (DocumentAnalyzer.analysisEvent AAnalyzing 10
          (Some (lit "Text extraction complete, starting analysis...")) None) ;;;
     DocumentAnalyzer.analyzeDocument env documentContent
       (Some (fun progressUpdate => call onProgress (adjust progressUpdate))))
    (fun error =>
       let errorMessage := messageOr error (lit "Unknown error occurred") in
       call onProgress
         (DocumentAnalyzer.analysisEvent AError 0 None (Some errorMessage)) ;;;
       throw error).

End Instance.

End FileAnalysis.

(* ================================================================== *)
(** * [RFPAnalyzer]: cancelling from the page *)
(* ================================================================== *)

Module RFPAnalyzer.

(** [handleCancelAnalysis]; [setProgress] is logged. *)
Definition handleCancelAnalysis : M unit :=
  DocumentAnalyzer.cancelAnalysis ;;;
  emit (AnalysisEv (DocumentAnalyzer.analysisEvent AIdle 0 None None)).

End RFPAnalyzer.

(* ================================================================== *)
(** * [RFPUploader]: the checks of an upload *)
(* ================================================================== *)

Module RFPUploader.

Inductive uploadStatus := Uploading | Processing | Completed | UploadError.

Record UploadedFile := {
  uf_id : jsstring;
  uf_name : jsstring;
  uf_size : Z;
  uf_type : jsstring;
  uf_status : uploadStatus;
  uf_progress : Z;
  uf_error : option jsstring
}.

Definition validTypes : list jsstring := [pdfType; docxType; textType].

Definition maxSize : Z := 10 * 1024 * 1024.

(** The entry that [handleFiles] appends for one file; [fileId] is the
    random identifier drawn for it. *)
Definition newEntry (fileId : jsstring) (file : File) : UploadedFile :=
  if negb (existsb (JsString.eqb (file_type file)) validTypes) then
    {| uf_id := fileId; uf_name := file_name file; uf_size := file_size file;
       uf_type := file_type file; uf_status := UploadError; uf_progress := 0;
       uf_error := Some (lit "Unsupported file type. Please upload PDF, DOCX, or TXT files.") |}
  else if (maxSize <? file_size file)%Z then
    {| uf_id := fileId; uf_name := file_name file; uf_size := file_size file;
       uf_type := file_type file; uf_status := UploadError; uf_progress := 0;
       uf_error := Some (lit "File size exceeds 10MB limit.") |}
  else
    {| uf_id := fileId; uf_name := file_name file; uf_size := file_size file;
       uf_type := file_type file; uf_status := Uploading; uf_progress := 0;
       uf_error := None |}.

(** [handleFiles(files)]: the list of uploads once the loop over the
    files has run; the simulated progress that its timers add later is
    drawn from [Math.random] and is no part of this. *)
Fixpoint handleFiles (files : list (jsstring * File))
         (uploadedFiles : list UploadedFile) : list UploadedFile :=
  match files with
  | [] => uploadedFiles
  | (fileId, file) :: rest => handleFiles rest (uploadedFiles ++ [newEntry fileId file])
  end.

(** [removeFile(fileId)] *)
Definition removeFile (fileId : jsstring) (uploadedFiles : list UploadedFile)
  : list UploadedFile :=
  filter (fun f => negb (JsString.eqb (uf_id f) fileId)) uploadedFiles.

End RFPUploader.

(* ================================================================== *)
(** * Vocabulary of the properties *)
(* ================================================================== *)

(** Server-sent-event frames: each frame is followed by a line feed. *)
Definition lf : byte := x0a.

Definition frames (fs : list (list byte)) : list byte :=
  List.concat (map (fun f => f ++ [lf]) fs).

(** The frame that carries the content delta [s] (a text without quotes
    or backslashes). *)
Definition contentFrame (s : string) : list byte :=
  Sample.bytesq ("data: {`choices`:[{`delta`:{`content`:`" ++ s ++ "`}}]}")%string.

Definition doneFrame : list byte := Utf8.bytes "data: [DONE]".

(** A frame line: ASCII bytes without a line feed. *)
Definition isLine (l : list byte) : bool :=
  forallb (fun b => (Byte.to_N b <? 128)%N && negb (Byte.to_N b =? 10)%N) l.

(** Callbacks that log their argument. *)
Definition logProgress : option (GenerationProgress -> M unit) :=
  Some (fun p => emit (ProgressEv p)).
Definition logChunk : option (json -> M unit) :=
  Some (fun c => emit (ChunkEv c)).
Definition logSectionChunk : option (jsstring -> json -> M unit) :=
  Some (fun id c => emit (SectionChunkEv id c)).
Definition logAnalysis : option (AnalysisProgress -> M unit) :=
  Some (fun p => emit (AnalysisEv p)).

(** Projections of a sequence of events. *)
Definition chunkDeltas (evs : list Event) : list json :=
  flat_map (fun ev => match ev with ChunkEv d => [d] | _ => [] end) evs.

Definition progressEvents (evs : list Event) : list GenerationProgress :=
  flat_map (fun ev => match ev with ProgressEv p => [p] | _ => [] end) evs.

Definition analysisEvents (evs : list Event) : list AnalysisProgress :=
  flat_map (fun ev => match ev with AnalysisEv p => [p] | _ => [] end) evs.

Definition requests (evs : list Event) : list Request :=
  flat_map (fun ev => match ev with Fetched r => [r] | _ => [] end) evs.

Definition isStatus (st : genStatus) (p : GenerationProgress) : bool :=
  match st, gp_status p with
  | StPending, StPending => true
  | StGenerating, StGenerating => true
  | StCompleted, StCompleted => true
  | StError, StError => true
  | _, _ => false
  end.

Definition isAnaError (p : AnalysisProgress) : bool :=
  match ap_status p with
  | AError => true
  | _ => false
  end.

(** The last element of a sequence, if any. *)
Definition lastOf {A} (l : list A) : option A := hd_error (rev l).

(** The text that the deltas add to the accumulated content. *)
Definition deltaText (rt : Runtime) (deltas : list json) : jsstring :=
  List.concat (map (fun d => match toStr rt d with Some s => s | None => [] end) deltas).

(** The events that open every call that passes the feature-flag check: the
    previous controller, if any, is aborted. *)
Definition abortOf (previous : option nat) : list Event :=
  match previous with
  | Some c => [Aborted c]
  | None => []
  end.

(** The request of [generateSection] on world [w]. *)
Definition sectionRequest (env : Env) (sectionType : jsstring)
           (context : GenerationContext) (template : SectionTemplate) (w : World)
  : Request :=
  {| req_url := completionsUrl;
     req_model := openai_model (config env);
     req_userContent := OpenAIService.buildPrompt env sectionType context template;
     req_max_tokens :=
       match tpl_maxTokens template with
       | Some n => if (n =? 0)%Z then openai_maxTokens (config env) else n
       | None => openai_maxTokens (config env)
       end;
     req_stream := true;
     req_signal := nextController w |}.

(** The request of [analyzeDocument] on world [w]. *)
Definition analysisRequest (env : Env) (documentContent : jsstring) (w : World)
  : Request :=
  {| req_url := completionsUrl;
     req_model := openai_model (config env);
     req_userContent := DocumentAnalyzer.buildAnalysisPrompt documentContent;
     req_max_tokens := openai_maxTokens (config env);
     req_stream := false;
     req_signal := nextController w |}.

(** The structure that [processAnalysis] promises: every path of the
    analysis result with the default of its leaf. *)
Definition expectedLeaves : list (list jsstring * json) :=
  [ ([lit "criticalRequirementsMatrix"; lit "mandatory"], JArr []);
    ([lit "criticalRequirementsMatrix"; lit "desired"], JArr []);
    ([lit "criticalRequirementsMatrix"; lit "optional"], JArr []);
    ([lit "criticalRequirementsMatrix"; lit "hidden"], JArr []);
    ([lit "evaluationCriteria"; lit "scoringMethodology"], DocumentAnalyzer.notSpecified);
    ([lit "evaluationCriteria"; lit "criteria"], JArr []);
    ([lit "evaluationCriteria"; lit "budgetIndicators"], DocumentAnalyzer.notSpecified);
    ([lit "evaluationCriteria"; lit "riskFactors"], JArr []);
    ([lit "strategicIntelligence"; lit "incumbentAdvantages"], DocumentAnalyzer.notSpecified);
    ([lit "strategicIntelligence"; lit "politicalLandscape"], DocumentAnalyzer.notSpecified);
    ([lit "strategicIntelligence"; lit "timelinePressures"], DocumentAnalyzer.notSpecified);
    ([lit "strategicIntelligence"; lit "competitiveOpportunities"],
       DocumentAnalyzer.notSpecified);
    ([lit "strategicIntelligence"; lit "confidence"], DocumentAnalyzer.half);
    ([lit "winThemes"; lit "primaryValueDrivers"], JArr []);
    ([lit "winThemes"; lit "painPoints"], JArr []);
    ([lit "winThemes"; lit "keyDifferentiators"], JArr []);
    ([lit "winThemes"; lit "requiredProofPoints"], JArr []);
    ([lit "winThemes"; lit "confidence"], DocumentAnalyzer.half);
    ([lit "redFlags"], JArr []);
    ([lit "deadlines"], JArr []);
    ([lit "stakeholders"], JArr []) ].

(** [v.a?.b] along a path, as [processAnalysis] reads its argument. *)
Fixpoint lookup (v : option json) (path : list jsstring) : option json :=
  match path with
  | [] => v
  | name :: rest => lookup (optField v name) rest
  end.

(** A leaf of the result of [processAnalysis]: it is there and truthy,
    and it is its default when the argument has nothing at this place. *)
Definition leafOk (analysis result : json) (leaf : list jsstring * json) : Prop :=
  exists v,
    lookup (Some result) (fst leaf) = Some v /\
    truthy (Some v) = true /\
    (lookup (Some analysis) (fst leaf) = None -> v = snd leaf).

(** A value is structurally total, relative to the parsed analysis, when
    every expected leaf is in order. *)
Definition structurallyTotal (analysis result : json) : Prop :=
  Forall (leafOk analysis result) expectedLeaves.

(** The two placeholders of a prompt template. *)
Definition tokSectionType : jsstring := lit "{sectionType}".
Definition tokTemplateName : jsstring := lit "{templateName}".

(** A text without placeholder. *)
Definition placeholderFree (s : jsstring) : bool :=
  negb (includes s tokSectionType) && negb (includes s tokTemplateName).

(** The texts that a context contributes to a prompt. *)
Definition contextTexts (context : GenerationContext) : list jsstring :=
  let one (o : option jsstring) := match o with Some s => [s] | None => [] end in
  let many (o : option (list jsstring)) := match o with Some l => l | None => [] end in
  one (rfpContent context) ++ one (companyProfile context)
    ++ many (requirements context) ++ many (constraints context)
    ++ one (targetAudience context).

Definition contextClean (context : GenerationContext) : bool :=
  forallb placeholderFree (contextTexts context).

(** The excerpt that the document index returns for the context, if it
    is consulted, has no placeholder. *)
Definition excerptClean (env : Env) (sectionType : jsstring)
           (context : GenerationContext) : bool :=
  match rfpContent context with
  | Some rfp => placeholderFree (getRelevantContentForRFP env rfp sectionType)
  | None => true
  end.


(** The world [w] with more events logged, newest first. *)
Definition extend (w : World) (newer : list Event) : World :=
  {| abortController := abortController w;
     nextController := nextController w;
     fetches := fetches w;
     log := newer ++ log w |}.

(** The instance once [finally] has run. *)
Definition settled (w : World) : World :=
  {| abortController := None;
     nextController := nextController w;
     fetches := fetches w;
     log := log w |}.

(** The world of [generateSection] when the network has settled the
    request: the previous controller aborted, a new one installed, the
    first progress event and the request logged. *)
Definition opened (env : Env) (sectionType : jsstring) (context : GenerationContext)
           (template : SectionTemplate) (w : World) : World :=
  {| abortController := Some (nextController w);
     nextController := S (nextController w);
     fetches := S (fetches w);
     log := Fetched (sectionRequest env sectionType context template w)
              :: ProgressEv (OpenAIService.progressEvent sectionType StGenerating 0 None None)
              :: abortOf (abortController w) ++ log w |}.

(** The same for [analyzeDocument]. *)
Definition openedAnalysis (env : Env) (documentContent : jsstring) (w : World) : World :=
  {| abortController := Some (nextController w);
     nextController := S (nextController w);
     fetches := S (fetches w);
     log := Fetched (analysisRequest env documentContent w)
              :: AnalysisEv (DocumentAnalyzer.analysisEvent AAnalyzing 0
                               (Some (lit "Preparing analysis...")) None)
              :: abortOf (abortController w) ++ log w |}.

(** The events of a call to [generateSection] on [w], given the events
    [newer] (newest first) that follow the request. *)
Definition callEvents (env : Env) (sectionType : jsstring) (context : GenerationContext)
           (template : SectionTemplate) (w : World) (newer : list Event) : list Event :=
  abortOf (abortController w)
    ++ [ProgressEv (OpenAIService.progressEvent sectionType StGenerating 0 None None);
        Fetched (sectionRequest env sectionType context template w)]
    ++ rev newer.

(** The error event of the [catch] block of [generateSection]. *)
Definition errorEvent (sectionType : jsstring) (e : thrown) : Event :=
  ProgressEv (OpenAIService.progressEvent sectionType StError 0 None
                (Some (messageOr e (lit "Unknown error occurred")))).

(** What the [try] block of [generateSection] does once the network has
    settled the request, with the logging callbacks. *)
Definition attempt (env : Env) (sectionType : jsstring) (answer : FetchOutcome)
  : M jsstring :=
  match answer with
  | FetchRejects e => throw e
  | FetchResponds response =>
      if negb (ok response) then
        throw (ErrorObject (lit "OpenAI API error: " ++ ofN (status response)
                              ++ lit " " ++ statusText response))
      else
        match body response with
        | None => throw (ErrorObject (lit "No response body received"))
        | Some b =>
            OpenAIService.readLoop env sectionType logProgress logChunk
              (reads b) (ending b) [] 0
        end
  end.

(** The test of the line loop for the end of the stream. *)
Definition isDoneLine (line : jsstring) : bool :=
  startsWith line (lit "data: ") && JsString.eqb (slice 6 line) (lit "[DONE]").

(** Some line of some read is the end-of-stream frame. *)
Definition doneSeen (pending : list (list byte)) : Prop :=
  Exists (fun value => Exists (fun l => l = lit "data: [DONE]")
                         (split 10 (Utf8.decode value))) pending.

Definition doneSeenb (pending : list (list byte)) : bool :=
  existsb (fun value => existsb isDoneLine (split 10 (Utf8.decode value))) pending.

(** An event of a delta: the chunk callback or a generating progress. *)
Definition deltaEvent (ev : Event) : Prop :=
  match ev with
  | ChunkEv _ => True
  | ProgressEv p => gp_status p = StGenerating
  | _ => False
  end.

(** The reply of the model in a response:
    [data.choices?.[0]?.message?.content] of the parsed body. *)
Definition replyContent (env : Env) (response : Response) : result (option json) :=
  Res.bind (DocumentAnalyzer.responseJson env response)
           (DocumentAnalyzer.messageContent env).

(** The brace-delimited text that [analyzeDocument] takes from a reply. *)
Definition extractJson (env : Env) (content : option json) : result jsstring :=
  match content with
  | Some c =>
      if negb (truthy content)
      then Threw (ErrorObject (lit "No analysis content received from OpenAI"))
      else
        Res.bind (DocumentAnalyzer.matchJson env c)
          (fun jsonMatch =>
             match jsonMatch with
             | Some matched => Returned matched
             | None => Threw (ErrorObject (lit "Invalid JSON response from analysis"))
             end)
  | None => Threw (ErrorObject (lit "No analysis content received from OpenAI"))
  end.

(** Parsing and post-processing of the extracted text. *)
Definition analysisOf (env : Env) (matched : jsstring) : result json :=
  Res.bind (jsonParse env matched) (DocumentAnalyzer.processAnalysis env).

Definition failureMessage (e : thrown) : jsstring :=
  messageOr e (lit "Unknown error occurred").

(** The [catch] block of [analyzeDocument] with the logging callback. *)
Definition failed (e : thrown) (w : World) : result json * World :=
  (Threw (ErrorObject (lit "Document analysis failed: " ++ failureMessage e)),
   extend w [AnalysisEv (DocumentAnalyzer.analysisEvent AError 0 None
                           (Some (failureMessage e)))]).

(** The outcome of [analyzeDocument] for the outcome of the analysis of
    the extracted text. *)
Definition wrapped (r : result json) : result json :=
  match r with
  | Returned a => Returned a
  | Threw e => Threw (ErrorObject (lit "Document analysis failed: " ++ failureMessage e))
  end.

(** The progress milestones of [analyzeDocument] after the request. *)
Definition step50 : Event :=
  AnalysisEv (DocumentAnalyzer.analysisEvent AAnalyzing 50
                (Some (lit "Processing analysis results...")) None).
Definition step90 : Event :=
  AnalysisEv (DocumentAnalyzer.analysisEvent AAnalyzing 90
                (Some (lit "Finalizing results...")) None).
Definition step100 : Event :=
  AnalysisEv (DocumentAnalyzer.analysisEvent ACompleted 100
                (Some (lit "Analysis complete")) None).

(** A call to one of the two services. *)
Inductive serviceCall :=
| GenerateSection (sectionType : jsstring) (context : GenerationContext)
                  (template : SectionTemplate)
| AnalyzeDocument (documentContent : jsstring).

(** The failure of a call whose callbacks log their argument, if it
    fails, and the world it leaves. *)
Definition failureOf (env : Env) (c : serviceCall) (w : World) : option thrown * World :=
  match c with
  | GenerateSection sectionType context template =>
      match OpenAIService.generateSection env sectionType logProgress logChunk
              context template w with
      | (Threw e, w') => (Some e, w')
      | (Returned _, w') => (None, w')
      end
  | AnalyzeDocument documentContent =>
      match DocumentAnalyzer.analyzeDocument env documentContent logAnalysis w with
      | (Threw e, w') => (Some e, w')
      | (Returned _, w') => (None, w')
      end
  end.

(** The terminal error event of a call, for an error message. *)
Definition errorEventOf (c : serviceCall) (message : jsstring) : Event :=
  match c with
  | GenerateSection sectionType _ _ =>
      ProgressEv (OpenAIService.progressEvent sectionType StError 0 None (Some message))
  | AnalyzeDocument _ =>
      AnalysisEv (DocumentAnalyzer.analysisEvent AError 0 None (Some message))
  end.

Definition isErrorEvent (ev : Event) : bool :=
  match ev with
  | ProgressEv p => isStatus StError p
  | AnalysisEv p => isAnaError p
  | _ => false
  end.

(** How the failure that reaches the caller relates to the message of
    the error event. *)
Definition propagates (c : serviceCall) (message : jsstring) (e : thrown) : Prop :=
  match c with
  | GenerateSection _ _ _ => message = messageOr e (lit "Unknown error occurred")
  | AnalyzeDocument _ => e = ErrorObject (lit "Document analysis failed: " ++ message)
  end.

(** The stream of the decoder example: a content frame and the end
    frame. *)
Definition abFrames : list (list byte) := [contentFrame "ab"; doneFrame].
Definition helloFrames : list (list byte) :=
  [contentFrame "Hello"; contentFrame " world"; doneFrame].

(** The response body of a reply of the model (a text without quotes or
    backslashes). *)
Definition replyBody (reply : string) : list byte :=
  Sample.bytesq ("{`choices`:[{`message`:{`content`:`" ++ reply ++ "`}}]}")%string.

(** ** The stream of [generateSection], read as a whole *)

(** The lines of all reads, in order: every read is decoded and split on
    its own. *)
Definition allLines (pending : list (list byte)) : list jsstring :=
  flat_map (fun value => split 10 (Utf8.decode value)) pending.

(** The payloads of the data lines. *)
Definition payloads (lines : list jsstring) : list jsstring :=
  map (slice 6) (filter (fun line => startsWith line (lit "data: ")) lines).

Definition isDone (data : jsstring) : bool := JsString.eqb data (lit "[DONE]").

(** The payloads before the end mark, and whether there is one. *)
Fixpoint beforeDone (datas : list jsstring) : list jsstring :=
  match datas with
  | [] => []
  | data :: rest => if isDone data then [] else data :: beforeDone rest
  end.

Definition hasDone (datas : list jsstring) : bool := existsb isDone datas.

(** The delta that a payload contributes: the value handed to the chunk
    callback and the text appended for it.  A payload that does not
    parse, has no truthy [choices[0].delta.content] or whose content
    cannot be appended contributes nothing. *)
Definition payloadDelta (env : Env) (data : jsstring) : option (json * jsstring) :=
  match jsonParse env data with
  | Returned parsed =>
      match OpenAIService.deltaContent env parsed with
      | Returned (Some content) =>
          if truthy (Some content) then
            match toStr (runtime env) content with
            | Some s => Some (content, s)
            | None => None
            end
          else None
      | _ => None
      end
  | Threw _ => None
  end.

Definition lineDeltas (env : Env) (lines : list jsstring) : list (json * jsstring) :=
  flat_map (fun data => match payloadDelta env data with
                        | Some d => [d]
                        | None => []
                        end)
           (beforeDone (payloads lines)).

Definition streamText (deltas : list (json * jsstring)) : jsstring :=
  List.concat (map snd deltas).

(** The events of the deltas, oldest first: the chunk callback, logged
    through [chunkEv], then the progress event with the count and the
    text so far. *)
Fixpoint deltaEvents (sectionType : jsstring) (chunkEv : json -> Event)
         (accumulatedContent : jsstring) (chunkCount : Z)
         (deltas : list (json * jsstring)) : list Event :=
  match deltas with
  | [] => []
  | (content, s) :: rest =>
      chunkEv content
        :: ProgressEv (OpenAIService.progressEvent sectionType StGenerating
                         (progressEstimate (chunkCount + 1))
                         (Some (accumulatedContent ++ s)) None)
        :: deltaEvents sectionType chunkEv (accumulatedContent ++ s)
             (chunkCount + 1) rest
  end.

(** The outcome of a stream and its events after the request, oldest
    first. *)
Definition streamRun (env : Env) (sectionType : jsstring) (chunkEv : json -> Event)
           (lines : list jsstring) (ending : bodyEnd) : result jsstring * list Event :=
  let deltas := lineDeltas env lines in
  let content := streamText deltas in
  let events := deltaEvents sectionType chunkEv [] 0 deltas in
  if hasDone (payloads lines) then
    (Returned content,
     events ++ [ProgressEv (OpenAIService.progressEvent sectionType StCompleted 100
                              (Some content) None)])
  else
    match ending with
    | EndDone => (Returned content, events)
    | EndFails e => (Threw e, events ++ [errorEvent sectionType e])
    end.

(** The same for the answer of the network to the request. *)
Definition sectionRun (env : Env) (sectionType : jsstring) (chunkEv : json -> Event)
           (answer : FetchOutcome) : result jsstring * list Event :=
  let fails e := (Threw e, [errorEvent sectionType e]) in
  match answer with
  | FetchRejects e => fails e
  | FetchResponds response =>
      if negb (ok response) then
        fails (ErrorObject (lit "OpenAI API error: " ++ ofN (status response)
                              ++ lit " " ++ statusText response))
      else
        match body response with
        | None => fails (ErrorObject (lit "No response body received"))
        | Some b => streamRun env sectionType chunkEv (allLines (reads b)) (ending b)
        end
  end.

(** A chunk callback that logs through [chunkEv]. *)
Definition logVia (chunkEv : json -> Event) : option (json -> M unit) :=
  Some (fun c => emit (chunkEv c)).

(** The environment [env] with a network that gives one answer. *)
Definition answering (env : Env) (answer : FetchOutcome) : Env :=
  {| runtime := runtime env;
     config := config env;
     network := fun _ => answer;
     getRelevantContentForRFP := getRelevantContentForRFP env |}.

(** A response with status 200 whose body delivers the given reads and
    then ends. *)
Definition delivering (pending : list (list byte)) : FetchOutcome :=
  FetchResponds {| status := 200; statusText := lit "OK";
                   body := Some {| reads := pending; ending := EndDone |} |}.

(** ** An analysis, read as a whole *)

(** The progress updates of [analyzeDocument] after the request. *)
Definition progress50 : AnalysisProgress :=
  DocumentAnalyzer.analysisEvent AAnalyzing 50
    (Some (lit "Processing analysis results...")) None.
Definition progress90 : AnalysisProgress :=
  DocumentAnalyzer.analysisEvent AAnalyzing 90 (Some (lit "Finalizing results...")) None.
Definition progress100 : AnalysisProgress :=
  DocumentAnalyzer.analysisEvent ACompleted 100 (Some (lit "Analysis complete")) None.
Definition progressPreparing : AnalysisProgress :=
  DocumentAnalyzer.analysisEvent AAnalyzing 0 (Some (lit "Preparing analysis...")) None.
Definition progressError (message : jsstring) : AnalysisProgress :=
  DocumentAnalyzer.analysisEvent AError 0 None (Some message).

(** The outcome of an analysis for the answer of the network, and its
    progress updates after the request, oldest first. *)
Definition analysisRun (env : Env) (answer : FetchOutcome)
  : result json * list AnalysisProgress :=
  let fails e steps :=
    (Threw (ErrorObject (lit "Document analysis failed: " ++ failureMessage e)),
     steps ++ [progressError (failureMessage e)]) in
  match answer with
  | FetchRejects e => fails e []
  | FetchResponds r =>
      if negb (ok r) then
        fails (ErrorObject (lit "OpenAI API error: " ++ ofN (status r)
                              ++ lit " " ++ statusText r)) []
      else
        match Res.bind (replyContent env r) (extractJson env) with
        | Threw e => fails e [progress50]
        | Returned matched =>
            match analysisOf env matched with
            | Threw e => fails e [progress50; progress90]
            | Returned a => (Returned a, [progress50; progress90; progress100])
            end
        end
  end.

(** The world of [analyzeDocument] when the network has settled the
    request, with a progress callback that logs through [progressEv]. *)
Definition openedVia (progressEv : AnalysisProgress -> Event) (env : Env)
           (documentContent : jsstring) (w : World) : World :=
  {| abortController := Some (nextController w);
     nextController := S (nextController w);
     fetches := S (fetches w);
     log := Fetched (analysisRequest env documentContent w)
              :: progressEv progressPreparing
              :: abortOf (abortController w) ++ log w |}.

(** The progress updates of the file analysis around the analysis. *)
Definition progressExtracting : AnalysisProgress :=
  DocumentAnalyzer.analysisEvent AAnalyzing 0
    (Some (lit "Extracting text from file...")) None.
Definition progressExtracted : AnalysisProgress :=
  DocumentAnalyzer.analysisEvent AAnalyzing 10
    (Some (lit "Text extraction complete, starting analysis...")) None.

(** An event of [analyzeDocument] as the file analysis passes it on. *)
Definition rescaled (ev : Event) : Event :=
  match ev with
  | AnalysisEv p => AnalysisEv (FileAnalysis.adjust p)
  | _ => ev
  end.

(** The event that the [catch] block of the file analysis adds. *)
Definition closing (r : result json) : list Event :=
  match r with
  | Returned _ => []
  | Threw e => [AnalysisEv (progressError (failureMessage e))]
  end.

(** The status of the last progress update of a sequence of events. *)
Definition lastStatus (evs : list Event) : option anaStatus :=
  option_map ap_status (lastOf (analysisEvents evs)).

(** ** The progress estimate *)

(** Powers of two with an integer exponent, as a fraction [up k / dn k]. *)
Definition up (k : Z) : Z := (2 ^ Z.max k 0)%Z.
Definition dn (k : Z) : Z := (2 ^ Z.max (- k) 0)%Z.

(** [x >= a / b] for a binary64 number [x]. *)
Definition atLeast (x : Double.double) (a b : Z) : Prop :=
  (a * dn (snd x) <= fst x * up (snd x) * b)%Z.

(** The counts for which the estimate is below its cap. *)
Definition belowCap : list Z := map Z.of_nat (seq 1 47).

(** A sequence of progress values that never goes back. *)
Fixpoint nondecreasing (l : list Z) : Prop :=
  match l with
  | a :: r => match r with
              | b :: _ => (a <= b)%Z /\ nondecreasing r
              | [] => True
              end
  | [] => True
  end.

(* ================================================================== *)
(** * Computed examples *)
(* ================================================================== *)

Example split_sample :
  split 10 (lit "a" ++ [10%N] ++ lit "bc" ++ [10%N])
  = [lit "a"; lit "bc"; []].
Proof. reflexivity. Qed.

Example trim_sample : trim (lit "  ab c  ") = lit "ab c".
Proof. reflexivity. Qed.

Example ofN_sample : ofN 404 = lit "404" /\ ofN 0 = lit "0".
Proof. split; reflexivity. Qed.

Example replace_first_only :
  Replace.replace (lit "a{x}b{x}") (lit "{x}") (lit "ZZ") = lit "aZZb{x}".
Proof. reflexivity. Qed.

Example replace_dollar_pattern :
  Replace.replace (lit "a{x}b") (lit "{x}") (lit "<$&|$$>") = lit "a<{x}|$>b".
Proof. reflexivity. Qed.

Example decode_ascii : Utf8.decode (Utf8.bytes "data: x") = lit "data: x".
Proof. reflexivity. Qed.

(** U+00E9 is the bytes C3 A9; cut in two, each half decodes to U+FFFD. *)
Example decode_split_char :
  Utf8.decode [xc3; xa9] = [0xE9%N] /\
  Utf8.decode [xc3] ++ Utf8.decode [xa9] = [0xFFFD%N; 0xFFFD%N].
Proof. split; reflexivity. Qed.

Example parse_sample :
  parse (lit "[1, 2.50, -3e2, true, null, [], {}]")
  = Some (JArr [JNum 1 0; JNum 250 (-2); JNum (-3) 2; JBool true; JNull;
                JArr []; JObj []]).
Proof. reflexivity. Qed.

Example parse_rejects :
  parse (lit "[01]") = None /\ parse (lit "{") = None /\ parse (lit "[1,]") = None.
Proof. repeat split; reflexivity. Qed.

(** The estimate follows binary64 rounding: 29 chunks give 57, not 58. *)
Example progressEstimate_samples :
  map progressEstimate [1; 2; 7; 25; 29; 47; 48; 50; 1000]%Z
  = [2; 4; 14; 50; 57; 94; 95; 95; 95]%Z.
Proof. vm_compute. reflexivity. Qed.

Example matchBraces_samples :
  Regex.matchBraces (lit "Sure: {a{b}c} done}.") = Some (lit "{a{b}c} done}") /\
  Regex.matchBraces (lit "} no {") = None /\
  Regex.matchBraces (lit "none") = None.
Proof. repeat split; reflexivity. Qed.

Example printNumber_samples :
  map (fun p => Sample.printNumber (fst p) (snd p))
      [(5, -1); (250, -2); (-3, 2); (1, 21); (1, -7); (123456, -3); (12, -8)]%Z
  = map lit ["0.5"; "2.5"; "-300"; "1e+21"; "1e-7"; "123.456"; "1.2e-7"]%string.
Proof. vm_compute. reflexivity. Qed.

(** The validation predicate on the inputs of the specification's test
    list: empty, white space only, ten characters, sixty characters. *)
Example validateDocumentContent_samples :
  map (fun s => isValid (DocumentAnalyzer.validateDocumentContent (lit s)))
      [EmptyString; "    "; "0123456789";
       "0123456789012345678901234567890123456789012345678901234567890"]%string
  = [false; false; false; true].
Proof. vm_compute. reflexivity. Qed.

(** A malformed frame between two content frames is skipped. *)
Example malformed_frame_is_skipped :
  fst (OpenAIService.generateSection
         (Sample.env true
            (Sample.streamed
               [frames [contentFrame "a"; Utf8.bytes "data: {oops"; contentFrame "b";
                        doneFrame]]))
         (lit "pricing") logProgress logChunk Sample.noContext tpl_pricing Sample.fresh)
  = Returned (lit "ab").
Proof. vm_compute. reflexivity. Qed.

(** A content cut by a read boundary is lost, and the rest is kept. *)
Example cut_frame_is_dropped :
  fst (OpenAIService.generateSection
         (Sample.env true
            (Sample.streamed
               [firstn 30 (frames [contentFrame "a"]);
                skipn 30 (frames [contentFrame "a"]) ++ frames [contentFrame "b"; doneFrame]]))
         (lit "pricing") logProgress logChunk Sample.noContext tpl_pricing Sample.fresh)
  = Returned (lit "b").
Proof. vm_compute. reflexivity. Qed.

(** Three sections of which the second fails: three entries in input
    order, the second a placeholder, and the third section still
    generated. *)
Example batch_isolates_a_failure :
  fst (OpenAIService.generateMultipleSections
         (Sample.scripted [Sample.streamed [frames helloFrames];
                           Sample.serverError;
                           Sample.streamed [frames abFrames]])
         [(lit "pricing", tpl_pricing); (lit "references", tpl_references);
          (lit "compliance", tpl_compliance)]
         Sample.noContext logProgress logSectionChunk Sample.fresh)
  = Returned
      [(lit "pricing", lit "Hello world");
       (lit "references",
        lit "Error generating content: OpenAI API error: 500 Internal Server Error");
       (lit "compliance", lit "ab")].
Proof. vm_compute. reflexivity. Qed.

(** A reply without the [stakeholders] field: the field of the result
    is the empty array. *)
Example missing_stakeholders_become_empty :
  match DocumentAnalyzer.analyzeDocument
          (Sample.env true (Sample.streamed [replyBody "Result: {} (end)"]))
          (lit "An RFP.") logAnalysis Sample.fresh with
  | (Returned a, _) => lookup (Some a) [lit "stakeholders"]
  | (Threw _, _) => None
  end = Some (JArr []).
Proof. vm_compute. reflexivity. Qed.

(** The progress milestones of an analysis. *)
Example analysis_milestones :
  map ap_progress
      (analysisEvents
         (trace (snd (DocumentAnalyzer.analyzeDocument
                        (Sample.env true (Sample.streamed [replyBody "{}"]))
                        (lit "An RFP.") logAnalysis Sample.fresh))))
  = [0; 50; 90; 100]%Z.
Proof. vm_compute. reflexivity. Qed.

(* ================================================================== *)
(** * Worlds and logs *)
(* ================================================================== *)

Lemma extend_extend w a b : extend (extend w a) b = extend w (b ++ a).
Proof. unfold extend; simpl. now rewrite app_assoc. Qed.

Lemma extend_nil w : extend w [] = w.
Proof. now destruct w. Qed.

Lemma trace_extend w newer : trace (extend w newer) = trace w ++ rev newer.
Proof. unfold trace, extend; simpl. apply rev_app_distr. Qed.

Lemma trace_settled w : trace (settled w) = trace w.
Proof. reflexivity. Qed.

Lemma trace_opened env sid ctx tpl w newer :
  trace (extend (opened env sid ctx tpl w) newer)
  = trace w ++ callEvents env sid ctx tpl w newer.
Proof.
  unfold trace, extend, opened, callEvents. cbn [log].
  rewrite rev_app_distr. cbn [rev]. rewrite rev_app_distr.
  rewrite <- !app_assoc. cbn [app].
  destruct (abortController w); reflexivity.
Qed.

Lemma trace_openedAnalysis env doc w newer :
  trace (extend (openedAnalysis env doc w) newer)
  = trace w ++ abortOf (abortController w)
      ++ [AnalysisEv (DocumentAnalyzer.analysisEvent AAnalyzing 0
                        (Some (lit "Preparing analysis...")) None);
          Fetched (analysisRequest env doc w)]
      ++ rev newer.
Proof.
  unfold trace, extend, openedAnalysis. cbn [log].
  rewrite rev_app_distr. cbn [rev]. rewrite rev_app_distr.
  rewrite <- !app_assoc. cbn [app].
  destruct (abortController w); reflexivity.
Qed.

Lemma chunkDeltas_app a b : chunkDeltas (a ++ b) = chunkDeltas a ++ chunkDeltas b.
Proof. unfold chunkDeltas. now rewrite flat_map_app. Qed.

Lemma progressEvents_app a b :
  progressEvents (a ++ b) = progressEvents a ++ progressEvents b.
Proof. unfold progressEvents. now rewrite flat_map_app. Qed.

Lemma deltaText_app rt a b : deltaText rt (a ++ b) = deltaText rt a ++ deltaText rt b.
Proof. unfold deltaText. now rewrite map_app, concat_app. Qed.

Lemma chunkDeltas_callEvents env sid ctx tpl w newer :
  chunkDeltas (callEvents env sid ctx tpl w newer) = chunkDeltas (rev newer).
Proof. unfold callEvents. destruct (abortController w); reflexivity. Qed.

Lemma progressEvents_callEvents env sid ctx tpl w newer :
  progressEvents (callEvents env sid ctx tpl w newer)
  = OpenAIService.progressEvent sid StGenerating 0 None None
      :: progressEvents (rev newer).
Proof. unfold callEvents. destruct (abortController w); reflexivity. Qed.

Lemma lastOf_app_cons {A} (l : list A) x : lastOf (l ++ [x]) = Some x.
Proof. unfold lastOf. now rewrite rev_app_distr. Qed.

Lemma lastOf_Forall {A} (P : A -> Prop) (l : list A) x :
  Forall P (x :: l) -> exists y, lastOf (x :: l) = Some y /\ P y.
Proof.
  intro H. unfold lastOf. apply Forall_rev in H.
  destruct (rev (x :: l)) as [|y r] eqn:E.
  - apply (f_equal (@List.length A)) in E. rewrite length_rev in E. discriminate.
  - exists y. split; [reflexivity|]. now inversion H.
Qed.

Lemma Forall_concat_inv {A} (P : A -> Prop) (ls : list (list A)) :
  Forall P (List.concat ls) -> Forall (Forall P) ls.
Proof.
  induction ls as [|l r IH]; cbn; intro H; constructor.
  - apply Forall_app in H. tauto.
  - apply IH. apply Forall_app in H. tauto.
Qed.

Lemma deltaEvent_progress newer :
  Forall deltaEvent newer ->
  Forall (fun p => gp_status p = StGenerating) (progressEvents (rev newer)).
Proof.
  intro H. apply Forall_rev in H. induction H as [|ev r Hev Hr IH]; [constructor|].
  destruct ev; cbn in *; try contradiction; auto.
Qed.

Lemma no_error_events newer :
  Forall deltaEvent newer -> filter isErrorEvent (rev newer) = [].
Proof.
  intro H. apply Forall_rev in H. induction H as [|ev l Hev Hl IH]; [reflexivity|].
  destruct ev; cbn in *; try contradiction; try assumption.
  unfold isStatus. now rewrite Hev.
Qed.

(* ================================================================== *)
(** * Strings *)
(* ================================================================== *)

Lemma eqb_eq a b : JsString.eqb a b = true <-> a = b.
Proof.
  revert b. induction a as [|x a IH]; destruct b as [|y b]; cbn; try easy.
  rewrite andb_true_iff, N.eqb_eq, IH. split.
  - now intros [-> ->].
  - intro H. now inversion H.
Qed.

Lemma eqb_refl a : JsString.eqb a a = true.
Proof. now apply eqb_eq. Qed.

Lemma startsWith_prefix s p :
  startsWith s p = true -> s = p ++ skipn (List.length p) s.
Proof.
  revert s. induction p as [|y p IH]; intros [|x s]; cbn; try easy.
  rewrite andb_true_iff, N.eqb_eq. intros [-> H]. f_equal. now apply IH.
Qed.

Lemma isDoneLine_eq line : isDoneLine line = true <-> line = lit "data: [DONE]".
Proof.
  unfold isDoneLine. rewrite andb_true_iff, eqb_eq. split.
  - intros [H1 H2]. apply startsWith_prefix in H1.
    change (List.length (lit "data: ")) with 6%nat in H1. unfold slice in H2.
    rewrite H1, H2. reflexivity.
  - intros ->. split; reflexivity.
Qed.

Lemma split_line_cons c l rest :
  forallb (fun x => negb (x =? c)%N) l = true ->
  split c (l ++ c :: rest) = l :: split c rest.
Proof.
  induction l as [|x l IH]; simpl; intro H.
  - now rewrite N.eqb_refl.
  - apply andb_true_iff in H as [Hx Hl].
    apply negb_true_iff in Hx. rewrite Hx, IH by assumption. reflexivity.
Qed.

(** Placeholders and line feeds: a text free of line feeds occurs in a
    text made of lines only inside one of the lines. *)
Section Includes.
Variable tok : jsstring.
Hypothesis tok_no_lf : forallb (fun x => negb (N.eqb 10 x)) tok = true.
Hypothesis tok_nonempty : tok <> [].

Lemma startsWith_lf a b :
  startsWith (a ++ 10%N :: b) tok = startsWith a tok.
Proof.
  clear tok_nonempty. revert tok tok_no_lf.
  induction a as [|x a IH]; intros t Ht.
  - destruct t as [|y t]; [reflexivity|]. cbn in Ht |- *.
    apply andb_true_iff in Ht as [Hy _]. apply negb_true_iff in Hy. now rewrite Hy.
  - destruct t as [|y t]; [reflexivity|]. cbn in Ht |- *.
    apply andb_true_iff in Ht as [_ Ht]. now rewrite IH.
Qed.

Lemma includes_nil : includes [] tok = false.
Proof. destruct tok; [contradiction|reflexivity]. Qed.

Lemma includes_lf a b :
  includes (a ++ 10%N :: b) tok = includes a tok || includes b tok.
Proof.
  induction a as [|x a IH].
  - cbn [app]. rewrite includes_nil. cbn [includes orb].
    change (10%N :: b) with ([] ++ 10%N :: b). rewrite startsWith_lf.
    destruct tok; [contradiction|reflexivity].
  - cbn [app includes]. change (x :: a ++ 10%N :: b) with ((x :: a) ++ 10%N :: b).
    rewrite startsWith_lf, IH. now rewrite orb_assoc.
Qed.

Lemma includes_join xs :
  includes (join nl xs) tok = existsb (fun x => includes x tok) xs.
Proof.
  induction xs as [|x [|y r] IH].
  - cbn. apply includes_nil.
  - cbn. now rewrite orb_false_r.
  - change (join nl (x :: y :: r)) with (x ++ 10%N :: join nl (y :: r)).
    rewrite includes_lf, IH. reflexivity.
Qed.

(** A block that [buildPrompt] appends: two line feeds, a heading, a
    line feed and a text. *)
Lemma includes_block prompt heading body :
  includes heading tok = false ->
  includes (prompt ++ nl ++ nl ++ heading ++ nl ++ body) tok
  = includes prompt tok || includes body tok.
Proof.
  intro Hh. change (prompt ++ nl ++ nl ++ heading ++ nl ++ body)
    with (prompt ++ 10%N :: ([] ++ 10%N :: (heading ++ 10%N :: body))).
  rewrite !includes_lf, includes_nil, Hh. reflexivity.
Qed.

End Includes.

Lemma includes_bullets tok items :
  (exists t, tok = 123%N :: t) ->
  (forall s, In s items -> includes s tok = false) ->
  existsb (fun x => includes x tok) (map (fun s => lit "- " ++ s) items) = false.
Proof.
  intros [t ->] H. induction items as [|s r IH]; [reflexivity|].
  cbn [map existsb]. rewrite IH by (intros; apply H; now right).
  rewrite orb_false_r.
  change (lit "- " ++ s) with (45%N :: 32%N :: s).
  cbn [includes startsWith]. change (45 =? 123)%N with false. change (32 =? 123)%N with false.
  cbn [andb orb]. apply H. now left.
Qed.

Lemma present_some s x : present s = Some x -> s = Some x.
Proof. destruct s as [[|c r]|]; cbn; congruence. Qed.

Lemma nonEmptyList_some l x : nonEmptyList l = Some x -> l = Some x.
Proof. destruct l as [[|c r]|]; cbn; congruence. Qed.

(* ================================================================== *)
(** * Decoding of ASCII reads *)
(* ================================================================== *)

Lemma decodeFrom_ascii bs :
  forallb (fun b => (b <? 128)%N) bs = true ->
  Utf8.decodeFrom Utf8.Idle bs = bs.
Proof.
  induction bs as [|b r IH]; simpl; intro H; [reflexivity|].
  apply andb_true_iff in H as [Hb Hr].
  unfold Utf8.lead.
  replace (b <=? 127)%N with true.
  - simpl. now rewrite IH.
  - symmetry. apply N.leb_le. apply N.ltb_lt in Hb. lia.
Qed.

Lemma units_ascii bs :
  forallb (fun b => (b <? 128)%N) bs = true ->
  flat_map Utf8.units bs = bs.
Proof.
  induction bs as [|b r IH]; simpl; intro H; [reflexivity|].
  apply andb_true_iff in H as [Hb Hr].
  unfold Utf8.units at 1.
  replace (b <? 65536)%N with true.
  - simpl. now rewrite IH.
  - symmetry. apply N.ltb_lt. apply N.ltb_lt in Hb. lia.
Qed.

Lemma stripBOM_ascii bs :
  forallb (fun b => (b <? 128)%N) bs = true -> Utf8.stripBOM bs = bs.
Proof.
  destruct bs as [|b r]; simpl; intro H; [reflexivity|].
  apply andb_true_iff in H as [Hb Hr].
  replace (b =? 65279)%N with false; [reflexivity|].
  symmetry. apply N.eqb_neq. apply N.ltb_lt in Hb. lia.
Qed.

Lemma decode_ascii_bytes bs :
  forallb (fun b => (Byte.to_N b <? 128)%N) bs = true ->
  Utf8.decode bs = map Byte.to_N bs.
Proof.
  intro H. unfold Utf8.decode.
  assert (H' : forallb (fun b => (b <? 128)%N) (map Byte.to_N bs) = true).
  { rewrite forallb_forall in *. intros x Hx. apply in_map_iff in Hx as [y [<- Hy]]. auto. }
  rewrite decodeFrom_ascii, stripBOM_ascii, units_ascii; auto.
Qed.

Lemma isLine_ascii l :
  isLine l = true -> forallb (fun b => (Byte.to_N b <? 128)%N) l = true.
Proof.
  unfold isLine. rewrite !forallb_forall. intros H x Hx.
  apply H in Hx. now apply andb_true_iff in Hx.
Qed.

Lemma isLine_no_lf l :
  isLine l = true -> forallb (fun x => negb (x =? 10)%N) (map Byte.to_N l) = true.
Proof.
  unfold isLine. rewrite !forallb_forall. intros H x Hx.
  apply in_map_iff in Hx as [y [<- Hy]]. apply H in Hy. now apply andb_true_iff in Hy.
Qed.

Lemma frames_ascii fs :
  Forall (fun l => isLine l = true) fs ->
  forallb (fun b => (Byte.to_N b <? 128)%N) (frames fs) = true.
Proof.
  unfold frames. induction 1 as [|l r Hl Hr IH]; [reflexivity|].
  cbn [map List.concat]. rewrite !forallb_app. rewrite IH, (isLine_ascii _ Hl). reflexivity.
Qed.

(** The lines of a read made of whole frames: the frames, then the empty
    piece after the last line feed. *)
Lemma split_frames fs :
  Forall (fun l => isLine l = true) fs ->
  split 10 (Utf8.decode (frames fs)) = map (map Byte.to_N) fs ++ [[]].
Proof.
  intro H. rewrite decode_ascii_bytes by now apply frames_ascii.
  unfold frames. induction H as [|l r Hl Hr IH]; [reflexivity|].
  cbn [map List.concat]. rewrite !map_app. cbn [map].
  rewrite <- app_assoc. cbn [app].
  change (Byte.to_N lf) with 10%N.
  rewrite split_line_cons by now apply isLine_no_lf.
  now rewrite IH.
Qed.

(* ================================================================== *)
(** * The JSON parser: consumed text and recursion budget *)
(* ================================================================== *)

Lemma skipWs_length s : (List.length (skipWs s) <= List.length s)%nat.
Proof.
  induction s as [|c r IH]; cbn; [lia|]. destruct (isWs c); cbn; lia.
Qed.

Lemma stringBody_length_upto n : forall s acc str rest,
  (List.length s <= n)%nat ->
  stringBody s acc = Some (str, rest) -> (List.length rest < List.length s)%nat.
Proof.
  induction n as [|n IHn]; intros s acc str rest Hn.
  { destruct s; [discriminate|cbn in Hn; lia]. }
  assert (IH : forall y a s0 r0, (List.length y < List.length s)%nat ->
                 stringBody y a = Some (s0, r0) ->
                 (List.length r0 < List.length y)%nat).
  { intros y a s0 r0 Hy. apply IHn. lia. }
  clear IHn Hn.
  destruct s as [|c r]; cbn [stringBody]; [discriminate|].
  destruct (N.eqb c dquote).
  { intro H. inversion H; subst. cbn. lia. }
  destruct (N.eqb c backslash).
  - destruct r as [|x r1]; [discriminate|].
    assert (Hr1 : forall a s0 r0, stringBody r1 a = Some (s0, r0) ->
                                  (List.length r0 < List.length r1)%nat).
    { intros a s0 r0. apply IH. cbn. lia. }
    destruct (N.eqb x dquote || N.eqb x backslash || isCh x "/").
    { intro H. apply Hr1 in H. cbn. lia. }
    destruct (isCh x "b"). { intro H. apply Hr1 in H. cbn. lia. }
    destruct (isCh x "f"). { intro H. apply Hr1 in H. cbn. lia. }
    destruct (isCh x "n"). { intro H. apply Hr1 in H. cbn. lia. }
    destruct (isCh x "r"). { intro H. apply Hr1 in H. cbn. lia. }
    destruct (isCh x "t"). { intro H. apply Hr1 in H. cbn. lia. }
    destruct (isCh x "u"); [|discriminate].
    destruct r1 as [|h1 [|h2 [|h3 [|h4 r2]]]]; try discriminate.
    destruct (hex4 h1 h2 h3 h4); [|discriminate].
    intro H. apply IH in H; cbn in *; lia.
  - destruct (c <? 32)%N; [discriminate|].
    intro H. apply IH in H; cbn in *; lia.
Qed.

Lemma stringBody_length s acc str rest :
  stringBody s acc = Some (str, rest) -> (List.length rest < List.length s)%nat.
Proof. now apply (stringBody_length_upto (List.length s)). Qed.

Lemma takeDigits_length s ds rest :
  takeDigits s = (ds, rest) -> (List.length rest <= List.length s)%nat.
Proof.
  revert ds rest. induction s as [|c r IH]; cbn; intros ds rest.
  - intro H. inversion H. cbn. lia.
  - destruct (isDigit c).
    + destruct (takeDigits r) as [ds' rest'] eqn:E. intro H. inversion H; subst.
      specialize (IH _ _ eq_refl). lia.
    + intro H. inversion H; subst. cbn. lia.
Qed.

Lemma signPart_length s neg rest :
  signPart s = (neg, rest) -> (List.length rest <= List.length s)%nat.
Proof.
  unfold signPart. destruct s as [|c r]; [|destruct (isCh c "-")];
    intro H; inversion H; subst; cbn; lia.
Qed.

Lemma intPart_length s ds rest :
  intPart s = Some (ds, rest) -> (List.length rest <= List.length s)%nat.
Proof.
  unfold intPart. destruct s as [|c r]; [discriminate|].
  destruct (isCh c "0").
  - intro H. inversion H; subst. cbn. lia.
  - destruct (isDigit c); [|discriminate].
    intro H. injection H as E. exact (takeDigits_length (c :: r) ds rest E).
Qed.

Lemma fracPart_length s ds rest :
  fracPart s = Some (ds, rest) -> (List.length rest <= List.length s)%nat.
Proof.
  unfold fracPart. destruct s as [|c r].
  - intro H. inversion H. cbn. lia.
  - destruct (isCh c ".").
    + destruct (takeDigits r) as [[|d fds] r'] eqn:E; [discriminate|].
      intro H. inversion H; subst. apply takeDigits_length in E. cbn. lia.
    + intro H. inversion H; subst. lia.
Qed.

Lemma expSign_length s eneg rest :
  expSign s = (eneg, rest) -> (List.length rest <= List.length s)%nat.
Proof.
  unfold expSign. destruct s as [|c r].
  - intro H. inversion H. cbn. lia.
  - destruct (isCh c "-"); [|destruct (isCh c "+")];
      intro H; inversion H; subst; cbn; lia.
Qed.

Lemma expPart_length s ex rest :
  expPart s = Some (ex, rest) -> (List.length rest <= List.length s)%nat.
Proof.
  unfold expPart. destruct s as [|c r].
  - intro H. inversion H. cbn. lia.
  - destruct (isCh c "e" || isCh c "E").
    + destruct (expSign r) as [eneg r1] eqn:E1. apply expSign_length in E1.
      destruct (takeDigits r1) as [[|d eds] r2] eqn:E2; [discriminate|].
      intro H. inversion H; subst. apply takeDigits_length in E2. cbn. lia.
    + intro H. inversion H; subst. lia.
Qed.

Lemma number_length s v rest :
  number s = Some (v, rest) -> (List.length rest <= List.length s)%nat.
Proof.
  unfold number.
  destruct (signPart s) as [neg s1] eqn:E1. apply signPart_length in E1.
  destruct (intPart s1) as [[ids s2]|] eqn:E2; [|discriminate]. apply intPart_length in E2.
  destruct (fracPart s2) as [[fds s3]|] eqn:E3; [|discriminate]. apply fracPart_length in E3.
  destruct (expPart s3) as [[ex s4]|] eqn:E4; [|discriminate]. apply expPart_length in E4.
  intro H. inversion H; subst. lia.
Qed.

(** Fact from an equation: what a parsing step leaves is no longer than
    what it was given. *)
Ltac shorter :=
  repeat match goal with
         | H : skipWs ?s = _ |- _ =>
             let L := fresh "L" in
             pose proof (skipWs_length s) as L; rewrite H in L; clear H
         | H : stringBody _ _ = Some _ |- _ => apply stringBody_length in H
         | H : number _ = Some _ |- _ => apply number_length in H
         end;
  cbn [List.length] in *.

Lemma parse_lengths f :
  (forall s v rest, parseValue f s = POk v rest ->
                    (List.length rest <= List.length s)%nat) /\
  (forall acc s xs rest, parseElements f acc s = POk xs rest ->
                         (List.length rest <= List.length s)%nat) /\
  (forall acc s kvs rest, parseMembers f acc s = POk kvs rest ->
                          (List.length rest <= List.length s)%nat).
Proof.
  induction f as [|f (IHv & IHe & IHm)]; [repeat split; discriminate|].
  split; [|split].
  - intros s v rest. cbn [parseValue].
    destruct (skipWs s) as [|c r] eqn:Es; [discriminate|].
    destruct (isCh c "{").
    { destruct (skipWs r) as [|c' r'] eqn:Er; [discriminate|].
      destruct (isCh c' "}").
      - intro H. inversion H; subst. shorter. lia.
      - destruct (parseMembers f [] (c' :: r')) as [kvs rest'| |] eqn:Em; try discriminate.
        intro H. inversion H; subst. apply IHm in Em. shorter. lia. }
    destruct (isCh c "[").
    { destruct (skipWs r) as [|c' r'] eqn:Er; [discriminate|].
      destruct (isCh c' "]").
      - intro H. inversion H; subst. shorter. lia.
      - destruct (parseElements f [] (c' :: r')) as [xs rest'| |] eqn:Em; try discriminate.
        intro H. inversion H; subst. apply IHe in Em. shorter. lia. }
    destruct (N.eqb c dquote).
    { destruct (stringBody r []) as [[str rest']|] eqn:Eb; [|discriminate].
      intro H. inversion H; subst. shorter. lia. }
    destruct (startsWith (c :: r) (lit "true")).
    { pose proof (length_skipn 4 (c :: r)) as Hk.
      remember (skipn 4 (c :: r)) as t. intro H. inversion H; subst. shorter. lia. }
    destruct (startsWith (c :: r) (lit "false")).
    { pose proof (length_skipn 5 (c :: r)) as Hk.
      remember (skipn 5 (c :: r)) as t. intro H. inversion H; subst. shorter. lia. }
    destruct (startsWith (c :: r) (lit "null")).
    { pose proof (length_skipn 4 (c :: r)) as Hk.
      remember (skipn 4 (c :: r)) as t. intro H. inversion H; subst. shorter. lia. }
    destruct (number (c :: r)) as [[v' rest']|] eqn:En; [|discriminate].
    intro H. inversion H; subst. shorter. lia.
  - intros acc s xs rest. cbn [parseElements].
    destruct (parseValue f s) as [v r| |] eqn:Ev; try discriminate.
    apply IHv in Ev.
    destruct (skipWs r) as [|c r'] eqn:Er; [discriminate|].
    destruct (isCh c ",").
    + intro H. apply IHe in H. shorter. lia.
    + destruct (isCh c "]"); [|discriminate].
      intro H. inversion H; subst. shorter. lia.
  - intros acc s kvs rest. cbn [parseMembers].
    destruct (skipWs s) as [|c r] eqn:Es; [discriminate|].
    destruct (negb (N.eqb c dquote)); [discriminate|].
    destruct (stringBody r []) as [[k r1]|] eqn:Eb; [|discriminate].
    destruct (skipWs r1) as [|c1 r2] eqn:E1; [discriminate|].
    destruct (negb (isCh c1 ":")); [discriminate|].
    destruct (parseValue f r2) as [v r3| |] eqn:Ev; try discriminate.
    apply IHv in Ev.
    destruct (skipWs r3) as [|c3 r4] eqn:E3; [discriminate|].
    destruct (isCh c3 ",").
    + intro H. apply IHm in H. shorter. lia.
    + destruct (isCh c3 "}"); [|discriminate].
      intro H. inversion H; subst. shorter. lia.
Qed.

(** The budget of [parse] is never exhausted. *)
Lemma parse_fuel f :
  (forall s, (2 * List.length s + 1 <= f)%nat -> parseValue f s <> PFuel) /\
  (forall acc s, (2 * List.length s + 2 <= f)%nat -> parseElements f acc s <> PFuel) /\
  (forall acc s, (2 * List.length s + 1 <= f)%nat -> parseMembers f acc s <> PFuel).
Proof.
  induction f as [|f (IHv & IHe & IHm)]; [repeat split; intros; lia|].
  split; [|split].
  - intros s Hf. cbn [parseValue].
    destruct (skipWs s) as [|c r] eqn:Es; [discriminate|].
    destruct (isCh c "{").
    { destruct (skipWs r) as [|c' r'] eqn:Er; [discriminate|].
      destruct (isCh c' "}"); [discriminate|].
      destruct (parseMembers f [] (c' :: r')) as [kvs rest'| |] eqn:Em; try discriminate.
      exfalso. revert Em. apply IHm. shorter. lia. }
    destruct (isCh c "[").
    { destruct (skipWs r) as [|c' r'] eqn:Er; [discriminate|].
      destruct (isCh c' "]"); [discriminate|].
      destruct (parseElements f [] (c' :: r')) as [xs rest'| |] eqn:Em; try discriminate.
      exfalso. revert Em. apply IHe. shorter. lia. }
    destruct (N.eqb c dquote).
    { destruct (stringBody r []) as [[str rest']|]; discriminate. }
    destruct (startsWith (c :: r) (lit "true")); [discriminate|].
    destruct (startsWith (c :: r) (lit "false")); [discriminate|].
    destruct (startsWith (c :: r) (lit "null")); [discriminate|].
    destruct (number (c :: r)) as [[v' rest']|]; discriminate.
  - intros acc s Hf. cbn [parseElements].
    destruct (parseValue f s) as [v r| |] eqn:Ev; try discriminate.
    2:{ exfalso. revert Ev. apply IHv. lia. }
    apply (proj1 (parse_lengths f)) in Ev.
    destruct (skipWs r) as [|c r'] eqn:Er; [discriminate|].
    destruct (isCh c ",").
    + apply IHe. shorter. lia.
    + destruct (isCh c "]"); discriminate.
  - intros acc s Hf. cbn [parseMembers].
    destruct (skipWs s) as [|c r] eqn:Es; [discriminate|].
    destruct (negb (N.eqb c dquote)); [discriminate|].
    destruct (stringBody r []) as [[k r1]|] eqn:Eb; [|discriminate].
    destruct (skipWs r1) as [|c1 r2] eqn:E1; [discriminate|].
    destruct (negb (isCh c1 ":")); [discriminate|].
    destruct (parseValue f r2) as [v r3| |] eqn:Ev; try discriminate.
    2:{ exfalso. revert Ev. apply IHv. shorter. lia. }
    apply (proj1 (parse_lengths f)) in Ev.
    destruct (skipWs r3) as [|c3 r4] eqn:E3; [discriminate|].
    destruct (isCh c3 ",").
    + apply IHm. shorter. lia.
    + destruct (isCh c3 "}"); discriminate.
Qed.

Lemma parseValue_fuel text : parseValue (budget text) text <> PFuel.
Proof. apply (proj1 (parse_fuel (budget text))). unfold budget. lia. Qed.

(** A text that starts with an opening brace parses to an object or not
    at all. *)
Lemma parse_object r v :
  parse (123%N :: r) = Some v -> exists o, v = JObj o.
Proof.
  unfold parse, budget. cbn [List.length Nat.mul Nat.add].
  cbn [parseValue]. change (skipWs (123%N :: r)) with (123%N :: r).
  cbv iota. replace (isCh 123 "{") with true by reflexivity.
  destruct (skipWs r) as [|c' r']; [discriminate|].
  destruct (isCh c' "}").
  - destruct (skipWs r'); [|discriminate]. intro H. inversion H. now exists [].
  - destruct (parseMembers _ _ _) as [kvs rest| |]; try discriminate.
    destruct (skipWs rest); [|discriminate]. intro H. inversion H. now exists kvs.
Qed.

(* ================================================================== *)
(** * The brace pattern of [analyzeDocument] *)
(* ================================================================== *)

Lemma fromFirst_skip c p rest :
  forallb (fun x => negb (N.eqb x c)) p = true ->
  Regex.fromFirst c (p ++ c :: rest) = Some (c :: rest).
Proof.
  induction p as [|x p IH]; cbn; intro H.
  - now rewrite N.eqb_refl.
  - apply andb_true_iff in H as [Hx Hp]. apply negb_true_iff in Hx.
    rewrite Hx. now apply IH.
Qed.

Lemma matchBraces_embedded p1 mid p2 :
  forallb (fun x => negb (N.eqb x 123)) p1 = true ->
  forallb (fun x => negb (N.eqb x 125)) p2 = true ->
  Regex.matchBraces (p1 ++ (123%N :: mid ++ [125%N]) ++ p2)
  = Some (123%N :: mid ++ [125%N]).
Proof.
  intros H1 H2. unfold Regex.matchBraces.
  cbn [app]. rewrite fromFirst_skip by assumption.
  rewrite <- app_assoc. cbn [app].
  rewrite rev_app_distr. cbn [rev]. rewrite <- app_assoc. cbn [app].
  rewrite fromFirst_skip.
  - cbn [rev]. now rewrite rev_involutive.
  - rewrite forallb_forall in *. intros x Hx. apply H2. now apply in_rev.
Qed.

Lemma fromFirst_suffix c s t :
  Regex.fromFirst c s = Some t -> exists a r, s = a ++ t /\ t = c :: r.
Proof.
  induction s as [|x s IH]; cbn; [discriminate|].
  destruct (N.eqb x c) eqn:E.
  - intro H. inversion H; subst. apply N.eqb_eq in E. subst.
    exists [], s. auto.
  - intro H. destruct (IH H) as (a & r & -> & ->). exists (x :: a), r. auto.
Qed.

Lemma matchBraces_substring s m :
  Regex.matchBraces s = Some m ->
  exists a b r, s = a ++ m ++ b /\ m = 123%N :: r.
Proof.
  unfold Regex.matchBraces.
  destruct (Regex.fromFirst 123 s) as [[|open r]|] eqn:E1; try discriminate.
  destruct (Regex.fromFirst 125 (rev r)) as [t|] eqn:E2; [|discriminate].
  intro H. inversion H; subst; clear H.
  apply fromFirst_suffix in E1 as (a & r' & -> & Hr'). inversion Hr'; subst.
  apply fromFirst_suffix in E2 as (b & t' & Hrev & ->).
  exists a, (rev b), (rev (125%N :: t')). split; [|reflexivity].
  f_equal. cbn [app]. f_equal.
  rewrite <- rev_app_distr, <- Hrev. now rewrite rev_involutive.
Qed.

(* ================================================================== *)
(** * The line loop and the read loop *)
(* ================================================================== *)

Section Scan.
Variable env : Env.
Variable sid : jsstring.
Variable onProgress : option (GenerationProgress -> M unit).
Variable onChunk : option (json -> M unit).

(** Scanning lines one after the other is scanning their concatenation,
    up to the [return] of the end frame. *)
Lemma scanLines_app a b acc cc w :
  OpenAIService.scanLines env sid onProgress onChunk (a ++ b) acc cc w =
  match OpenAIService.scanLines env sid onProgress onChunk a acc cc w with
  | (Returned (OpenAIService.Continue acc' cc'), w') =>
      OpenAIService.scanLines env sid onProgress onChunk b acc' cc' w'
  | other => other
  end.
Proof.
  revert acc cc w. induction a as [|line rest IH]; intros acc cc w.
  - reflexivity.
  - simpl app. cbn [OpenAIService.scanLines].
    destruct (startsWith line (lit "data: ")); [|apply IH].
    destruct (JsString.eqb _ _).
    + unfold bind. destruct (call onProgress _ w) as [[[]|e] w']; reflexivity.
    + unfold bind.
      destruct (OpenAIService.handleData env sid onProgress onChunk _ acc cc w)
        as [[st|e] w']; [apply IH|reflexivity].
Qed.

Lemma scanLines_blank acc cc w :
  OpenAIService.scanLines env sid onProgress onChunk [[]] acc cc w
  = (Returned (OpenAIService.Continue acc cc), w).
Proof. reflexivity. Qed.

(** Reads that end at frame boundaries are scanned like one sequence of
    lines. *)
Lemma readLoop_aligned groups ending acc cc w :
  Forall (Forall (fun l => isLine l = true)) groups ->
  OpenAIService.readLoop env sid onProgress onChunk (map frames groups) ending acc cc w =
  match OpenAIService.scanLines env sid onProgress onChunk
          (map (map Byte.to_N) (List.concat groups)) acc cc w with
  | (Returned (OpenAIService.Finished c), w') => (Returned c, w')
  | (Returned (OpenAIService.Continue a n), w') =>
      (match ending with EndDone => Returned a | EndFails e => Threw e end, w')
  | (Threw e, w') => (Threw e, w')
  end.
Proof.
  intro H. revert acc cc w. induction H as [|g gs Hg Hgs IH]; intros acc cc w.
  - cbn. destruct ending; reflexivity.
  - cbn [map List.concat OpenAIService.readLoop]. rewrite split_frames by assumption.
    rewrite map_app. unfold bind.
    rewrite !scanLines_app.
    destruct (OpenAIService.scanLines env sid onProgress onChunk
                (map (map Byte.to_N) g) acc cc w)
      as [[[c|a n]|e] w']; try reflexivity.
    rewrite scanLines_blank. apply IH.
Qed.

End Scan.

(** With the logging callbacks, every line either leaves the state alone
    or appends one delta and logs its two events. *)
Section Logged.
Variable env : Env.
Variable sid : jsstring.

Lemma handleData_log data acc cc w :
  OpenAIService.handleData env sid logProgress logChunk data acc cc w
    = (Returned (acc, cc), w) \/
  exists c s,
    toStr (runtime env) c = Some s /\
    OpenAIService.handleData env sid logProgress logChunk data acc cc w
    = (Returned (acc ++ s, (cc + 1)%Z),
       extend w
         [ ProgressEv (OpenAIService.progressEvent sid StGenerating
                         (progressEstimate (cc + 1)) (Some (acc ++ s)) None);
           ChunkEv c ]).
Proof.
  unfold OpenAIService.handleData, tryCatch, bind, lift, jsonParse, ret.
  destruct (parse data) as [parsed|]; [|now left].
  destruct (OpenAIService.deltaContent env parsed) as [[c|]|e]; try now left.
  destruct (truthy (Some c)); [|now left].
  unfold OpenAIService.appendText.
  destruct (toStr (runtime env) c) as [s|] eqn:Hs; [|now left].
  right. exists c, s. split; [assumption|]. reflexivity.
Qed.

Lemma scanLines_log lines : forall acc cc w,
  exists exit newer,
    OpenAIService.scanLines env sid logProgress logChunk lines acc cc w
      = (Returned exit, extend w newer) /\
    match exit with
    | OpenAIService.Continue acc' _ =>
        Forall deltaEvent newer /\
        acc' = acc ++ deltaText (runtime env) (chunkDeltas (rev newer))
    | OpenAIService.Finished c =>
        exists ds,
          newer = ProgressEv (OpenAIService.progressEvent sid StCompleted 100
                                (Some c) None) :: ds /\
          Forall deltaEvent ds /\
          c = acc ++ deltaText (runtime env) (chunkDeltas (rev ds)) /\
          Exists (fun l => l = lit "data: [DONE]") lines
    end.
Proof.
  induction lines as [|line rest IH]; intros acc cc w.
  - exists (OpenAIService.Continue acc cc), []. rewrite extend_nil. cbn.
    rewrite app_nil_r. auto.
  - cbn [OpenAIService.scanLines].
    destruct (startsWith line (lit "data: ")) eqn:Hsw.
    2:{ destruct (IH acc cc w) as (exit & newer & Hrun & Hexit).
        exists exit, newer. split; [assumption|].
        destruct exit; [|assumption].
        destruct Hexit as (ds & ? & ? & ? & ?). exists ds. auto. }
    destruct (JsString.eqb (slice 6 line) (lit "[DONE]")) eqn:Hdone.
    + exists (OpenAIService.Finished acc),
        [ProgressEv (OpenAIService.progressEvent sid StCompleted 100 (Some acc) None)].
      split; [reflexivity|]. exists []. cbn. rewrite app_nil_r.
      repeat split; auto. constructor. apply isDoneLine_eq. unfold isDoneLine.
      now rewrite Hsw, Hdone.
    + unfold bind.
      destruct (handleData_log (slice 6 line) acc cc w) as [H|(c & s & Hs & H)]; rewrite H.
      * destruct (IH acc cc w) as (exit & newer & Hrun & Hexit).
        exists exit, newer. split; [assumption|].
        destruct exit; [|assumption].
        destruct Hexit as (ds & ? & ? & ? & ?). exists ds. auto.
      * cbn [fst snd].
        destruct (IH (acc ++ s) (cc + 1)%Z
                    (extend w [ProgressEv (OpenAIService.progressEvent sid StGenerating
                                             (progressEstimate (cc + 1))
                                             (Some (acc ++ s)) None); ChunkEv c]))
          as (exit & newer & Hrun & Hexit).
        rewrite extend_extend in Hrun.
        assert (Htext : forall ds,
                  (acc ++ s) ++ deltaText (runtime env) (chunkDeltas (rev ds))
                  = acc ++ deltaText (runtime env) (chunkDeltas (rev (ds ++
                      [ProgressEv (OpenAIService.progressEvent sid StGenerating
                                     (progressEstimate (cc + 1)) (Some (acc ++ s)) None);
                       ChunkEv c])))).
        { intro ds. rewrite rev_app_distr, chunkDeltas_app, deltaText_app.
          cbn [rev app chunkDeltas flat_map]. unfold deltaText at 2. cbn [map List.concat].
          rewrite Hs, app_nil_r, app_assoc. reflexivity. }
        destruct exit as [c'|acc' cc'].
        -- destruct Hexit as (ds & -> & Hds & -> & Hex).
           eexists. eexists. split; [exact Hrun|].
           eexists. split; [reflexivity|]. split; [|split].
           ++ apply Forall_app. split; [assumption|]. repeat constructor.
           ++ apply Htext.
           ++ now constructor 2.
        -- destruct Hexit as (Hds & ->).
           eexists. eexists. split; [exact Hrun|]. split.
           ++ apply Forall_app. split; [assumption|]. repeat constructor.
           ++ apply Htext.
Qed.

(** The read loop either meets the end frame, logs the completion and
    returns, or logs deltas only and ends as the body ends. *)
Lemma readLoop_log pending ending : forall acc cc w,
  exists r newer,
    OpenAIService.readLoop env sid logProgress logChunk pending ending acc cc w
      = (r, extend w newer) /\
    ((exists c ds,
         r = Returned c /\
         newer = ProgressEv (OpenAIService.progressEvent sid StCompleted 100
                               (Some c) None) :: ds /\
         Forall deltaEvent ds /\
         c = acc ++ deltaText (runtime env) (chunkDeltas (rev ds)) /\
         doneSeen pending)
     \/
     (Forall deltaEvent newer /\
      r = match ending with
          | EndDone => Returned (acc ++ deltaText (runtime env) (chunkDeltas (rev newer)))
          | EndFails e => Threw e
          end)).
Proof.
  induction pending as [|value later IH]; intros acc cc w.
  - exists (match ending with EndDone => Returned acc | EndFails e => Threw e end), [].
    rewrite extend_nil. split.
    + cbn. destruct ending; reflexivity.
    + right. split; [constructor|]. cbn. now rewrite app_nil_r.
  - cbn [OpenAIService.readLoop]. unfold bind.
    destruct (scanLines_log (split 10 (Utf8.decode value)) acc cc w)
      as (exit & newer & Hrun & Hexit).
    rewrite Hrun. destruct exit as [c|acc' cc'].
    + destruct Hexit as (ds & -> & Hds & -> & Hex).
      eexists. eexists. split; [reflexivity|]. left.
      eexists. eexists. repeat split; auto. now constructor.
    + destruct Hexit as (Hnewer & ->).
      destruct (IH (acc ++ deltaText (runtime env) (chunkDeltas (rev newer))) cc'
                  (extend w newer))
        as (r & newer' & Hloop & Hr).
      rewrite extend_extend in Hloop.
      exists r, (newer' ++ newer). split; [exact Hloop|].
      destruct Hr as [(c & ds & -> & -> & Hds & -> & Hseen)|(Hn' & ->)].
      * left. eexists. eexists. split; [reflexivity|]. split; [reflexivity|].
        split; [|split].
        -- apply Forall_app. now split.
        -- rewrite rev_app_distr, chunkDeltas_app, deltaText_app, app_assoc. reflexivity.
        -- now constructor 2.
      * right. split; [apply Forall_app; now split|].
        destruct ending; [|reflexivity].
        rewrite rev_app_distr, chunkDeltas_app, deltaText_app, app_assoc. reflexivity.
Qed.

Lemma attempt_log answer w0 :
  exists r newer,
    attempt env sid answer w0 = (r, extend w0 newer) /\
    forall e, r = Threw e -> Forall deltaEvent newer.
Proof.
  unfold attempt.
  destruct answer as [e0|response].
  { exists (Threw e0), []. rewrite extend_nil. split; [reflexivity|constructor]. }
  destruct (negb (ok response)).
  { eexists. exists []. rewrite extend_nil. split; [reflexivity|constructor]. }
  destruct (body response) as [b|].
  2:{ eexists. exists []. rewrite extend_nil. split; [reflexivity|constructor]. }
  destruct (readLoop_log (reads b) (ending b) [] 0 w0) as (r & newer & Hloop & Hr).
  exists r, newer. split; [assumption|].
  intros e He. destruct Hr as [(c & ds & -> & _)|(Hnewer & _)]; [discriminate|assumption].
Qed.

End Logged.

(* ================================================================== *)
(** * The shape of a call *)
(* ================================================================== *)

Lemma generateSection_disabled env sid onProgress onChunk ctx tpl w :
  enableAIGeneration (config env) = false ->
  OpenAIService.generateSection env sid onProgress onChunk ctx tpl w
  = (Threw (ErrorObject (lit "AI generation is disabled in configuration")), w).
Proof. intro H. unfold OpenAIService.generateSection. rewrite H. reflexivity. Qed.

(** Past the feature-flag check, [generateSection] opens the call, runs the
    [try] block, logs an error event if it failed, and clears the
    controller. *)
Lemma generateSection_shape env sid ctx tpl w :
  enableAIGeneration (config env) = true ->
  OpenAIService.generateSection env sid logProgress logChunk ctx tpl w =
  match attempt env sid (network env (fetches w)) (opened env sid ctx tpl w) with
  | (Returned c, w2) => (Returned c, settled w2)
  | (Threw e, w2) => (Threw e, settled (extend w2 [errorEvent sid e]))
  end.
Proof.
  intros Hflag.
  unfold OpenAIService.generateSection. rewrite Hflag.
  cbv beta iota zeta delta
    [negb tryFinally tryCatch bind getController newController setController
     abort emit call logProgress fetch throw ret attempt opened settled extend
     sectionRequest abortOf errorEvent
     abortController nextController fetches log].
  destruct w as [ctrl next n lg].
  destruct ctrl as [c|]; cbn [app];
    (destruct (network env n) as [e0|r]; [reflexivity|]);
    (destruct (ok r); [|reflexivity]);
    (destruct (body r) as [b|]; [|reflexivity]);
    match goal with |- context [OpenAIService.readLoop ?a ?b ?c ?d ?e ?f ?g ?h ?i] =>
      destruct (OpenAIService.readLoop a b c d e f g h i) as [[x|e'] w2] end;
    reflexivity.
Qed.

Lemma generateSection_responding env sid ctx tpl w r b :
  enableAIGeneration (config env) = true ->
  network env (fetches w) = FetchResponds r ->
  ok r = true ->
  body r = Some b ->
  OpenAIService.generateSection env sid logProgress logChunk ctx tpl w =
  match OpenAIService.readLoop env sid logProgress logChunk (reads b) (ending b) [] 0
          (opened env sid ctx tpl w) with
  | (Returned c, w2) => (Returned c, settled w2)
  | (Threw e, w2) => (Threw e, settled (extend w2 [errorEvent sid e]))
  end.
Proof.
  intros Hflag Hnet Hok Hbody. rewrite generateSection_shape by assumption.
  unfold attempt. now rewrite Hnet, Hok, Hbody.
Qed.

(** A failing call that passed the feature-flag check logged its error event
    last, and no other error event. *)
Lemma generateSection_failure env sid ctx tpl w e w' :
  enableAIGeneration (config env) = true ->
  OpenAIService.generateSection env sid logProgress logChunk ctx tpl w = (Threw e, w') ->
  exists evs,
    trace w' = trace w ++ evs ++ [errorEvent sid e] /\
    filter isErrorEvent evs = [].
Proof.
  intros Hflag. rewrite generateSection_shape by assumption.
  destruct (attempt_log env sid (network env (fetches w)) (opened env sid ctx tpl w))
    as (r & newer & Hrun & Hr).
  rewrite Hrun. destruct r as [c|e0]; [discriminate|].
  intro H. inversion H; subst; clear H.
  exists (callEvents env sid ctx tpl w newer). split.
  - rewrite trace_settled, extend_extend, trace_opened.
    unfold callEvents. rewrite rev_app_distr. cbn [rev app]. rewrite <- !app_assoc.
    reflexivity.
  - unfold callEvents. rewrite !filter_app, (no_error_events newer (Hr e eq_refl)).
    destruct (abortController w); reflexivity.
Qed.

(** Whatever the callbacks do, a call that passed the feature-flag check leaves
    the instance without a controller. *)
Lemma generateSection_clears_controller env sid onProgress onChunk ctx tpl w :
  enableAIGeneration (config env) = true ->
  abortController
    (snd (OpenAIService.generateSection env sid onProgress onChunk ctx tpl w)) = None.
Proof.
  intro Hflag. unfold OpenAIService.generateSection. rewrite Hflag. cbn [negb].
  unfold bind at 1. unfold getController.
  destruct (abortController w) as [c|].
  - unfold bind at 1. unfold abort, emit. unfold bind at 1. unfold newController.
    unfold bind at 1. unfold setController at 1. unfold tryFinally.
    match goal with |- context [tryCatch ?a ?b ?w0] =>
      destruct (tryCatch a b w0) as [r w2] end.
    reflexivity.
  - unfold bind at 1. unfold ret at 1. unfold bind at 1. unfold newController.
    unfold bind at 1. unfold setController at 1. unfold tryFinally.
    match goal with |- context [tryCatch ?a ?b ?w0] =>
      destruct (tryCatch a b w0) as [r w2] end.
    reflexivity.
Qed.

(** Past the feature-flag check, [analyzeDocument] opens the call and fails
    through its [catch] block or returns the processed analysis. *)
Lemma analyzeDocument_shape env doc w :
  enableAIGeneration (config env) = true ->
  DocumentAnalyzer.analyzeDocument env doc logAnalysis w =
  let w1 := openedAnalysis env doc w in
  match network env (fetches w) with
  | FetchRejects e => failed e w1
  | FetchResponds r =>
      if negb (ok r) then
        failed (ErrorObject (lit "OpenAI API error: " ++ ofN (status r)
                               ++ lit " " ++ statusText r)) w1
      else
        match Res.bind (replyContent env r) (extractJson env) with
        | Threw e => failed e (extend w1 [step50])
        | Returned matched =>
            match analysisOf env matched with
            | Threw e => failed e (extend w1 [step90; step50])
            | Returned a => (Returned a, extend w1 [step100; step90; step50])
            end
        end
  end.
Proof.
  intros Hflag.
  unfold DocumentAnalyzer.analyzeDocument. rewrite Hflag.
  cbv beta iota zeta delta
    [negb tryCatch bind lift getController newController setController
     abort emit call logAnalysis fetch throw ret
     failed openedAnalysis extend analysisRequest abortOf failureMessage
     step50 step90 step100 replyContent extractJson analysisOf Res.bind
     abortController nextController fetches log].
  destruct w as [ctrl next n lg].
  destruct ctrl as [c|]; cbn [app];
    (destruct (network env n) as [e0|r]; [reflexivity|]);
    (destruct (ok r); [|reflexivity]);
    (destruct (DocumentAnalyzer.responseJson env r) as [data|e1]; [|reflexivity]);
    (destruct (DocumentAnalyzer.messageContent env data) as [[content|]|e1];
       try reflexivity);
    (destruct (truthy (Some content)); [|reflexivity]);
    (destruct (DocumentAnalyzer.matchJson env content) as [[matched|]|e1];
       try reflexivity);
    (destruct (jsonParse env matched) as [analysis|e1]; [|reflexivity]);
    (destruct (DocumentAnalyzer.processAnalysis env analysis) as [a|e1]; reflexivity).
Qed.

Lemma analyzeDocument_failure env doc w e w' :
  enableAIGeneration (config env) = true ->
  DocumentAnalyzer.analyzeDocument env doc logAnalysis w = (Threw e, w') ->
  exists steps message,
    w' = extend (openedAnalysis env doc w)
           (AnalysisEv (DocumentAnalyzer.analysisEvent AError 0 None (Some message))
              :: steps) /\
    e = ErrorObject (lit "Document analysis failed: " ++ message) /\
    (steps = [] \/ steps = [step50] \/ steps = [step90; step50]).
Proof.
  intros Hflag. rewrite analyzeDocument_shape by assumption. cbv zeta.
  unfold failed.
  destruct (network env (fetches w)) as [e0|r].
  { intro H. inversion H. eexists [], _. split; [reflexivity|split; [reflexivity|auto]]. }
  destruct (negb (ok r)).
  { intro H. inversion H. eexists [], _. split; [reflexivity|split; [reflexivity|auto]]. }
  destruct (Res.bind (replyContent env r) (extractJson env)) as [matched|e1].
  2:{ intro H. inversion H. rewrite extend_extend.
      eexists [step50], _. split; [reflexivity|split; [reflexivity|auto]]. }
  destruct (analysisOf env matched) as [a|e1]; [discriminate|].
  intro H. inversion H. rewrite extend_extend.
  eexists [step90; step50], _. split; [reflexivity|split; [reflexivity|auto]].
Qed.

(** [analyzeDocument] has no [finally]: past the feature-flag check, the
    controller of the call stays on the instance. *)
Lemma analyzeDocument_keeps_controller env doc w :
  enableAIGeneration (config env) = true ->
  abortController (snd (DocumentAnalyzer.analyzeDocument env doc logAnalysis w))
  = Some (nextController w).
Proof.
  intro Hflag. rewrite analyzeDocument_shape by assumption. cbv zeta. unfold failed.
  destruct (network env (fetches w)) as [e0|r]; [reflexivity|].
  destruct (negb (ok r)); [reflexivity|].
  destruct (Res.bind (replyContent env r) (extractJson env)) as [matched|e1];
    [|reflexivity].
  destruct (analysisOf env matched) as [a|e1]; reflexivity.
Qed.

(* ================================================================== *)
(** * Supporting facts of the properties *)
(* ================================================================== *)

Lemma doneSeen_doneSeenb pending : doneSeen pending -> doneSeenb pending = true.
Proof.
  unfold doneSeen, doneSeenb. intro H. apply existsb_exists.
  apply Exists_exists in H as (value & Hin & Hline).
  exists value. split; [assumption|].
  apply existsb_exists. apply Exists_exists in Hline as (l & Hl & ->).
  exists (lit "data: [DONE]"). split; [assumption|reflexivity].
Qed.

Lemma validate_spec content :
  isValid (DocumentAnalyzer.validateDocumentContent content)
  = (50 <=? List.length (trim content))%nat.
Proof.
  unfold DocumentAnalyzer.validateDocumentContent.
  destruct content as [|c r].
  - reflexivity.
  - cbn [orb].
    destruct (List.length (trim (c :: r))) as [|n] eqn:E; [reflexivity|].
    cbn [Nat.eqb].
    destruct (S n <? 50)%nat eqn:Hlt; cbn [isValid].
    + symmetry. apply Nat.leb_gt. now apply Nat.ltb_lt.
    + symmetry. apply Nat.leb_le. apply Nat.ltb_ge in Hlt. lia.
Qed.

Lemma orElse_truthy a d : truthy (Some d) = true -> truthy (Some (orElse a d)) = true.
Proof.
  intro Hd. unfold orElse. destruct a as [x|]; [|assumption].
  destruct (truthy (Some x)) eqn:E; assumption.
Qed.

(** [processAnalysis] on an object: the result and its leaves. *)
Lemma processAnalysis_leaves env props :
  exists result,
    DocumentAnalyzer.processAnalysis env (JObj props) = Returned result /\
    structurallyTotal (JObj props) result.
Proof.
  eexists. split; [reflexivity|].
  unfold structurallyTotal, expectedLeaves.
  repeat (constructor;
          [eexists; split; [reflexivity|];
           split; [apply orElse_truthy; reflexivity|];
           cbn [fst snd lookup optField]; intro Hmiss;
           try (rewrite Hmiss);
           try (destruct (getField (JObj props) _) as [[]|];
                cbn [optField] in Hmiss |- *; rewrite ?Hmiss); reflexivity|]).
  constructor.
Qed.

(** What [analyzeDocument] returns is the processed form of a parsed
    object, hence structurally total. *)
Lemma analyzeDocument_result_total env doc w a w' :
  enableAIGeneration (config env) = true ->
  DocumentAnalyzer.analyzeDocument env doc logAnalysis w = (Returned a, w') ->
  exists props, structurallyTotal (JObj props) a.
Proof.
  intros Hflag. rewrite analyzeDocument_shape by assumption. cbv zeta. unfold failed.
  destruct (network env (fetches w)) as [e0|r]; [discriminate|].
  destruct (negb (ok r)); [discriminate|].
  destruct (Res.bind (replyContent env r) (extractJson env)) as [matched|e1] eqn:Hm;
    [|discriminate].
  destruct (analysisOf env matched) as [a'|e1] eqn:Ha; [|discriminate].
  intro H. inversion H; subst; clear H.
  assert (Hbrace : exists t, matched = 123%N :: t).
  { unfold Res.bind in Hm. destruct (replyContent env r) as [content|]; [|discriminate].
    unfold extractJson in Hm. destruct content as [c|]; [|discriminate].
    destruct (negb (truthy (Some c))); [discriminate|].
    unfold DocumentAnalyzer.matchJson, Res.bind in Hm.
    destruct c; try discriminate.
    destruct (Regex.matchBraces s) as [m|] eqn:E; [|discriminate].
    inversion Hm; subst.
    destruct (matchBraces_substring _ _ E) as (x & y & t & _ & ->). now exists t. }
  destruct Hbrace as (t & ->).
  unfold analysisOf, jsonParse, Res.bind in Ha.
  destruct (parse (123%N :: t)) as [v|] eqn:Hv; [|discriminate].
  destruct (parse_object _ _ Hv) as (props & ->).
  exists props.
  destruct (processAnalysis_leaves env props) as (result & Hres & Htotal).
  rewrite Hres in Ha. inversion Ha; subst. exact Htotal.
Qed.

(** The template part of a prompt has no placeholder left. *)
Lemma template_part_clean id tpl tok :
  In (id, tpl) getSectionTemplates ->
  tok = tokSectionType \/ tok = tokTemplateName ->
  includes (Replace.replace
              (Replace.replace (tpl_promptTemplate tpl) (lit "{sectionType}") id)
              (lit "{templateName}") (tpl_name tpl)) tok = false.
Proof.
  intros Hin Htok.
  unfold getSectionTemplates in Hin. cbn [In] in Hin.
  repeat (destruct Hin as [Hin|Hin];
          [inversion Hin; subst; destruct Htok as [-> | ->]; vm_compute; reflexivity|]).
  contradiction.
Qed.

(** One block of [buildPrompt] less in the goal. *)
Ltac peel_block tok Hlf Hne Hhead :=
  rewrite (includes_block tok Hlf Hne) by (apply Hhead; cbn; tauto).

Lemma buildPrompt_free_of env id tpl context tok :
  In (id, tpl) getSectionTemplates ->
  tok = tokSectionType \/ tok = tokTemplateName ->
  (forall s, In s (contextTexts context) -> includes s tok = false) ->
  (forall rfp, rfpContent context = Some rfp ->
               includes (getRelevantContentForRFP env rfp id) tok = false) ->
  includes (OpenAIService.buildPrompt env id context tpl) tok = false.
Proof.
  intros Hin Htok Htexts Hrel.
  pose proof (template_part_clean id tpl tok Hin Htok) as Hbase.
  assert (Hlf : forallb (fun x => negb (N.eqb 10 x)) tok = true)
    by (destruct Htok as [-> | ->]; reflexivity).
  assert (Hne : tok <> []) by (destruct Htok as [-> | ->]; discriminate).
  assert (Hbrace : exists t, tok = 123%N :: t)
    by (destruct Htok as [-> | ->]; eexists; reflexivity).
  assert (Hhead : forall h, In h [lit "RFP Content:"; lit "Company Profile:";
                                  lit "Key Requirements:"; lit "Constraints:";
                                  lit "Target Audience:";
                                  lit "Relevant Company Information:"] ->
                            includes h tok = false).
  { intros h Hh. cbn [In] in Hh.
    repeat (destruct Hh as [<-|Hh]; [destruct Htok as [-> | ->]; vm_compute; reflexivity|]).
    contradiction. }
  assert (Hrfp : forall s, rfpContent context = Some s -> includes s tok = false).
  { intros s E. apply Htexts. unfold contextTexts. rewrite E. cbn. now left. }
  assert (Hprofile : forall s, companyProfile context = Some s -> includes s tok = false).
  { intros s E. apply Htexts. unfold contextTexts. rewrite E.
    apply in_or_app. right. cbn. now left. }
  assert (Hreqs : forall l s, requirements context = Some l -> In s l ->
                              includes s tok = false).
  { intros l s E Hs. apply Htexts. unfold contextTexts. rewrite E.
    apply in_or_app. right. apply in_or_app. right. apply in_or_app. now left. }
  assert (Hcons : forall l s, constraints context = Some l -> In s l ->
                              includes s tok = false).
  { intros l s E Hs. apply Htexts. unfold contextTexts. rewrite E.
    apply in_or_app. right. apply in_or_app. right. apply in_or_app. right.
    apply in_or_app. now left. }
  assert (Haud : forall s, targetAudience context = Some s -> includes s tok = false).
  { intros s E. apply Htexts. unfold contextTexts. rewrite E.
    apply in_or_app. right. apply in_or_app. right. apply in_or_app. right.
    apply in_or_app. right. cbn. now left. }
  unfold OpenAIService.buildPrompt.
  set (base := Replace.replace _ _ _) in *.
  destruct (present (rfpContent context)) as [rfp|] eqn:E1.
  - apply present_some in E1.
    destruct (present (Some (getRelevantContentForRFP env rfp id))) as [rel|] eqn:E6;
      [apply present_some in E6; inversion E6; subst rel;
       peel_block tok Hlf Hne Hhead; rewrite (Hrel rfp E1), orb_false_r|];
    (destruct (present (targetAudience context)) as [aud|] eqn:E5;
      [apply present_some in E5; peel_block tok Hlf Hne Hhead;
       rewrite (Haud aud E5), orb_false_r|]);
    (destruct (nonEmptyList (constraints context)) as [cs|] eqn:E4;
      [apply nonEmptyList_some in E4; peel_block tok Hlf Hne Hhead;
       rewrite (includes_join tok Hlf Hne),
         (includes_bullets tok cs Hbrace (fun s => Hcons cs s E4)), orb_false_r|]);
    (destruct (nonEmptyList (requirements context)) as [rs|] eqn:E3;
      [apply nonEmptyList_some in E3; peel_block tok Hlf Hne Hhead;
       rewrite (includes_join tok Hlf Hne),
         (includes_bullets tok rs Hbrace (fun s => Hreqs rs s E3)), orb_false_r|]);
    (destruct (present (companyProfile context)) as [pr|] eqn:E2;
      [apply present_some in E2; peel_block tok Hlf Hne Hhead;
       rewrite (Hprofile pr E2), orb_false_r|]);
    peel_block tok Hlf Hne Hhead;
    rewrite (Hrfp rfp E1), orb_false_r; exact Hbase.
  - (destruct (present (targetAudience context)) as [aud|] eqn:E5;
      [apply present_some in E5; peel_block tok Hlf Hne Hhead;
       rewrite (Haud aud E5), orb_false_r|]);
    (destruct (nonEmptyList (constraints context)) as [cs|] eqn:E4;
      [apply nonEmptyList_some in E4; peel_block tok Hlf Hne Hhead;
       rewrite (includes_join tok Hlf Hne),
         (includes_bullets tok cs Hbrace (fun s => Hcons cs s E4)), orb_false_r|]);
    (destruct (nonEmptyList (requirements context)) as [rs|] eqn:E3;
      [apply nonEmptyList_some in E3; peel_block tok Hlf Hne Hhead;
       rewrite (includes_join tok Hlf Hne),
         (includes_bullets tok rs Hbrace (fun s => Hreqs rs s E3)), orb_false_r|]);
    (destruct (present (companyProfile context)) as [pr|] eqn:E2;
      [apply present_some in E2; peel_block tok Hlf Hne Hhead;
       rewrite (Hprofile pr E2), orb_false_r|]);
    exact Hbase.
Qed.

(** The result object of a batch. *)
Lemma objGet_objDefine_same {A} (o : list (jsstring * A)) k v :
  objGet (objDefine o k v) k = Some v.
Proof.
  induction o as [|[k' v'] r IH]; cbn.
  - now rewrite eqb_refl.
  - destruct (JsString.eqb k' k) eqn:E; cbn; rewrite E; [reflexivity|exact IH].
Qed.

Lemma objGet_objDefine_keeps {A} (o : list (jsstring * A)) k v k' :
  objGet o k' <> None -> objGet (objDefine o k v) k' <> None.
Proof.
  induction o as [|[k0 v0] r IH]; cbn; [congruence|].
  destruct (JsString.eqb k0 k) eqn:E; cbn; destruct (JsString.eqb k0 k'); auto; discriminate.
Qed.

Lemma objSet_keeps results k v k' :
  objGet results k' <> None -> objGet (OpenAIService.objSet results k v) k' <> None.
Proof.
  unfold OpenAIService.objSet. destruct (JsString.eqb k (lit "__proto__")); [auto|].
  apply objGet_objDefine_keeps.
Qed.

Lemma objSet_sets results k v :
  k <> lit "__proto__" -> objGet (OpenAIService.objSet results k v) k = Some v.
Proof.
  intro H. unfold OpenAIService.objSet.
  destruct (JsString.eqb k (lit "__proto__")) eqn:E.
  - apply eqb_eq in E. contradiction.
  - apply objGet_objDefine_same.
Qed.

(** Whatever the callbacks and the network do, the batch never fails,
    keeps the entries it has, and adds an entry for every section whose
    identifier is not [__proto__]. *)
Lemma generateRest_entries env context onProgress onChunk sections :
  forall results w,
  exists results' w',
    OpenAIService.generateRest env sections context onProgress onChunk results w
      = (Returned results', w') /\
    (forall k, objGet results k <> None -> objGet results' k <> None) /\
    (forall sectionType template,
        In (sectionType, template) sections ->
        sectionType <> lit "__proto__" ->
        objGet results' sectionType <> None).
Proof.
  induction sections as [|[sid tpl] rest IH]; intros results w.
  - exists results, w. split; [reflexivity|]. split; [auto|]. intros ? ? [].
  - cbn [OpenAIService.generateRest]. unfold bind at 1. unfold tryCatch at 1.
    unfold bind at 1.
    match goal with |- context [OpenAIService.generateSection ?a ?b ?c ?d ?e ?f ?g] =>
      destruct (OpenAIService.generateSection a b c d e f g) as [[content|error] w1] end.
    + unfold ret at 1.
      destruct (IH (OpenAIService.objSet results sid content) w1)
        as (results' & w' & Hrun & Hkeep & Hnew).
      exists results', w'. split; [exact Hrun|]. split.
      * intros k Hk. apply Hkeep. now apply objSet_keeps.
      * intros s t [Heq|Hin] Hs.
        -- inversion Heq; subst. apply Hkeep. rewrite objSet_sets by assumption.
           discriminate.
        -- now apply (Hnew s t).
    + unfold bind at 1. unfold emit at 1. unfold ret at 1.
      match goal with |- context [OpenAIService.generateRest _ _ _ _ _ ?rs ?w2] =>
        destruct (IH rs w2) as (results' & w' & Hrun & Hkeep & Hnew) end.
      exists results', w'. split; [exact Hrun|]. split.
      * intros k Hk. apply Hkeep. now apply objSet_keeps.
      * intros s t [Heq|Hin] Hs.
        -- inversion Heq; subst. apply Hkeep. rewrite objSet_sets by assumption.
           discriminate.
        -- now apply (Hnew s t).
Qed.

(** The scans of the two example streams. *)
Lemma scan_ab env sid w :
  OpenAIService.scanLines env sid logProgress logChunk
    (map (map Byte.to_N) abFrames) [] 0 w
  = (Returned (OpenAIService.Finished (lit "ab")),
     extend w
       [ ProgressEv (OpenAIService.progressEvent sid StCompleted 100 (Some (lit "ab")) None);
         ProgressEv (OpenAIService.progressEvent sid StGenerating 2 (Some (lit "ab")) None);
         ChunkEv (JStr (lit "ab")) ]).
Proof. vm_compute. reflexivity. Qed.

Lemma scan_hello_world env sid w :
  OpenAIService.scanLines env sid logProgress logChunk
    (map (map Byte.to_N) helloFrames) [] 0 w
  = (Returned (OpenAIService.Finished (lit "Hello world")),
     extend w
       [ ProgressEv (OpenAIService.progressEvent sid StCompleted 100
                       (Some (lit "Hello world")) None);
         ProgressEv (OpenAIService.progressEvent sid StGenerating 4
                       (Some (lit "Hello world")) None);
         ChunkEv (JStr (lit " world"));
         ProgressEv (OpenAIService.progressEvent sid StGenerating 2
                       (Some (lit "Hello")) None);
         ChunkEv (JStr (lit "Hello")) ]).
Proof. vm_compute. reflexivity. Qed.

(* ================================================================== *)
(** * The stream as a whole *)
(* ================================================================== *)

Section Via.
Variable env : Env.
Variable sid : jsstring.
Variable chunkEv : json -> Event.

Lemma handleData_via data acc cc w :
  OpenAIService.handleData env sid logProgress (logVia chunkEv) data acc cc w =
  match payloadDelta env data with
  | Some (c, s) =>
      (Returned (acc ++ s, (cc + 1)%Z),
       extend w [ProgressEv (OpenAIService.progressEvent sid StGenerating
                               (progressEstimate (cc + 1)) (Some (acc ++ s)) None);
                 chunkEv c])
  | None => (Returned (acc, cc), w)
  end.
Proof.
  unfold OpenAIService.handleData, payloadDelta, tryCatch, bind, lift, ret.
  destruct (jsonParse env data) as [parsed|e]; [|reflexivity].
  destruct (OpenAIService.deltaContent env parsed) as [[c|]|e]; try reflexivity.
  destruct (truthy (Some c)); [|reflexivity].
  unfold OpenAIService.appendText.
  destruct (toStr (runtime env) c) as [s|]; reflexivity.
Qed.

(** The line loop from an accumulated content and a count. *)
Lemma scanLines_via lines : forall acc cc w,
  OpenAIService.scanLines env sid logProgress (logVia chunkEv) lines acc cc w =
  let deltas := lineDeltas env lines in
  let content := acc ++ streamText deltas in
  let events := deltaEvents sid chunkEv acc cc deltas in
  if hasDone (payloads lines) then
    (Returned (OpenAIService.Finished content),
     extend w (rev (events ++ [ProgressEv (OpenAIService.progressEvent sid StCompleted
                                             100 (Some content) None)])))
  else
    (Returned (OpenAIService.Continue content (cc + Z.of_nat (List.length deltas))),
     extend w (rev events)).
Proof.
  induction lines as [|line rest IH]; intros acc cc w.
  - cbn. rewrite app_nil_r, Z.add_0_r, extend_nil. reflexivity.
  - cbn [OpenAIService.scanLines]. cbv zeta.
    destruct (startsWith line (lit "data: ")) eqn:Hsw.
    2:{ assert (Hp : payloads (line :: rest) = payloads rest)
          by (unfold payloads; cbn [filter]; now rewrite Hsw).
        unfold lineDeltas. rewrite Hp. apply IH. }
    assert (Hp : payloads (line :: rest) = slice 6 line :: payloads rest)
      by (unfold payloads; cbn [filter]; now rewrite Hsw).
    unfold lineDeltas. rewrite Hp. cbn [beforeDone hasDone existsb].
    fold (hasDone (payloads rest)).
    change (JsString.eqb (slice 6 line) (lit "[DONE]")) with (isDone (slice 6 line)).
    destruct (isDone (slice 6 line)) eqn:Hdone.
    + cbn [orb flat_map deltaEvents streamText map List.concat app rev].
      rewrite app_nil_r. reflexivity.
    + cbn [orb flat_map]. unfold bind. rewrite handleData_via.
      fold (lineDeltas env rest).
      destruct (payloadDelta env (slice 6 line)) as [[c s]|].
      * cbn [fst snd]. rewrite IH. cbv zeta.
        cbn [app deltaEvents streamText map List.concat snd List.length].
        fold (streamText (lineDeltas env rest)).
        rewrite <- app_assoc.
        destruct (hasDone (payloads rest)).
        -- rewrite extend_extend. cbn [rev app]. rewrite <- !app_assoc. reflexivity.
        -- rewrite extend_extend. cbn [rev app]. rewrite <- !app_assoc.
           replace (cc + 1 + Z.of_nat (List.length (lineDeltas env rest)))%Z
             with (cc + Z.of_nat (S (List.length (lineDeltas env rest))))%Z by lia.
           reflexivity.
      * cbn [fst snd app]. rewrite IH. reflexivity.
Qed.

Lemma payloads_app a b : payloads (a ++ b) = payloads a ++ payloads b.
Proof. unfold payloads. now rewrite filter_app, map_app. Qed.

Lemma hasDone_app a b : hasDone (a ++ b) = hasDone a || hasDone b.
Proof. apply existsb_app. Qed.

Lemma beforeDone_app a b :
  beforeDone (a ++ b) = if hasDone a then beforeDone a else a ++ beforeDone b.
Proof.
  induction a as [|x a IH]; [reflexivity|].
  cbn [app beforeDone hasDone existsb]. destruct (isDone x); [reflexivity|].
  cbn [orb]. fold (hasDone a). rewrite IH. now destruct (hasDone a).
Qed.

Lemma beforeDone_all a : hasDone a = false -> beforeDone a = a.
Proof.
  induction a as [|x a IH]; [reflexivity|].
  cbn [beforeDone hasDone existsb]. destruct (isDone x); [discriminate|].
  cbn [orb]. intro H. now rewrite IH.
Qed.

Lemma lineDeltas_app a b :
  lineDeltas env (a ++ b)
  = if hasDone (payloads a) then lineDeltas env a
    else lineDeltas env a ++ lineDeltas env b.
Proof.
  unfold lineDeltas. rewrite payloads_app, beforeDone_app.
  destruct (hasDone (payloads a)) eqn:H; [reflexivity|].
  rewrite flat_map_app. now rewrite (beforeDone_all _ H).
Qed.

Lemma streamText_app a b : streamText (a ++ b) = streamText a ++ streamText b.
Proof. unfold streamText. now rewrite map_app, concat_app. Qed.

Lemma deltaEvents_app a : forall b acc cc,
  deltaEvents sid chunkEv acc cc (a ++ b)
  = deltaEvents sid chunkEv acc cc a
      ++ deltaEvents sid chunkEv (acc ++ streamText a) (cc + Z.of_nat (List.length a)) b.
Proof.
  induction a as [|[c s] a IH]; intros b acc cc.
  - cbn. now rewrite app_nil_r, Z.add_0_r.
  - cbn [app deltaEvents]. rewrite IH. cbn [streamText map List.concat snd List.length].
    fold (streamText a). rewrite <- app_assoc.
    replace (cc + 1 + Z.of_nat (List.length a))%Z
      with (cc + Z.of_nat (S (List.length a)))%Z by lia.
    reflexivity.
Qed.

(** The read loop is the line loop over the lines of all reads. *)
Lemma readLoop_via pending ending : forall acc cc w,
  OpenAIService.readLoop env sid logProgress (logVia chunkEv) pending ending acc cc w =
  let lines := allLines pending in
  let deltas := lineDeltas env lines in
  let content := acc ++ streamText deltas in
  let events := deltaEvents sid chunkEv acc cc deltas in
  if hasDone (payloads lines) then
    (Returned content,
     extend w (rev (events ++ [ProgressEv (OpenAIService.progressEvent sid StCompleted
                                             100 (Some content) None)])))
  else
    (match ending with
     | EndDone => Returned content
     | EndFails e => Threw e
     end, extend w (rev events)).
Proof.
  induction pending as [|value later IH]; intros acc cc w.
  - cbn. rewrite app_nil_r, extend_nil. destruct ending; reflexivity.
  - cbn [OpenAIService.readLoop allLines flat_map]. fold (allLines later).
    unfold bind. rewrite scanLines_via. cbv zeta.
    rewrite lineDeltas_app, payloads_app, hasDone_app.
    destruct (hasDone (payloads (split 10 (Utf8.decode value)))); [reflexivity|].
    cbn [orb]. rewrite IH. cbv zeta.
    rewrite streamText_app, deltaEvents_app, <- !app_assoc.
    destruct (hasDone (payloads (allLines later)));
      rewrite extend_extend, <- rev_app_distr, <- ?app_assoc; reflexivity.
Qed.

(** A call that passes the feature-flag check, as a whole. *)
Lemma generateSection_via ctx tpl w :
  enableAIGeneration (config env) = true ->
  OpenAIService.generateSection env sid logProgress (logVia chunkEv) ctx tpl w =
  let run := sectionRun env sid chunkEv (network env (fetches w)) in
  (fst run, settled (extend (opened env sid ctx tpl w) (rev (snd run)))).
Proof.
  intros Hflag.
  unfold OpenAIService.generateSection. rewrite Hflag.
  cbv beta iota zeta delta
    [negb tryFinally tryCatch bind getController newController setController
     abort emit call logProgress fetch throw ret opened settled
     sectionRequest abortOf errorEvent sectionRun
     abortController nextController fetches log].
  destruct w as [ctrl next n lg].
  destruct ctrl as [c|]; cbn [app];
    (destruct (network env n) as [e0|r]; [reflexivity|]);
    (destruct (ok r); [|reflexivity]);
    (destruct (body r) as [b|]; [|reflexivity]);
    rewrite readLoop_via; unfold streamRun; cbv zeta;
    (destruct (hasDone (payloads (allLines (reads b))));
       [reflexivity|destruct (ending b); try reflexivity]);
    cbn [fst snd]; rewrite rev_app_distr; reflexivity.
Qed.

End Via.

Lemma payloads_blank : payloads [[]] = [].
Proof. reflexivity. Qed.

Lemma allLines_frames groups :
  Forall (Forall (fun l => isLine l = true)) groups ->
  payloads (allLines (map frames groups))
  = payloads (map (map Byte.to_N) (List.concat groups)).
Proof.
  induction 1 as [|fs groups Hfs _ IH]; [reflexivity|].
  cbn [map allLines flat_map List.concat]. fold (allLines (map frames groups)).
  rewrite map_app, !payloads_app, IH, split_frames by assumption.
  now rewrite payloads_app, payloads_blank, app_nil_r.
Qed.

Lemma requests_app a b : requests (a ++ b) = requests a ++ requests b.
Proof. unfold requests. apply flat_map_app. Qed.

Lemma requests_deltaEvents sid chunkEv deltas : forall acc cc,
  (forall c, requests [chunkEv c] = []) ->
  requests (deltaEvents sid chunkEv acc cc deltas) = [].
Proof.
  induction deltas as [|[c s] deltas IH]; intros acc cc Hc; [reflexivity|].
  cbn [deltaEvents].
  change (requests ([chunkEv c] ++ ProgressEv
            (OpenAIService.progressEvent sid StGenerating (progressEstimate (cc + 1))
               (Some (acc ++ s)) None)
            :: deltaEvents sid chunkEv (acc ++ s) (cc + 1) deltas) = []).
  rewrite requests_app, Hc. cbn [app requests flat_map]. now apply IH.
Qed.

Lemma requests_sectionRun env sid chunkEv answer :
  (forall c, requests [chunkEv c] = []) ->
  requests (snd (sectionRun env sid chunkEv answer)) = [].
Proof.
  intro Hc. unfold sectionRun.
  destruct answer as [e|r]; [reflexivity|].
  destruct (negb (ok r)); [reflexivity|].
  destruct (body r) as [b|]; [|reflexivity].
  unfold streamRun. cbv zeta.
  destruct (hasDone _); [|destruct (ending b)]; cbn [snd];
    rewrite ?requests_app, requests_deltaEvents by assumption; reflexivity.
Qed.

Lemma chunkDeltas_deltaEvents sid deltas : forall acc cc,
  chunkDeltas (deltaEvents sid ChunkEv acc cc deltas) = map fst deltas.
Proof.
  induction deltas as [|[c s] deltas IH]; intros acc cc; [reflexivity|].
  cbn [deltaEvents chunkDeltas flat_map app map fst]. f_equal. apply IH.
Qed.

Lemma hasDone_doneSeenb pending :
  hasDone (payloads (allLines pending)) = doneSeenb pending.
Proof.
  unfold doneSeenb. induction pending as [|value later IH]; [reflexivity|].
  cbn [allLines flat_map existsb]. fold (allLines later).
  rewrite payloads_app, hasDone_app, IH. f_equal.
  generalize (split 10 (Utf8.decode value)) as lines.
  induction lines as [|line lines IHl]; [reflexivity|].
  unfold payloads in *. cbn [filter existsb]. unfold isDoneLine at 1.
  destruct (startsWith line (lit "data: ")); cbn [andb orb map hasDone existsb].
  - unfold hasDone in IHl. now rewrite IHl.
  - exact IHl.
Qed.

Lemma progressEvents_deltaEvents_generating sid deltas : forall acc cc,
  Forall (fun p => gp_status p = StGenerating)
         (progressEvents (deltaEvents sid ChunkEv acc cc deltas)).
Proof.
  induction deltas as [|[c s] deltas IH]; intros acc cc; [constructor|].
  cbn [deltaEvents progressEvents flat_map app]. constructor; [reflexivity|]. apply IH.
Qed.

Lemma deltaText_lineDeltas env lines :
  deltaText (runtime env) (map fst (lineDeltas env lines))
  = streamText (lineDeltas env lines).
Proof.
  unfold lineDeltas. generalize (beforeDone (payloads lines)) as datas.
  induction datas as [|data datas IH]; [reflexivity|].
  cbn [flat_map]. unfold payloadDelta at 1 3.
  destruct (jsonParse env data) as [parsed|]; [|exact IH].
  destruct (OpenAIService.deltaContent env parsed) as [[c|]|]; try exact IH.
  destruct (truthy (Some c)); [|exact IH].
  destruct (toStr (runtime env) c) as [s|] eqn:Hs; [|exact IH].
  cbn [app map fst]. unfold deltaText, streamText in *.
  cbn [map List.concat snd]. now rewrite Hs, IH.
Qed.

(** Past the feature-flag check, [analyzeDocument] issues its request
    whatever the content is. *)
Lemma analyzeDocument_always_requests env doc w :
  enableAIGeneration (config env) = true ->
  exists outcome w' evs,
    DocumentAnalyzer.analyzeDocument env doc logAnalysis w = (outcome, w') /\
    trace w' = trace w ++ evs /\
    requests evs = [analysisRequest env doc w] /\
    fetches w' = S (fetches w).
Proof.
  intro Hflag. rewrite analyzeDocument_shape by assumption. cbv zeta. unfold failed.
  assert (Hreq : forall newer,
             Forall (fun ev => exists p, ev = AnalysisEv p) newer ->
             requests (abortOf (abortController w)
                         ++ [AnalysisEv (DocumentAnalyzer.analysisEvent AAnalyzing 0
                                           (Some (lit "Preparing analysis...")) None);
                             Fetched (analysisRequest env doc w)]
                         ++ rev newer)
             = [analysisRequest env doc w]).
  { intros newer Hn. rewrite !requests_app.
    replace (requests (abortOf (abortController w))) with (@nil Request)
      by (destruct (abortController w); reflexivity).
    replace (requests (rev newer)) with (@nil Request); [reflexivity|].
    symmetry. apply Forall_rev in Hn. induction Hn as [|ev l (p & ->) _ IH]; [reflexivity|].
    exact IH. }
  destruct (network env (fetches w)) as [e0|r];
    [|destruct (negb (ok r));
      [|destruct (Res.bind (replyContent env r) (extractJson env)) as [matched|e1];
        [destruct (analysisOf env matched) as [a|e1]|]]];
    rewrite ?extend_extend;
    (eexists; eexists; eexists; split; [reflexivity|];
     split; [apply trace_openedAnalysis|];
     split; [apply Hreq; repeat constructor; eexists; reflexivity|reflexivity]).
Qed.

(* ================================================================== *)
(** * The properties of the specification *)
(* ================================================================== *)

(** ** Stream decoding and read boundaries *)

(** C1, as stated, fails: when the bytes of the content frame for [ab]
    and of the end frame arrive one byte per read, no read holds a line
    that starts with [data: ], so [generateSection] calls the chunk
    callback never, logs no completion and resolves with the empty
    text. *)
Lemma byte_reads_lose_the_frames :
  let byteReads := map (fun b => [b]) (frames abFrames) in
  List.concat byteReads = frames abFrames /\
  exists w',
    OpenAIService.generateSection (Sample.env true (Sample.streamed byteReads))
      (lit "pricing") logProgress logChunk Sample.noContext tpl_pricing Sample.fresh
    = (Returned [], w') /\
    chunkDeltas (trace w') = [] /\
    filter (isStatus StCompleted) (progressEvents (trace w')) = [].
Proof.
  split. { vm_compute. reflexivity. }
  eexists. split. { vm_compute. reflexivity. }
  split; vm_compute; reflexivity.
Qed.

(** C1, amended: every read is decoded on its own.  For the bytes of the
    content frame for [ab] and of the end frame, and for every partition
    of them into successive reads that each hold whole frames (zero, one
    or both, each with its line feed), the call logs its opening events,
    then exactly one chunk callback with delta [ab] and its progress
    event, then one completion event, and resolves with [ab]. *)
Theorem generateSection_whole_frame_reads env sid ctx tpl w r b groups :
  enableAIGeneration (config env) = true ->
  network env (fetches w) = FetchResponds r ->
  ok r = true ->
  body r = Some b ->
  reads b = map frames groups ->
  List.concat groups = abFrames ->
  exists w',
    OpenAIService.generateSection env sid logProgress logChunk ctx tpl w
      = (Returned (lit "ab"), w') /\
    trace w'
    = trace w ++ abortOf (abortController w)
        ++ [ ProgressEv (OpenAIService.progressEvent sid StGenerating 0 None None);
             Fetched (sectionRequest env sid ctx tpl w);
             ChunkEv (JStr (lit "ab"));
             ProgressEv (OpenAIService.progressEvent sid StGenerating 2
                           (Some (lit "ab")) None);
             ProgressEv (OpenAIService.progressEvent sid StCompleted 100
                           (Some (lit "ab")) None) ].
Proof.
  intros Hflag Hnet Hok Hbody Hreads Hgroups.
  rewrite (generateSection_responding env sid ctx tpl w r b) by assumption.
  rewrite Hreads, readLoop_aligned.
  2:{ apply Forall_concat_inv. rewrite Hgroups. repeat constructor. }
  rewrite Hgroups, scan_ab.
  eexists. split; [reflexivity|].
  rewrite trace_settled, trace_opened. reflexivity.
Qed.

Lemma generateSection_whole_frame_reads_witness :
  exists w',
    OpenAIService.generateSection
      (Sample.env true
         (Sample.streamed (map frames [[contentFrame "ab"]; []; [doneFrame]])))
      (lit "pricing") logProgress logChunk Sample.noContext tpl_pricing Sample.fresh
    = (Returned (lit "ab"), w') /\
    chunkDeltas (trace w') = [JStr (lit "ab")].
Proof.
  destruct (generateSection_whole_frame_reads
              (Sample.env true
                 (Sample.streamed (map frames [[contentFrame "ab"]; []; [doneFrame]])))
              (lit "pricing") Sample.noContext tpl_pricing Sample.fresh
              (Sample.response (map frames [[contentFrame "ab"]; []; [doneFrame]]))
              (Sample.bodyOf (map frames [[contentFrame "ab"]; []; [doneFrame]]))
              [[contentFrame "ab"]; []; [doneFrame]]
              eq_refl eq_refl eq_refl eq_refl eq_refl eq_refl)
    as (w' & Hrun & Htrace).
  exists w'. split; [exact Hrun|]. rewrite Htrace. reflexivity.
Defined.

(** ** A successful stream *)

(** C2, as stated, fails: the bytes of the three frames are a stream
    that delivers [Hello], [ world] and the end frame, but when the
    first read ends inside the first frame (after 20 bytes), neither
    part of that frame is a data line that parses, so the delta [Hello]
    is lost: the call resolves with [ world] and its completion event
    carries [ world]. *)
Lemma hello_is_lost_when_cut :
  let cutReads := [firstn 20 (frames helloFrames); skipn 20 (frames helloFrames)] in
  List.concat cutReads = frames helloFrames /\
  exists w',
    OpenAIService.generateSection (Sample.env true (Sample.streamed cutReads))
      (lit "pricing") logProgress logChunk Sample.noContext tpl_pricing Sample.fresh
    = (Returned (lit " world"), w') /\
    chunkDeltas (trace w') = [JStr (lit " world")] /\
    lastOf (progressEvents (trace w'))
    = Some (OpenAIService.progressEvent (lit "pricing") StCompleted 100
              (Some (lit " world")) None).
Proof.
  split. { vm_compute. reflexivity. }
  eexists. split. { vm_compute. reflexivity. }
  split; vm_compute; reflexivity.
Qed.

(** C2, amended: on a stream that delivers the content frames for
    [Hello] and [ world] and then the end frame, in reads that each hold
    whole frames (every grouping of the three frames into successive
    reads), [generateSection] resolves with [Hello world]; the chunk
    callback received the two deltas, and the last event of the call,
    which is its last progress event, has status completed, progress 100
    and content [Hello world]. *)
Theorem generateSection_hello_world env sid ctx tpl w r b groups :
  enableAIGeneration (config env) = true ->
  network env (fetches w) = FetchResponds r ->
  ok r = true ->
  body r = Some b ->
  reads b = map frames groups ->
  List.concat groups = helloFrames ->
  exists w' evs,
    OpenAIService.generateSection env sid logProgress logChunk ctx tpl w
      = (Returned (lit "Hello world"), w') /\
    trace w' = trace w ++ evs /\
    lastOf evs
      = Some (ProgressEv (OpenAIService.progressEvent sid StCompleted 100
                            (Some (lit "Hello world")) None)) /\
    lastOf (progressEvents evs)
      = Some (OpenAIService.progressEvent sid StCompleted 100
                (Some (lit "Hello world")) None) /\
    chunkDeltas evs = [JStr (lit "Hello"); JStr (lit " world")].
Proof.
  intros Hflag Hnet Hok Hbody Hreads Hgroups.
  rewrite (generateSection_responding env sid ctx tpl w r b) by assumption.
  rewrite Hreads, readLoop_aligned.
  2:{ apply Forall_concat_inv. rewrite Hgroups. repeat constructor. }
  rewrite Hgroups, scan_hello_world.
  eexists. eexists. split; [reflexivity|].
  split; [rewrite trace_settled; apply trace_opened|].
  unfold callEvents. destruct (abortController w); repeat split; reflexivity.
Qed.

Lemma generateSection_hello_world_witness :
  exists w' evs,
    OpenAIService.generateSection
      (Sample.env true
         (Sample.streamed
            (map frames [[contentFrame "Hello"]; [contentFrame " world"; doneFrame]])))
      (lit "executive-summary") logProgress logChunk Sample.noContext
      tpl_executive_summary Sample.fresh
    = (Returned (lit "Hello world"), w') /\
    trace w' = trace Sample.fresh ++ evs /\
    lastOf evs
      = Some (ProgressEv (OpenAIService.progressEvent (lit "executive-summary")
                            StCompleted 100 (Some (lit "Hello world")) None)) /\
    lastOf (progressEvents evs)
      = Some (OpenAIService.progressEvent (lit "executive-summary") StCompleted 100
                (Some (lit "Hello world")) None) /\
    chunkDeltas evs = [JStr (lit "Hello"); JStr (lit " world")].
Proof.
  exact (generateSection_hello_world
           (Sample.env true
              (Sample.streamed
                 (map frames [[contentFrame "Hello"]; [contentFrame " world"; doneFrame]])))
           (lit "executive-summary") Sample.noContext tpl_executive_summary Sample.fresh
           (Sample.response
              (map frames [[contentFrame "Hello"]; [contentFrame " world"; doneFrame]]))
           (Sample.bodyOf
              (map frames [[contentFrame "Hello"]; [contentFrame " world"; doneFrame]]))
           [[contentFrame "Hello"]; [contentFrame " world"; doneFrame]]
           eq_refl eq_refl eq_refl eq_refl eq_refl eq_refl).
Defined.

(** ** Failures *)

(** C3, as stated, fails: with the feature flag off, both services
    reject before their [try] block and no progress event is emitted. *)
Lemma disabled_feature_emits_no_event :
  failureOf (Sample.env false Sample.serverError)
    (GenerateSection (lit "pricing") Sample.noContext tpl_pricing) Sample.fresh
  = (Some (ErrorObject (lit "AI generation is disabled in configuration")), Sample.fresh)
  /\
  failureOf (Sample.env false Sample.serverError)
    (AnalyzeDocument (lit "An RFP.")) Sample.fresh
  = (Some (ErrorObject (lit "AI generation is disabled in configuration")), Sample.fresh)
  /\
  trace Sample.fresh = [].
Proof. repeat split; reflexivity. Qed.

(** C3, amended: for every failure of [generateSection] or
    [analyzeDocument] that happens after the feature-flag check (the
    request is rejected, the status is not a success, the body is
    missing or fails, the reply cannot be used), the call emits exactly
    one error event, with progress 0 and the error message, as its last
    event, and then rejects: [generateSection] with the error itself,
    [analyzeDocument] with an error whose message is the event's message
    after [Document analysis failed: ].  With the flag off the call
    rejects without any event. *)
Theorem failure_emits_one_error_event env c w e w' :
  enableAIGeneration (config env) = true ->
  failureOf env c w = (Some e, w') ->
  exists evs message,
    trace w' = trace w ++ evs /\
    filter isErrorEvent evs = [errorEventOf c message] /\
    lastOf evs = Some (errorEventOf c message) /\
    propagates c message e.
Proof.
  intros Hflag. destruct c as [sid ctx tpl|doc]; cbn [failureOf].
  - destruct (OpenAIService.generateSection _ _ _ _ _ _ _) as [[x|e0] w0] eqn:Hrun;
      [discriminate|].
    intro H. inversion H; subst; clear H.
    destruct (generateSection_failure env sid ctx tpl w e w' Hflag Hrun)
      as (evs & Htrace & Hnone).
    exists (evs ++ [errorEvent sid e]), (messageOr e (lit "Unknown error occurred")).
    split; [assumption|]. split; [|split].
    + rewrite filter_app, Hnone. reflexivity.
    + apply lastOf_app_cons.
    + reflexivity.
  - destruct (DocumentAnalyzer.analyzeDocument _ _ _ _) as [[x|e0] w0] eqn:Hrun;
      [discriminate|].
    intro H. inversion H; subst; clear H.
    destruct (analyzeDocument_failure env doc w e w' Hflag Hrun)
      as (steps & message & -> & -> & Hsteps).
    eexists. exists message. split; [apply trace_openedAnalysis|].
    split; [|split].
    + destruct (abortController w);
        destruct Hsteps as [->|[->| ->]]; reflexivity.
    + cbn [rev]. rewrite !app_assoc. apply lastOf_app_cons.
    + reflexivity.
Qed.

Lemma failure_emits_one_error_event_witness :
  exists evs message,
    trace (snd (failureOf (Sample.env true Sample.serverError)
                  (GenerateSection (lit "pricing") Sample.noContext tpl_pricing)
                  Sample.fresh))
    = trace Sample.fresh ++ evs /\
    filter isErrorEvent evs
    = [errorEventOf (GenerateSection (lit "pricing") Sample.noContext tpl_pricing)
         message] /\
    lastOf evs
    = Some (errorEventOf (GenerateSection (lit "pricing") Sample.noContext tpl_pricing)
              message) /\
    propagates (GenerateSection (lit "pricing") Sample.noContext tpl_pricing) message
      (ErrorObject (lit "OpenAI API error: 500 Internal Server Error")).
Proof.
  apply (failure_emits_one_error_event (Sample.env true Sample.serverError)).
  - reflexivity.
  - vm_compute. reflexivity.
Defined.

(** ** Batches *)

(** C4 fails on the code for the section identifier [__proto__]: the
    section is generated, but [results[sectionType] = content] reaches
    the prototype setter of the object literal, which ignores a string,
    and the returned mapping has no entry for the identifier. *)
Theorem proto_section_gets_no_entry :
  exists w1 w2,
    OpenAIService.generateSection
      (Sample.env true (Sample.streamed [frames helloFrames]))
      (lit "__proto__") logProgress None Sample.noContext tpl_pricing Sample.fresh
    = (Returned (lit "Hello world"), w1) /\
    OpenAIService.generateMultipleSections
      (Sample.env true (Sample.streamed [frames helloFrames]))
      [(lit "__proto__", tpl_pricing)] Sample.noContext logProgress None Sample.fresh
    = (Returned [], w2) /\
    objGet (@nil (jsstring * jsstring)) (lit "__proto__") = None.
Proof.
  eexists. eexists. split; [vm_compute; reflexivity|].
  split; [vm_compute; reflexivity|reflexivity].
Qed.

(** ** Validation before analysis *)

(** C5, as stated, fails: [analyzeDocument] does not call the validation
    predicate; for the empty document, which the predicate rejects, it
    issues the request. *)
Lemma analyzeDocument_requests_for_empty_document :
  isValid (DocumentAnalyzer.validateDocumentContent []) = false /\
  exists outcome w',
    DocumentAnalyzer.analyzeDocument (Sample.env true Sample.serverError) []
      logAnalysis Sample.fresh = (outcome, w') /\
    requests (trace w')
    = [analysisRequest (Sample.env true Sample.serverError) [] Sample.fresh] /\
    fetches w' = 1%nat.
Proof.
  split; [reflexivity|].
  eexists. eexists. split; [vm_compute; reflexivity|].
  split; vm_compute; reflexivity.
Qed.

(** C5, amended: [validateDocumentContent] accepts a content exactly
    when its trimmed length is at least 50, so it rejects the empty, the
    white-space-only and the too short contents and no others.
    [analyzeDocument] itself does not validate: with the feature on it
    issues its one request for every content.  The validation is its
    caller's: for every content that the predicate rejects, the handler
    of the analyzer page alerts with the message of the predicate and
    returns without calling [analyzeDocument], so that no request is
    issued. *)
Theorem validation_is_the_callers env documentContent w :
  (isValid (DocumentAnalyzer.validateDocumentContent documentContent) = true <->
   (50 <= List.length (trim documentContent))%nat) /\
  (enableAIGeneration (config env) = true ->
   exists outcome w' evs,
     DocumentAnalyzer.analyzeDocument env documentContent logAnalysis w = (outcome, w') /\
     trace w' = trace w ++ evs /\
     requests evs = [analysisRequest env documentContent w] /\
     fetches w' = S (fetches w)) /\
  (isValid (DocumentAnalyzer.validateDocumentContent documentContent) = false ->
   exists w',
     DocumentAnalyzer.handleAnalyzeDocument env documentContent w = (Returned tt, w') /\
     trace w'
     = trace w ++ [Alert (if (List.length (trim documentContent) =? 0)%nat
                          then lit "Document content is empty"
                          else lit "Document content is too short for meaningful analysis")] /\
     fetches w' = fetches w).
Proof.
  split; [|split].
  - rewrite validate_spec. apply Nat.leb_le.
  - apply analyzeDocument_always_requests.
  - intro H. unfold DocumentAnalyzer.handleAnalyzeDocument. rewrite H. cbn [negb].
    eexists. split; [reflexivity|]. split; [|reflexivity].
    unfold trace, emit. cbn [log rev]. do 2 f_equal.
    rewrite validate_spec in H. apply Nat.leb_gt in H.
    unfold DocumentAnalyzer.validateDocumentContent.
    destruct documentContent as [|c r]; [reflexivity|]. cbn [orb].
    destruct (List.length (trim (c :: r)) =? 0)%nat; [reflexivity|].
    apply Nat.ltb_lt in H. rewrite H. reflexivity.
Qed.

Lemma validation_is_the_callers_witness :
  exists w',
    DocumentAnalyzer.handleAnalyzeDocument (Sample.env true Sample.serverError)
      (lit "   too short   ") Sample.fresh = (Returned tt, w') /\
    trace w'
    = trace Sample.fresh
        ++ [Alert (lit "Document content is too short for meaningful analysis")] /\
    fetches w' = fetches Sample.fresh.
Proof.
  apply (proj2 (proj2 (validation_is_the_callers (Sample.env true Sample.serverError)
                         (lit "   too short   ") Sample.fresh))).
  reflexivity.
Defined.

(** ** Extraction of the JSON object *)

(** C6, as stated, fails: the pattern runs from the first opening brace
    to the last closing brace.  For the reply [see {this}: {}], whose
    embedded object [{}] alone is analysed successfully, the extracted
    text is [{this}: {}] and the call fails. *)
Lemma braces_in_prose_defeat_extraction :
  replyContent (Sample.env true Sample.serverError)
    (Sample.response [replyBody "see {this}: {}"])
  = Returned (Some (JStr (lit "see {this}: " ++ lit "{}" ++ []))) /\
  (exists a, analysisOf (Sample.env true Sample.serverError) (lit "{}") = Returned a) /\
  Regex.matchBraces (lit "see {this}: {}") = Some (lit "{this}: {}") /\
  exists e w',
    DocumentAnalyzer.analyzeDocument
      (Sample.env true (Sample.streamed [replyBody "see {this}: {}"]))
      (lit "An RFP.") logAnalysis Sample.fresh
    = (Threw e, w').
Proof.
  split; [vm_compute; reflexivity|].
  split; [eexists; vm_compute; reflexivity|].
  split; [vm_compute; reflexivity|].
  eexists. eexists. vm_compute. reflexivity.
Qed.

(** C6, amended: [analyzeDocument] extracts the text from the first
    opening brace of the reply to its last closing brace.  For every
    reply made of leading prose without opening brace, a
    brace-delimited text, and trailing prose without closing brace, the
    outcome is that of parsing and post-processing the embedded text
    alone; for every reply no part of which parses to a JSON object, the
    call fails, with [Document analysis failed: ] before the message. *)
Theorem analyzeDocument_extracts_json env doc w r reply :
  enableAIGeneration (config env) = true ->
  network env (fetches w) = FetchResponds r ->
  ok r = true ->
  replyContent env r = Returned (Some (JStr reply)) ->
  (forall p1 mid p2,
      reply = p1 ++ (123%N :: mid ++ [125%N]) ++ p2 ->
      forallb (fun x => negb (N.eqb x 123)) p1 = true ->
      forallb (fun x => negb (N.eqb x 125)) p2 = true ->
      fst (DocumentAnalyzer.analyzeDocument env doc logAnalysis w)
      = wrapped (analysisOf env (123%N :: mid ++ [125%N])))
  /\
  ((forall a sub b o, reply = a ++ sub ++ b -> parse sub <> Some (JObj o)) ->
   exists message,
     fst (DocumentAnalyzer.analyzeDocument env doc logAnalysis w)
     = Threw (ErrorObject (lit "Document analysis failed: " ++ message))).
Proof.
  intros Hflag Hnet Hok Hreply.
  rewrite analyzeDocument_shape by assumption. cbv zeta.
  rewrite Hnet, Hok, Hreply. cbn [negb Res.bind].
  unfold extractJson, DocumentAnalyzer.matchJson. cbn [Res.bind].
  split.
  - intros p1 mid p2 -> H1 H2.
    replace (truthy (Some (JStr (p1 ++ (123%N :: mid ++ [125%N]) ++ p2)))) with true
      by (destruct p1; reflexivity).
    cbn [negb]. rewrite matchBraces_embedded by assumption.
    destruct (analysisOf env (123%N :: mid ++ [125%N])); reflexivity.
  - intros Hnone.
    destruct (truthy (Some (JStr reply))); cbn [negb];
      [|eexists; reflexivity].
    destruct (Regex.matchBraces reply) as [m|] eqn:Hm; [|eexists; reflexivity].
    destruct (matchBraces_substring _ _ Hm) as (a & b & r0 & -> & ->).
    unfold analysisOf, jsonParse. cbn [Res.bind].
    destruct (parse (123%N :: r0)) as [v|] eqn:Hv; [|eexists; reflexivity].
    destruct (parse_object _ _ Hv) as (o & ->).
    exfalso. exact (Hnone _ _ _ o eq_refl Hv).
Qed.

Lemma analyzeDocument_extracts_json_witness :
  fst (DocumentAnalyzer.analyzeDocument
         (Sample.env true
            (Sample.streamed [replyBody "Here you go: {} Hope this helps."]))
         (lit "An RFP.") logAnalysis Sample.fresh)
  = wrapped (analysisOf
               (Sample.env true
                  (Sample.streamed [replyBody "Here you go: {} Hope this helps."]))
               (lit "{}")).
Proof.
  apply (proj1 (analyzeDocument_extracts_json
                  (Sample.env true
                     (Sample.streamed [replyBody "Here you go: {} Hope this helps."]))
                  (lit "An RFP.") Sample.fresh
                  (Sample.response [replyBody "Here you go: {} Hope this helps."])
                  (lit "Here you go: {} Hope this helps.")
                  eq_refl eq_refl eq_refl eq_refl)
           (lit "Here you go: ") [] (lit " Hope this helps."));
    reflexivity.
Defined.

(** ** Post-processing *)

(** C7: for every parsed analysis object, [processAnalysis] returns a
    value in which every expected field and sub-field is present and
    truthy; a leaf that the object lacks is the empty array
    (collections, in particular [stakeholders]), [Not specified]
    (strings) or 0.5 (the two confidences). *)
Theorem processAnalysis_total env props :
  exists result,
    DocumentAnalyzer.processAnalysis env (JObj props) = Returned result /\
    structurallyTotal (JObj props) result /\
    (objGet props (lit "stakeholders") = None ->
     lookup (Some result) [lit "stakeholders"] = Some (JArr [])).
Proof.
  destruct (processAnalysis_leaves env props) as (result & Hres & Htotal).
  exists result. split; [assumption|]. split; [assumption|].
  intro Hmiss. unfold DocumentAnalyzer.processAnalysis in Hres.
  cbn [DocumentAnalyzer.field Res.bind getField] in Hres.
  rewrite Hmiss in Hres. inversion Hres. reflexivity.
Qed.

Lemma processAnalysis_total_witness :
  exists result,
    DocumentAnalyzer.processAnalysis (Sample.env true Sample.serverError)
      (JObj [(lit "redFlags", JArr [JStr (lit "tight deadline")])]) = Returned result /\
    lookup (Some result) [lit "redFlags"] = Some (JArr [JStr (lit "tight deadline")]) /\
    lookup (Some result) [lit "stakeholders"] = Some (JArr []).
Proof.
  destruct (processAnalysis_total (Sample.env true Sample.serverError)
              [(lit "redFlags", JArr [JStr (lit "tight deadline")])])
    as (result & Hres & _ & Hstake).
  exists result. split; [exact Hres|]. split.
  - cbv in Hres. inversion Hres. reflexivity.
  - apply Hstake. reflexivity.
Defined.

(** ** Placeholders *)

(** C8, as stated, fails: the context is appended as it is, so a
    placeholder written in the context is in the prompt. *)
Lemma placeholder_in_context_survives :
  includes
    (OpenAIService.buildPrompt (Sample.env true Sample.serverError) (lit "pricing")
       {| rfpContent := None;
          companyProfile := Some (lit "We are {templateName}.");
          requirements := None; constraints := None; targetAudience := None |}
       tpl_pricing)
    tokTemplateName = true.
Proof. vm_compute. reflexivity. Qed.

(** C8, amended: for every supported section identifier with its
    template, and every generation context whose texts, and the excerpt
    of the document index for it, hold no placeholder, the prompt of
    [buildPrompt] contains neither [{sectionType}] nor [{templateName}]:
    the first-occurrence substitution leaves none in the template
    part. *)
Theorem buildPrompt_no_placeholder env id tpl context :
  In (id, tpl) getSectionTemplates ->
  contextClean context = true ->
  excerptClean env id context = true ->
  placeholderFree (OpenAIService.buildPrompt env id context tpl) = true.
Proof.
  intros Hin Hctx Hex.
  assert (Hfree : forall tok, tok = tokSectionType \/ tok = tokTemplateName ->
            includes (OpenAIService.buildPrompt env id context tpl) tok = false).
  { intros tok Htok. apply buildPrompt_free_of; try assumption.
    - intros s Hs. unfold contextClean in Hctx. rewrite forallb_forall in Hctx.
      specialize (Hctx s Hs). unfold placeholderFree in Hctx.
      apply andb_true_iff in Hctx as [H1 H2].
      apply negb_true_iff in H1, H2. now destruct Htok as [-> | ->].
    - intros rfp E. unfold excerptClean in Hex. rewrite E in Hex.
      unfold placeholderFree in Hex. apply andb_true_iff in Hex as [H1 H2].
      apply negb_true_iff in H1, H2. now destruct Htok as [-> | ->]. }
  unfold placeholderFree.
  rewrite (Hfree tokSectionType), (Hfree tokTemplateName) by auto. reflexivity.
Qed.

Lemma buildPrompt_no_placeholder_witness :
  placeholderFree
    (OpenAIService.buildPrompt (Sample.env true Sample.serverError)
       (lit "executive-summary")
       {| rfpContent := Some (lit "We need a CRM {now}.");
          companyProfile := Some (lit "Vendor since 1999");
          requirements := Some [lit "cloud"; lit "support"];
          constraints := None;
          targetAudience := Some (lit "CTO") |}
       tpl_executive_summary) = true.
Proof.
  apply (buildPrompt_no_placeholder (Sample.env true Sample.serverError)
           (lit "executive-summary") tpl_executive_summary).
  - left. reflexivity.
  - reflexivity.
  - reflexivity.
Defined.

(** ** The cancellation handle *)

(** C9 fails on the code for the analysis engine: [analyzeDocument] has
    no [finally] and nothing else clears the handle.  After a call that
    completes, and after a call that fails, the instance still holds the
    controller of that call; [generateSection] clears it in both cases,
    and [cancelAnalysis], unlike [cancelGeneration], leaves it too. *)
Theorem analyzeDocument_leaves_its_controller :
  let completes := DocumentAnalyzer.analyzeDocument
                     (Sample.env true (Sample.streamed [replyBody "{}"]))
                     (lit "An RFP.") logAnalysis Sample.fresh in
  let fails := DocumentAnalyzer.analyzeDocument
                 (Sample.env true Sample.serverError)
                 (lit "An RFP.") logAnalysis Sample.fresh in
  (exists a, fst completes = Returned a) /\
  abortController (snd completes) = Some 0%nat /\
  (exists e, fst fails = Threw e) /\
  abortController (snd fails) = Some 0%nat /\
  abortController
    (snd (DocumentAnalyzer.cancelAnalysis (snd completes))) = Some 0%nat /\
  abortController
    (snd (OpenAIService.generateSection
            (Sample.env true (Sample.streamed [frames helloFrames]))
            (lit "pricing") logProgress logChunk Sample.noContext tpl_pricing
            Sample.fresh)) = None.
Proof.
  cbv zeta.
  split; [eexists; vm_compute; reflexivity|].
  split; [vm_compute; reflexivity|].
  split; [eexists; vm_compute; reflexivity|].
  repeat split; vm_compute; reflexivity.
Qed.

(** ** A stream that ends without end frame *)

(** C10: if the body ends after reads none of whose lines is the end
    frame [data: [DONE]], [generateSection] resolves with the
    accumulated content: the texts of the deltas of the data lines of
    all reads, in their order, which are the deltas passed to the chunk
    callback.  The events of the call are its opening events and, for
    every delta, the chunk callback and a generating progress event; no
    progress event of the call has status completed, and the last
    progress event of the call has status generating. *)
Theorem generateSection_ends_without_done env sid ctx tpl w r b :
  enableAIGeneration (config env) = true ->
  network env (fetches w) = FetchResponds r ->
  ok r = true ->
  body r = Some b ->
  ending b = EndDone ->
  doneSeenb (reads b) = false ->
  exists content w' evs,
    OpenAIService.generateSection env sid logProgress logChunk ctx tpl w
      = (Returned content, w') /\
    trace w' = trace w ++ evs /\
    content = deltaText (runtime env) (chunkDeltas evs) /\
    filter (isStatus StCompleted) (progressEvents evs) = [] /\
    (exists p, lastOf (progressEvents evs) = Some p /\ gp_status p = StGenerating) /\
    content = streamText (lineDeltas env (allLines (reads b))) /\
    chunkDeltas evs = map fst (lineDeltas env (allLines (reads b))) /\
    evs = abortOf (abortController w)
            ++ [ ProgressEv (OpenAIService.progressEvent sid StGenerating 0 None None);
                 Fetched (sectionRequest env sid ctx tpl w) ]
            ++ deltaEvents sid ChunkEv [] 0 (lineDeltas env (allLines (reads b))).
Proof.
  intros Hflag Hnet Hok Hbody Hend Hseen.
  change logChunk with (logVia ChunkEv).
  rewrite generateSection_via by assumption. cbv zeta.
  unfold sectionRun. rewrite Hnet, Hok, Hbody. cbn [negb].
  unfold streamRun. cbv zeta. rewrite hasDone_doneSeenb, Hseen, Hend. cbn [fst snd].
  set (deltas := lineDeltas env (allLines (reads b))).
  exists (streamText deltas). eexists.
  exists (callEvents env sid ctx tpl w (rev (deltaEvents sid ChunkEv [] 0 deltas))).
  split; [reflexivity|].
  split; [rewrite trace_settled; apply trace_opened|].
  rewrite chunkDeltas_callEvents, progressEvents_callEvents, rev_involutive,
    chunkDeltas_deltaEvents.
  assert (Hall : Forall (fun p => gp_status p = StGenerating)
                   (OpenAIService.progressEvent sid StGenerating 0 None None
                      :: progressEvents (deltaEvents sid ChunkEv [] 0 deltas))).
  { constructor; [reflexivity|]. apply progressEvents_deltaEvents_generating. }
  split; [symmetry; apply deltaText_lineDeltas|].
  split; [|split; [|split; [reflexivity|split; [reflexivity|]]]].
  - induction Hall as [|p l Hp Hl IH]; [reflexivity|].
    cbn [filter]. unfold isStatus at 1. rewrite Hp. exact IH.
  - now apply lastOf_Forall.
  - unfold callEvents. now rewrite rev_involutive.
Qed.

Lemma generateSection_ends_without_done_witness :
  exists w' evs,
    OpenAIService.generateSection
      (Sample.env true
         (Sample.streamed [frames [contentFrame "Hello"]; frames [contentFrame " wor"]]))
      (lit "pricing") logProgress logChunk Sample.noContext tpl_pricing Sample.fresh
    = (Returned (lit "Hello wor"), w') /\
    trace w' = trace Sample.fresh ++ evs /\
    chunkDeltas evs = [JStr (lit "Hello"); JStr (lit " wor")] /\
    filter (isStatus StCompleted) (progressEvents evs) = [] /\
    exists p, lastOf (progressEvents evs) = Some p /\ gp_status p = StGenerating.
Proof.
  destruct (generateSection_ends_without_done
              (Sample.env true
                 (Sample.streamed
                    [frames [contentFrame "Hello"]; frames [contentFrame " wor"]]))
              (lit "pricing") Sample.noContext tpl_pricing Sample.fresh
              (Sample.response [frames [contentFrame "Hello"]; frames [contentFrame " wor"]])
              (Sample.bodyOf [frames [contentFrame "Hello"]; frames [contentFrame " wor"]])
              eq_refl eq_refl eq_refl eq_refl eq_refl eq_refl)
    as (content & w' & evs & Hrun & Htrace & _ & Hnone & Hlast & Hcontent & Hchunks & _).
  exists w', evs. rewrite Hcontent in Hrun.
  split; [exact Hrun|]. split; [exact Htrace|].
  split; [exact Hchunks|]. split; [exact Hnone|exact Hlast].
Defined.

(* ================================================================== *)
(** * An analysis as a whole *)
(* ================================================================== *)

Lemma analyzeDocument_via progressEv env doc w :
  enableAIGeneration (config env) = true ->
  DocumentAnalyzer.analyzeDocument env doc (Some (fun p => emit (progressEv p))) w =
  let run := analysisRun env (network env (fetches w)) in
  (fst run, extend (openedVia progressEv env doc w) (rev (map progressEv (snd run)))).
Proof.
  intros Hflag.
  unfold DocumentAnalyzer.analyzeDocument. rewrite Hflag.
  cbv beta iota zeta delta
    [negb tryCatch bind lift getController newController setController
     abort emit call fetch throw ret
     analysisRun openedVia extend analysisRequest abortOf failureMessage
     progress50 progress90 progress100 progressPreparing progressError
     replyContent extractJson analysisOf Res.bind
     abortController nextController fetches log].
  destruct w as [ctrl next n lg].
  destruct ctrl as [c|]; cbn [app];
    (destruct (network env n) as [e0|r]; [reflexivity|]);
    (destruct (ok r); [|reflexivity]);
    (destruct (DocumentAnalyzer.responseJson env r) as [data|e1]; [|reflexivity]);
    (destruct (DocumentAnalyzer.messageContent env data) as [[content|]|e1];
       try reflexivity);
    (destruct (truthy (Some content)); [|reflexivity]);
    (destruct (DocumentAnalyzer.matchJson env content) as [[matched|]|e1];
       try reflexivity);
    (destruct (jsonParse env matched) as [analysis|e1]; [|reflexivity]);
    (destruct (DocumentAnalyzer.processAnalysis env analysis) as [a|e1]; reflexivity).
Qed.

Lemma trace_openedVia progressEv env doc w newer :
  trace (extend (openedVia progressEv env doc w) newer)
  = trace w ++ abortOf (abortController w)
      ++ [progressEv progressPreparing; Fetched (analysisRequest env doc w)]
      ++ rev newer.
Proof.
  unfold trace, extend, openedVia. cbn [log].
  rewrite !rev_app_distr. cbn [rev]. rewrite rev_app_distr, <- !app_assoc. cbn [app].
  destruct (abortController w); reflexivity.
Qed.

Lemma analysisRun_failure env answer e :
  fst (analysisRun env answer) = Threw e ->
  exists steps message,
    snd (analysisRun env answer) = steps ++ [progressError message] /\
    e = ErrorObject (lit "Document analysis failed: " ++ message) /\
    (steps = [] \/ steps = [progress50] \/ steps = [progress50; progress90]).
Proof.
  unfold analysisRun.
  destruct answer as [e0|r].
  { intro H. inversion H. eexists [], _. cbn. auto. }
  destruct (negb (ok r)).
  { intro H. inversion H. eexists [], _. cbn. auto. }
  destruct (Res.bind (replyContent env r) (extractJson env)) as [matched|e1].
  2:{ intro H. inversion H. eexists [progress50], _. cbn. auto. }
  destruct (analysisOf env matched) as [a|e1]; [discriminate|].
  intro H. inversion H. eexists [progress50; progress90], _. cbn. auto.
Qed.

Lemma analysisRun_success env answer a :
  fst (analysisRun env answer) = Returned a ->
  snd (analysisRun env answer) = [progress50; progress90; progress100].
Proof.
  unfold analysisRun.
  destruct answer as [e0|r]; [discriminate|].
  destruct (negb (ok r)); [discriminate|].
  destruct (Res.bind (replyContent env r) (extractJson env)) as [matched|e1];
    [|discriminate].
  destruct (analysisOf env matched) as [a'|e1]; [reflexivity|discriminate].
Qed.

(** Reversed logs, flattened. *)
Ltac rev_norm :=
  repeat (progress (cbn [rev app abortOf];
                    rewrite ?rev_app_distr, ?rev_involutive, <- ?app_assoc)).

Lemma analysisEvents_app a b :
  analysisEvents (a ++ b) = analysisEvents a ++ analysisEvents b.
Proof. unfold analysisEvents. apply flat_map_app. Qed.

Lemma analysisEvents_abortOf c : analysisEvents (abortOf c) = [].
Proof. destruct c; reflexivity. Qed.

Lemma analysisEvents_map (f : AnalysisProgress -> AnalysisProgress) l :
  analysisEvents (map (fun p => AnalysisEv (f p)) l) = map f l.
Proof. induction l as [|p l IH]; [reflexivity|]. cbn. now rewrite <- IH. Qed.

Lemma requests_abortOf c : requests (abortOf c) = [].
Proof. destruct c; reflexivity. Qed.

Lemma requests_map_analysis (f : AnalysisProgress -> AnalysisProgress) l :
  requests (map (fun p => AnalysisEv (f p)) l) = [].
Proof. induction l as [|p l IH]; [reflexivity|]. exact IH. Qed.

(** The events of the handler for a content that passes the
    validation, with the feature on. *)
Lemma handleAnalyzeDocument_valid env documentContent w :
  enableAIGeneration (config env) = true ->
  isValid (DocumentAnalyzer.validateDocumentContent documentContent) = true ->
  let run := analysisRun env (network env (fetches w)) in
  exists w',
    DocumentAnalyzer.handleAnalyzeDocument env documentContent w = (Returned tt, w') /\
    trace w'
    = trace w
        ++ (AnalysisEv (DocumentAnalyzer.analysisEvent AAnalyzing 0
                          (Some (lit "Starting analysis...")) None)
              :: abortOf (abortController w))
        ++ [AnalysisEv progressPreparing; Fetched (analysisRequest env documentContent w)]
        ++ map AnalysisEv (snd run)
        ++ match fst run with
           | Returned a => [SetAnalysis a; AnalysisEv progress100]
           | Threw e =>
               [ConsoleError (lit "Analysis failed:") e;
                AnalysisEv (progressError (messageOr e (lit "Analysis failed")))]
           end.
Proof.
  intros Hflag Hvalid. cbv zeta.
  unfold DocumentAnalyzer.handleAnalyzeDocument. rewrite Hvalid.
  cbn [negb]. unfold tryCatch. unfold bind at 1. unfold emit at 1.
  unfold bind at 1.
  rewrite (analyzeDocument_via AnalysisEv) by exact Hflag. cbv zeta.
  cbn [fetches].
  destruct (analysisRun env (network env (fetches w))) as [[a|e] steps];
    cbn [fst snd]; unfold bind, emit; cbn [log];
    (eexists; split; [reflexivity|]);
    unfold trace, extend, openedVia; cbn [log abortController nextController];
    destruct (abortController w); rev_norm; reflexivity.
Qed.

Lemma requests_map_AnalysisEv l : requests (map AnalysisEv l) = [].
Proof. induction l as [|p l IH]; [reflexivity|]. exact IH. Qed.

Lemma analysisEvents_map_AnalysisEv l : analysisEvents (map AnalysisEv l) = l.
Proof. induction l as [|p l IH]; [reflexivity|]. cbn. now rewrite <- IH at 2. Qed.

Lemma lastOf_app_last {A} (l : list A) x y : lastOf (l ++ [x; y]) = Some y.
Proof.
  change (l ++ [x; y]) with (l ++ [x] ++ [y]). rewrite app_assoc. apply lastOf_app_cons.
Qed.

(** Only a text file yields a text. *)
Lemma extractTextFromFile_text file text :
  FileAnalysis.extractTextFromFile file = Returned text ->
  file_type file = textType /\ file_text file = Some text.
Proof.
  unfold FileAnalysis.extractTextFromFile.
  destruct (JsString.eqb (file_type file) textType) eqn:E.
  - apply eqb_eq in E. destruct (file_text file); [|discriminate].
    intro H. inversion H. auto.
  - destruct (JsString.eqb (file_type file) pdfType); [discriminate|].
    destruct (JsString.eqb (file_type file) docxType); discriminate.
Qed.

(** The file analysis when the text cannot be extracted. *)
Lemma analyzeDocumentFromFile_unreadable env file w e :
  FileAnalysis.extractTextFromFile file = Threw e ->
  FileAnalysis.analyzeDocumentFromFile env file logAnalysis w
  = (Threw e, extend w [AnalysisEv (progressError (failureMessage e));
                        AnalysisEv progressExtracting]).
Proof.
  intro He. unfold FileAnalysis.analyzeDocumentFromFile, tryCatch.
  unfold bind at 1. unfold call at 1, logAnalysis, emit at 1.
  unfold bind at 1. rewrite He. reflexivity.
Qed.

(** The file analysis of a text, with the feature on. *)
Lemma analyzeDocumentFromFile_via env file text w :
  enableAIGeneration (config env) = true ->
  FileAnalysis.extractTextFromFile file = Returned text ->
  let run := analysisRun env (network env (fetches w)) in
  exists w',
    FileAnalysis.analyzeDocumentFromFile env file logAnalysis w = (fst run, w') /\
    trace w'
    = trace w
        ++ [AnalysisEv progressExtracting; AnalysisEv progressExtracted]
        ++ abortOf (abortController w)
        ++ [AnalysisEv (FileAnalysis.adjust progressPreparing);
            Fetched (analysisRequest env text w)]
        ++ map (fun p => AnalysisEv (FileAnalysis.adjust p)) (snd run)
        ++ closing (fst run) /\
    abortController w' = Some (nextController w) /\
    nextController w' = S (nextController w) /\
    fetches w' = S (fetches w).
Proof.
  intros Hflag Htext. cbv zeta.
  unfold FileAnalysis.analyzeDocumentFromFile, tryCatch.
  unfold bind at 1. unfold call at 1, logAnalysis, emit at 1.
  unfold bind at 1. rewrite Htext. unfold lift at 1.
  unfold bind at 1. unfold call at 1, emit at 1.
  change (Some (fun progressUpdate : AnalysisProgress =>
                  call (Some (fun p : AnalysisProgress => emit (AnalysisEv p)))
                       (FileAnalysis.adjust progressUpdate)))
    with (Some (fun p : AnalysisProgress =>
                  emit ((fun q => AnalysisEv (FileAnalysis.adjust q)) p))).
  rewrite (analyzeDocument_via (fun q => AnalysisEv (FileAnalysis.adjust q)))
    by exact Hflag.
  cbv zeta. cbn [fetches].
  destruct (analysisRun env (network env (fetches w))) as [[a|e] steps];
    cbn [fst snd closing]; unfold bind, call, emit, throw; cbn [log];
    (eexists; split; [reflexivity|]);
    (split; [|repeat split; reflexivity]);
    unfold trace, extend, openedVia; cbn [log abortController nextController];
    destruct (abortController w); rev_norm; rewrite ?app_nil_r; reflexivity.
Qed.

Lemma map_rescaled_abortOf c : map rescaled (abortOf c) = abortOf c.
Proof. destruct c; reflexivity. Qed.

Lemma map_rescaled_analysis l :
  map rescaled (map AnalysisEv l) = map (fun p => AnalysisEv (FileAnalysis.adjust p)) l.
Proof. now rewrite map_map. Qed.

(* ================================================================== *)
(** * Rounding to binary64 from below *)
(* ================================================================== *)

Section Rounding.
Local Open Scope Z_scope.

Lemma up_pos k : 0 < up k.
Proof. unfold up. apply Z.pow_pos_nonneg; lia. Qed.

Lemma dn_pos k : 0 < dn k.
Proof. unfold dn. apply Z.pow_pos_nonneg; lia. Qed.

Lemma up_dn_sum a b c :
  a = b + c -> up a * dn b * dn c = dn a * up b * up c.
Proof.
  intros ->. unfold up, dn. rewrite <- !Z.pow_add_r by lia. f_equal. lia.
Qed.

Lemma up_nonneg k : 0 <= k -> up k = 2 ^ k /\ dn k = 1.
Proof.
  intro H. unfold up, dn. rewrite Z.max_l, Z.max_r by lia. auto.
Qed.

Lemma up_neg k : k < 0 -> up k = 1 /\ dn k = 2 ^ (- k).
Proof.
  intro H. unfold up, dn. rewrite Z.max_r, Z.max_l by lia. auto.
Qed.

(** Cancelling a positive factor. *)
Lemma mul_le_cancel c a b : 0 < c -> a * c <= b * c -> a <= b.
Proof. intros Hc H. nia. Qed.

(** The exponent that [nearest] chooses puts the quotient at or above
    [2^52]. *)
Lemma nearest_bracket p q :
  0 < p -> 0 < q ->
  let d := Z.log2 p - Z.log2 q in
  let ge := if 0 <=? d then q * 2 ^ d <=? p else q <=? p * 2 ^ (- d) in
  let e := if ge then d - 52 else d - 53 in
  2 ^ 52 * (q * up e) <= p * dn e.
Proof.
  intros Hp Hq d ge e.
  assert (Hkey : q * up (e + 52) <= p * dn (e + 52)).
  { subst e. destruct ge eqn:Hge.
    - replace (d - 52 + 52) with d by lia. subst ge.
      destruct (0 <=? d) eqn:Hd.
      + apply Z.leb_le in Hd. destruct (up_nonneg d Hd) as [-> ->].
        apply Z.leb_le in Hge. lia.
      + apply Z.leb_gt in Hd. destruct (up_neg d Hd) as [-> ->].
        apply Z.leb_le in Hge. lia.
    - replace (d - 53 + 52) with (d - 1) by lia.
      pose proof (Z.log2_spec p Hp) as [Hp1 _].
      pose proof (Z.log2_spec q Hq) as [_ Hq2].
      pose proof (Z.log2_nonneg p). pose proof (Z.log2_nonneg q).
      pose proof (up_dn_sum (Z.log2 p) (d - 1) (Z.succ (Z.log2 q)) ltac:(subst d; lia))
        as Hid.
      destruct (up_nonneg (Z.log2 p) ltac:(lia)) as [E1 E2].
      destruct (up_nonneg (Z.succ (Z.log2 q)) ltac:(lia)) as [E3 E4].
      rewrite E1, E2, E3, E4 in Hid.
      pose proof (up_pos (d - 1)). pose proof (dn_pos (d - 1)).
      apply (mul_le_cancel (2 ^ Z.succ (Z.log2 q))); [lia|].
      revert Hid Hp1 Hq2 H1 H2.
      generalize (up (d - 1)) (dn (d - 1)) (2 ^ Z.log2 p) (2 ^ Z.succ (Z.log2 q)).
      intros U D A B Hid Hp1 Hq2 HU HD.
      assert (HA : q * A <= B * p) by nia.
      replace (q * U * B) with (D * (q * A)) by nia.
      replace (p * D * B) with (D * (B * p)) by ring.
      apply Z.mul_le_mono_nonneg_l; lia. }
  pose proof (up_dn_sum (e + 52) e 52 ltac:(lia)) as Hid.
  change (dn 52) with 1 in Hid. change (up 52) with (2 ^ 52) in Hid.
  pose proof (up_pos e). pose proof (dn_pos e).
  pose proof (up_pos (e + 52)). pose proof (dn_pos (e + 52)).
  apply (mul_le_cancel (dn (e + 52))); [lia|].
  revert Hkey Hid H H0 H1 H2.
  generalize (up (e + 52)) (dn (e + 52)) (up e) (dn e) (2 ^ 52).
  intros U D Ue De P Hkey Hid HUe HDe HU HD.
  replace (P * (q * Ue) * D) with (De * (q * U)) by nia.
  replace (p * De * D) with (De * (p * D)) by ring.
  apply Z.mul_le_mono_nonneg_l; lia.
Qed.

(** [nearest p q] is a normal number at or above [p / q * (1 - 2^-53)]. *)
Lemma nearest_lower p q :
  0 < p -> 0 < q ->
  2 ^ 52 <= fst (Double.nearest p q) /\
  atLeast (Double.nearest p q) (p * (2 ^ 53 - 1)) (q * 2 ^ 53).
Proof.
  intros Hp Hq. pose proof (nearest_bracket p q Hp Hq) as Hb. cbv zeta in Hb.
  unfold Double.nearest.
  set (d := Z.log2 p - Z.log2 q) in *.
  set (ge := if 0 <=? d then q * 2 ^ d <=? p else q <=? p * 2 ^ (- d)) in *.
  set (e := if ge then d - 52 else d - 53) in *.
  cbv zeta.
  assert (Hnum : (if e <? 0 then p * 2 ^ (- e) else p) = p * dn e).
  { destruct (e <? 0) eqn:He.
    - apply Z.ltb_lt in He. now destruct (up_neg e He) as [_ ->].
    - apply Z.ltb_ge in He. destruct (up_nonneg e He) as [_ ->]. lia. }
  assert (Hden : (if e <? 0 then q else q * 2 ^ e) = q * up e).
  { destruct (e <? 0) eqn:He.
    - apply Z.ltb_lt in He. destruct (up_neg e He) as [-> _]. lia.
    - apply Z.ltb_ge in He. now destruct (up_nonneg e He) as [-> _]. }
  rewrite Hnum, Hden.
  pose proof (up_pos e) as HU. pose proof (dn_pos e) as HD.
  set (num := p * dn e) in *. set (den := q * up e) in *.
  assert (Hden0 : 0 < den) by (subst den; nia).
  pose proof (Z.div_mod num den ltac:(lia)) as Hdm.
  pose proof (Z.mod_pos_bound num den Hden0) as Hr.
  set (m0 := num / den) in *. set (r := num mod den) in *.
  assert (Hm0 : 2 ^ 52 <= m0).
  { subst m0. apply Z.div_le_lower_bound; lia. }
  set (upw := (den <? 2 * r) || (den =? 2 * r) && Z.odd m0).
  set (m := if upw then m0 + 1 else m0).
  assert (Hm : m0 <= m /\ 2 * num - den <= 2 * (m * den)).
  { subst m. destruct upw eqn:Hu.
    - split; [lia|]. nia.
    - split; [lia|]. subst upw. apply orb_false_iff in Hu as [Hu _].
      apply Z.ltb_ge in Hu. nia. }
  destruct Hm as [Hm1 Hm2].
  assert (Hmain : num * (2 ^ 53 - 1) <= m * den * 2 ^ 53).
  { change (2 ^ 53) with (2 * 2 ^ 52). nia. }
  destruct (m =? 2 ^ 53) eqn:Htop.
  - apply Z.eqb_eq in Htop. cbn [fst snd]. split; [lia|].
    unfold atLeast. cbn [fst snd].
    pose proof (up_dn_sum (e + 1) e 1 ltac:(lia)) as Hid.
    change (dn 1) with 1 in Hid. change (up 1) with 2 in Hid.
    pose proof (up_pos (e + 1)). pose proof (dn_pos (e + 1)).
    rewrite Htop in Hmain. subst num den.
    apply (mul_le_cancel (dn e)); [lia|].
    revert Hmain Hid HU HD H H0.
    generalize (up (e + 1)) (dn (e + 1)) (up e) (dn e).
    intros U1 D1 U0 D0 Hmain Hid HU HD HU1 HD1.
    replace (p * (2 ^ 53 - 1) * D1 * D0) with (D1 * (p * D0 * (2 ^ 53 - 1))) by ring.
    replace (2 ^ 52 * U1 * (q * 2 ^ 53) * D0)
      with (D1 * (2 ^ 53 * (q * U0) * 2 ^ 53)).
    2:{ change (2 ^ 53) with (2 * 2 ^ 52). nia. }
    apply Z.mul_le_mono_nonneg_l; lia.
  - cbn [fst snd]. split; [lia|].
    unfold atLeast. cbn [fst snd]. subst num den. nia.
Qed.

(** A weaker bound follows from a stronger one. *)
Lemma atLeast_weaken x a b a' b' :
  0 < b -> 0 < b' -> 0 < fst x -> a' * b <= a * b' ->
  atLeast x a b -> atLeast x a' b'.
Proof.
  unfold atLeast. intros Hb Hb' Hx Hab H.
  pose proof (up_pos (snd x)). pose proof (dn_pos (snd x)).
  apply (mul_le_cancel b); [lia|].
  revert H H0 H1. generalize (up (snd x)) (dn (snd x)) (fst x) Hx.
  intros U D m Hm H HU HD.
  assert (a' * b * D <= a * b' * D) by (apply Z.mul_le_mono_nonneg_r; lia).
  assert (a * D * b' <= m * U * b * b') by (apply Z.mul_le_mono_nonneg_r; lia).
  nia.
Qed.

Lemma div_lower x y a b :
  0 < fst x -> 0 < fst y -> 0 < b ->
  atLeast x a b ->
  2 ^ 52 <= fst (Double.div x y) /\
  atLeast (Double.div x y)
    (a * dn (snd y) * (2 ^ 53 - 1)) (b * (fst y * up (snd y)) * 2 ^ 53).
Proof.
  destruct x as [mx ex], y as [my ey]. cbn [fst snd]. intros Hx Hy Hb Hxa.
  unfold Double.div.
  set (s := ex - ey).
  assert (E : (if s <? 0 then Double.nearest mx (my * 2 ^ (- s))
               else Double.nearest (mx * 2 ^ s) my)
              = Double.nearest (mx * up s) (my * dn s)).
  { destruct (s <? 0) eqn:Hs.
    - apply Z.ltb_lt in Hs. destruct (up_neg s Hs) as [-> ->]. now rewrite Z.mul_1_r.
    - apply Z.ltb_ge in Hs. destruct (up_nonneg s Hs) as [-> ->]. now rewrite Z.mul_1_r. }
  rewrite E.
  pose proof (up_pos s). pose proof (dn_pos s).
  pose proof (up_pos ex). pose proof (dn_pos ex).
  pose proof (up_pos ey). pose proof (dn_pos ey).
  destruct (nearest_lower (mx * up s) (my * dn s) ltac:(nia) ltac:(nia)) as [Hpos Hlow].
  split; [exact Hpos|].
  apply (atLeast_weaken _ (mx * up s * (2 ^ 53 - 1)) (my * dn s * 2 ^ 53));
    [nia|nia|lia| |exact Hlow].
  pose proof (up_dn_sum ex s ey ltac:(subst s; lia)) as Hid.
  unfold atLeast in Hxa. cbn [fst snd] in Hxa.
  revert Hxa Hid H H0 H1 H2 H3 H4.
  generalize (up s) (dn s) (up ex) (dn ex) (up ey) (dn ey).
  intros Us Ds Ux Dx Uy Dy Hxa Hid HUs HDs HUx HDx HUy HDy.
  (* a Dy Ds my <= mx Us b my Uy, from a Dx <= mx Ux b and Ux Ds Dy = Dx Us Uy *)
  assert (Hc : a * Dy * Ds <= mx * Us * b * Uy).
  { apply (mul_le_cancel Dx); [lia|].
    assert (a * Dx * (Ds * Dy) <= mx * Ux * b * (Ds * Dy))
      by (apply Z.mul_le_mono_nonneg_r; nia).
    replace (mx * Us * b * Uy * Dx) with (mx * b * (Dx * Us * Uy)) by ring.
    rewrite <- Hid. nia. }
  assert (Hk : 0 <= my * ((2 ^ 53 - 1) * 2 ^ 53)) by nia.
  pose proof (Z.mul_le_mono_nonneg_r _ _ _ Hk Hc). nia.
Qed.

Lemma mul_lower x y a b :
  0 < fst x -> 0 < fst y -> 0 < b ->
  atLeast x a b ->
  2 ^ 52 <= fst (Double.mul x y) /\
  atLeast (Double.mul x y)
    (a * (fst y * up (snd y)) * (2 ^ 53 - 1)) (b * dn (snd y) * 2 ^ 53).
Proof.
  destruct x as [mx ex], y as [my ey]. cbn [fst snd]. intros Hx Hy Hb Hxa.
  unfold Double.mul.
  set (s := ex + ey).
  assert (E : (if s <? 0 then Double.nearest (mx * my) (2 ^ (- s))
               else Double.nearest (mx * my * 2 ^ s) 1)
              = Double.nearest (mx * my * up s) (dn s)).
  { destruct (s <? 0) eqn:Hs.
    - apply Z.ltb_lt in Hs. destruct (up_neg s Hs) as [-> ->]. now rewrite Z.mul_1_r.
    - apply Z.ltb_ge in Hs. now destruct (up_nonneg s Hs) as [-> ->]. }
  rewrite E.
  pose proof (up_pos s). pose proof (dn_pos s).
  pose proof (up_pos ex). pose proof (dn_pos ex).
  pose proof (up_pos ey). pose proof (dn_pos ey).
  destruct (nearest_lower (mx * my * up s) (dn s) ltac:(nia) ltac:(nia)) as [Hpos Hlow].
  split; [exact Hpos|].
  apply (atLeast_weaken _ (mx * my * up s * (2 ^ 53 - 1)) (dn s * 2 ^ 53));
    [nia|nia|lia| |exact Hlow].
  pose proof (up_dn_sum s ex ey ltac:(subst s; lia)) as Hid.
  unfold atLeast in Hxa. cbn [fst snd] in Hxa.
  revert Hxa Hid H H0 H1 H2 H3 H4.
  generalize (up s) (dn s) (up ex) (dn ex) (up ey) (dn ey).
  intros Us Ds Ux Dx Uy Dy Hxa Hid HUs HDs HUx HDx HUy HDy.
  (* a Uy Ds <= mx Us b Dy, from a Dx <= mx Ux b and Us Dx Dy = Ds Ux Uy *)
  assert (Hc : a * Uy * Ds <= mx * Us * b * Dy).
  { apply (mul_le_cancel Dx); [lia|].
    assert (a * Dx * (Ds * Uy) <= mx * Ux * b * (Ds * Uy))
      by (apply Z.mul_le_mono_nonneg_r; nia).
    replace (mx * Us * b * Dy * Dx) with (mx * b * (Us * Dx * Dy)) by ring.
    rewrite Hid. nia. }
  assert (Hk : 0 <= my * ((2 ^ 53 - 1) * 2 ^ 53)) by nia.
  pose proof (Z.mul_le_mono_nonneg_r _ _ _ Hk Hc). nia.
Qed.

Lemma floor_lower x a b k :
  0 < b -> k * b <= a -> atLeast x a b -> k <= Double.floor x.
Proof.
  destruct x as [m e]. unfold atLeast, Double.floor. cbn [fst snd].
  intros Hb Hk H.
  pose proof (up_pos e). pose proof (dn_pos e).
  assert (E : (if e <? 0 then m / 2 ^ (- e) else m * 2 ^ e) = (m * up e) / dn e).
  { destruct (e <? 0) eqn:He.
    - apply Z.ltb_lt in He. destruct (up_neg e He) as [-> ->]. now rewrite Z.mul_1_r.
    - apply Z.ltb_ge in He. destruct (up_nonneg e He) as [-> ->]. now rewrite Z.div_1_r. }
  rewrite E. apply Z.div_le_lower_bound; [lia|].
  apply (mul_le_cancel b); [lia|].
  assert (k * b * dn e <= a * dn e) by (apply Z.mul_le_mono_nonneg_r; lia).
  nia.
Qed.

(** From 48 chunks on, the estimate is at its cap. *)
Lemma progressEstimate_cap n : 48 <= n -> progressEstimate n = 95.
Proof.
  intro Hn. unfold progressEstimate.
  apply Z.min_l.
  destruct (nearest_lower n 1 ltac:(lia) ltac:(lia)) as [H1 L1].
  fold (Double.ofInt n) in H1, L1.
  assert (P1 : 0 < fst (Double.ofInt n)) by lia.
  destruct (div_lower (Double.ofInt n) (Double.ofInt 50)
              (n * (2 ^ 53 - 1)) (1 * 2 ^ 53) P1 eq_refl eq_refl L1) as [H2 L2].
  assert (P2 : 0 < fst (Double.div (Double.ofInt n) (Double.ofInt 50))) by lia.
  assert (P3 : 0 < 1 * 2 ^ 53 * (fst (Double.ofInt 50) * up (snd (Double.ofInt 50)))
                   * 2 ^ 53) by reflexivity.
  destruct (mul_lower _ (Double.ofInt 100) _ _ P2 eq_refl P3 L2) as [H3 L3].
  apply (floor_lower _ _ _ 95) in L3; [exact L3|vm_compute; reflexivity|].
  change (snd (Double.ofInt 50)) with (-47).
  change (fst (Double.ofInt 50)) with 7036874417766400.
  change (snd (Double.ofInt 100)) with (-46).
  change (fst (Double.ofInt 100)) with 7036874417766400.
  change (up (-47)) with 1. change (dn (-47)) with (2 ^ 47).
  change (up (-46)) with 1. change (dn (-46)) with (2 ^ 46).
  lia.
Qed.

Lemma progressEstimate_step n :
  1 <= n -> 0 <= progressEstimate n <= progressEstimate (n + 1).
Proof.
  intro Hn. destruct (Z_lt_le_dec n 48) as [Hlt|Hge].
  - assert (Hin : In n belowCap).
    { unfold belowCap. replace n with (Z.of_nat (Z.to_nat n)) by lia.
      apply in_map, in_seq. lia. }
    assert (Hall : forallb (fun k => (0 <=? progressEstimate k)
                                      && (progressEstimate k <=? progressEstimate (k + 1)))
                           belowCap = true) by (vm_compute; reflexivity).
    rewrite forallb_forall in Hall. specialize (Hall n Hin).
    apply andb_true_iff in Hall as [H1 H2].
    apply Z.leb_le in H1, H2. lia.
  - rewrite !progressEstimate_cap by lia. lia.
Qed.

Lemma progressEstimate_le n m :
  1 <= n -> n <= m -> progressEstimate n <= progressEstimate m.
Proof.
  intros Hn Hm. replace m with (n + Z.of_nat (Z.to_nat (m - n))) by lia.
  induction (Z.to_nat (m - n)) as [|k IH].
  - rewrite Z.add_0_r. lia.
  - replace (n + Z.of_nat (S k)) with (n + Z.of_nat k + 1) by lia.
    pose proof (progressEstimate_step (n + Z.of_nat k) ltac:(lia)). lia.
Qed.

End Rounding.

(* ================================================================== *)
(** * Further properties: the stream of a section *)
(* ================================================================== *)





(** X3: how the server spreads whole lines over the reads is
    immaterial.  For every stream of ASCII lines without line feed, two
    partitions of the lines into reads, each read holding whole lines
    with their line feeds, give the same outcome and the same world. *)
Theorem generateSection_regrouping env sid ctx tpl w groups1 groups2 :
  Forall (Forall (fun l => isLine l = true)) groups1 ->
  Forall (Forall (fun l => isLine l = true)) groups2 ->
  List.concat groups1 = List.concat groups2 ->
  OpenAIService.generateSection (answering env (delivering (map frames groups1)))
    sid logProgress logChunk ctx tpl w
  = OpenAIService.generateSection (answering env (delivering (map frames groups2)))
      sid logProgress logChunk ctx tpl w.
Proof.
  intros H1 H2 Hsame.
  destruct (enableAIGeneration (config env)) eqn:Hflag.
  2:{ rewrite !generateSection_disabled by exact Hflag. reflexivity. }
  change logChunk with (logVia ChunkEv).
  rewrite !generateSection_via by exact Hflag. cbv zeta.
  unfold sectionRun, answering, delivering. cbn [network ok status body reads ending].
  cbn [negb andb N.leb N.compare Pos.compare Pos.compare_cont].
  unfold streamRun, lineDeltas. cbv zeta.
  rewrite !allLines_frames, Hsame by assumption. reflexivity.
Qed.

Lemma generateSection_regrouping_witness :
  OpenAIService.generateSection
    (answering (Sample.env true Sample.serverError)
       (delivering (map frames [[contentFrame "Hello"]; [contentFrame " world"; doneFrame]])))
    (lit "pricing") logProgress logChunk Sample.noContext tpl_pricing Sample.fresh
  = OpenAIService.generateSection
      (answering (Sample.env true Sample.serverError)
         (delivering (map frames [[contentFrame "Hello"; contentFrame " world"]; [];
                                  [doneFrame]])))
      (lit "pricing") logProgress logChunk Sample.noContext tpl_pricing Sample.fresh.
Proof.
  apply (generateSection_regrouping (Sample.env true Sample.serverError)).
  - repeat constructor.
  - repeat constructor.
  - reflexivity.
Defined.

(** X4: the text that [generateSection] resolves with is the text of
    the deltas handed to the chunk callback, in their order, for every
    response and every division of its bytes into reads. *)
Theorem generateSection_content_is_chunks env sid ctx tpl w content w' :
  OpenAIService.generateSection env sid logProgress logChunk ctx tpl w
    = (Returned content, w') ->
  exists evs,
    trace w' = trace w ++ evs /\
    content = deltaText (runtime env) (chunkDeltas evs).
Proof.
  destruct (enableAIGeneration (config env)) eqn:Hflag.
  2:{ rewrite generateSection_disabled by exact Hflag. discriminate. }
  rewrite generateSection_shape by exact Hflag.
  unfold attempt.
  destruct (network env (fetches w)) as [e0|r]; [discriminate|].
  destruct (negb (ok r)); [discriminate|].
  destruct (body r) as [b|]; [|discriminate].
  destruct (readLoop_log env sid (reads b) (ending b) [] 0 (opened env sid ctx tpl w))
    as (res & newer & Hloop & Hres).
  rewrite Hloop. destruct res as [c|e]; [|discriminate].
  intro H. inversion H; subst; clear H.
  exists (callEvents env sid ctx tpl w newer).
  split; [now rewrite trace_settled, trace_opened|].
  rewrite chunkDeltas_callEvents.
  destruct Hres as [(c & ds & Hc & -> & _ & Htext & _)|(_ & Hr)].
  - inversion Hc; subst. cbn [rev]. rewrite chunkDeltas_app. cbn [chunkDeltas flat_map].
    now rewrite app_nil_r.
  - destruct (ending b); [|discriminate]. now inversion Hr.
Qed.

Lemma generateSection_content_is_chunks_witness :
  exists evs,
    trace (snd (OpenAIService.generateSection
                  (Sample.env true (Sample.streamed [frames helloFrames]))
                  (lit "pricing") logProgress logChunk Sample.noContext tpl_pricing
                  Sample.fresh))
    = trace Sample.fresh ++ evs /\
    lit "Hello world" = deltaText Sample.engine (chunkDeltas evs).
Proof.
  apply (generateSection_content_is_chunks
           (Sample.env true (Sample.streamed [frames helloFrames]))
           (lit "pricing") Sample.noContext tpl_pricing Sample.fresh).
  vm_compute. reflexivity.
Defined.

(* ================================================================== *)
(** * Further properties: batches *)
(* ================================================================== *)

Lemma requests_callEvents env sid ctx tpl w newer :
  requests (callEvents env sid ctx tpl w newer)
  = sectionRequest env sid ctx tpl w :: requests (rev newer).
Proof.
  unfold callEvents. rewrite !requests_app.
  destruct (abortController w); reflexivity.
Qed.

(** One section of a batch with logging callbacks: one request, and the
    counter of requests moves by one. *)
Lemma generateSection_one_request env sid ctx tpl w :
  enableAIGeneration (config env) = true ->
  exists r w' evs,
    OpenAIService.generateSection env sid logProgress (logVia (SectionChunkEv sid))
      ctx tpl w = (r, w') /\
    trace w' = trace w ++ evs /\
    requests evs = [sectionRequest env sid ctx tpl w] /\
    fetches w' = S (fetches w).
Proof.
  intro Hflag. rewrite generateSection_via by assumption. cbv zeta.
  eexists. eexists. eexists. split; [reflexivity|].
  split; [rewrite trace_settled; apply trace_opened|].
  split; [|reflexivity].
  rewrite requests_callEvents, rev_involutive, requests_sectionRun; reflexivity.
Qed.

Lemma generateRest_requests env ctx sections : forall results w,
  enableAIGeneration (config env) = true ->
  exists results' w' evs,
    OpenAIService.generateRest env sections ctx logProgress logSectionChunk results w
      = (Returned results', w') /\
    trace w' = trace w ++ evs /\
    map req_userContent (requests evs)
    = map (fun s => OpenAIService.buildPrompt env (fst s) ctx (snd s)) sections /\
    fetches w' = (fetches w + List.length sections)%nat.
Proof.
  induction sections as [|[sid tpl] rest IH]; intros results w Hflag.
  - exists results, w, []. cbn. rewrite app_nil_r, Nat.add_0_r. auto.
  - cbn [OpenAIService.generateRest].
    change (Some (fun chunk : json =>
                    match logSectionChunk with
                    | Some f => f sid chunk
                    | None => ret tt
                    end))
      with (logVia (SectionChunkEv sid)).
    destruct (generateSection_one_request env sid ctx tpl w Hflag)
      as (r & w1 & evs1 & Hrun & Htrace1 & Hreq1 & Hfetch1).
    unfold bind at 1. unfold tryCatch. unfold bind at 1. rewrite Hrun.
    destruct r as [content|error].
    + cbn [ret].
      destruct (IH (OpenAIService.objSet results sid content) w1 Hflag)
        as (results' & w' & evs & Hrest & Htrace & Hreq & Hfetch).
      exists results', w', (evs1 ++ evs). split; [exact Hrest|].
      split; [now rewrite Htrace, Htrace1, app_assoc|].
      split.
      * rewrite requests_app, map_app, Hreq1, Hreq. reflexivity.
      * rewrite Hfetch, Hfetch1. cbn [List.length]. lia.
    + unfold bind at 1. unfold emit at 1. cbn [ret].
      match goal with |- context [OpenAIService.generateRest _ _ _ _ _ ?res ?w0] =>
        destruct (IH res w0 Hflag)
          as (results' & w' & evs & Hrest & Htrace & Hreq & Hfetch) end.
      exists results', w',
        (evs1 ++ ConsoleError (lit "Error generating section " ++ sid ++ lit ":") error
              :: evs).
      split; [exact Hrest|].
      split.
      * rewrite Htrace. unfold trace at 1. cbn [log rev].
        fold (trace w1). rewrite Htrace1, <- !app_assoc. reflexivity.
      * split.
        -- rewrite requests_app, map_app, Hreq1.
           change (requests (ConsoleError (lit "Error generating section " ++ sid ++ lit ":")
                               error :: evs)) with (requests evs).
           rewrite Hreq. reflexivity.
        -- rewrite Hfetch. cbn [fetches List.length]. rewrite Hfetch1. lia.
Qed.

(** X5: a batch asks for its sections one after the other.  With the
    feature on, [generateMultipleSections] resolves, whatever the
    network answers, after exactly one request per section, issued in
    the order of the sections, each with the prompt of its section. *)
Theorem generateMultipleSections_requests env sections ctx w :
  enableAIGeneration (config env) = true ->
  exists results w' evs,
    OpenAIService.generateMultipleSections env sections ctx logProgress logSectionChunk w
      = (Returned results, w') /\
    trace w' = trace w ++ evs /\
    map req_userContent (requests evs)
    = map (fun s => OpenAIService.buildPrompt env (fst s) ctx (snd s)) sections /\
    fetches w' = (fetches w + List.length sections)%nat.
Proof.
  intro Hflag. unfold OpenAIService.generateMultipleSections.
  now apply generateRest_requests.
Qed.

Lemma generateMultipleSections_requests_witness :
  exists results w' evs,
    OpenAIService.generateMultipleSections (Sample.env true Sample.serverError)
      [(lit "pricing", tpl_pricing); (lit "compliance", tpl_compliance)]
      Sample.noContext logProgress logSectionChunk Sample.fresh
      = (Returned results, w') /\
    trace w' = trace Sample.fresh ++ evs /\
    map req_userContent (requests evs)
    = map (fun s => OpenAIService.buildPrompt (Sample.env true Sample.serverError)
                      (fst s) Sample.noContext (snd s))
          [(lit "pricing", tpl_pricing); (lit "compliance", tpl_compliance)] /\
    fetches w' = (fetches Sample.fresh + 2)%nat.
Proof.
  apply (generateMultipleSections_requests (Sample.env true Sample.serverError)).
  reflexivity.
Defined.

Lemma generateRest_disabled env ctx onProgress onChunk sections : forall results w,
  enableAIGeneration (config env) = false ->
  exists results',
    OpenAIService.generateRest env sections ctx onProgress onChunk results w
    = (Returned results',
       extend w (rev (map (fun s =>
                             ConsoleError
                               (lit "Error generating section " ++ fst s ++ lit ":")
                               (ErrorObject
                                  (lit "AI generation is disabled in configuration")))
                          sections))) /\
    (forall k, objGet results k <> None -> objGet results' k <> None) /\
    (forall k v, objGet results' k = Some v ->
                 objGet results k = Some v \/
                 v = lit "Error generating content: AI generation is disabled in configuration").
Proof.
  induction sections as [|[sid tpl] rest IH]; intros results w Hflag.
  - exists results. cbn. rewrite extend_nil. auto.
  - cbn [OpenAIService.generateRest].
    unfold bind at 1. unfold tryCatch. unfold bind at 1.
    rewrite generateSection_disabled by assumption.
    unfold bind at 1. unfold emit at 1. cbn [ret messageOr].
    match goal with |- context [OpenAIService.generateRest _ _ _ _ _ ?res ?w0] =>
      destruct (IH res w0 Hflag) as (results' & Hrest & Hkeep & Hval) end.
    exists results'. split; [|split].
    + rewrite Hrest. f_equal. cbn [map rev fst]. unfold extend.
      cbn [abortController nextController fetches log]. f_equal.
      now rewrite <- app_assoc.
    + intros k Hk. apply Hkeep. now apply objSet_keeps.
    + intros k v Hk. destruct (Hval k v Hk) as [H|H]; [|now right].
      unfold OpenAIService.objSet in H.
      destruct (JsString.eqb sid (lit "__proto__")); [now left|].
      clear - H.
      induction results as [|[k0 v0] results IHr].
      * cbn in H. destruct (JsString.eqb sid k); [|discriminate]. right. now inversion H.
      * cbn [objDefine] in H. destruct (JsString.eqb k0 sid) eqn:E.
        -- cbn [objGet] in H |- *. destruct (JsString.eqb k0 k); [|now left].
           right. now inversion H.
        -- cbn [objGet] in H |- *. destruct (JsString.eqb k0 k); [now left|].
           now apply IHr.
Qed.

(** X6: a batch with the feature off.  [generateMultipleSections] still
    resolves: it issues no request, aborts nothing, logs one console
    error per section, and every entry of the mapping is the text
    [Error generating content: AI generation is disabled in
    configuration]. *)
Theorem generateMultipleSections_disabled env sections ctx onProgress onChunk w :
  enableAIGeneration (config env) = false ->
  exists results w',
    OpenAIService.generateMultipleSections env sections ctx onProgress onChunk w
      = (Returned results, w') /\
    trace w'
    = trace w ++ map (fun s =>
                        ConsoleError (lit "Error generating section " ++ fst s ++ lit ":")
                          (ErrorObject (lit "AI generation is disabled in configuration")))
                     sections /\
    fetches w' = fetches w /\
    abortController w' = abortController w /\
    forall k v, objGet results k = Some v ->
                v = lit "Error generating content: AI generation is disabled in configuration".
Proof.
  intro Hflag. unfold OpenAIService.generateMultipleSections.
  destruct (generateRest_disabled env ctx onProgress onChunk sections [] w Hflag)
    as (results & Hrun & _ & Hval).
  eexists. eexists. split; [exact Hrun|].
  split; [now rewrite trace_extend, rev_involutive|].
  split; [reflexivity|]. split; [reflexivity|].
  intros k v Hk. destruct (Hval k v Hk) as [H|H]; [discriminate|assumption].
Qed.

Lemma generateMultipleSections_disabled_witness :
  exists results w',
    OpenAIService.generateMultipleSections (Sample.env false Sample.serverError)
      [(lit "pricing", tpl_pricing)] Sample.noContext logProgress logSectionChunk
      Sample.fresh
      = (Returned results, w') /\
    fetches w' = 0%nat /\
    objGet results (lit "pricing")
    = Some (lit "Error generating content: AI generation is disabled in configuration").
Proof.
  destruct (generateMultipleSections_disabled (Sample.env false Sample.serverError)
              [(lit "pricing", tpl_pricing)] Sample.noContext logProgress
              logSectionChunk Sample.fresh eq_refl)
    as (results & w' & Hrun & _ & Hfetch & _ & _).
  exists results, w'. split; [exact Hrun|]. split; [exact Hfetch|].
  vm_compute in Hrun. inversion Hrun. reflexivity.
Defined.

(** X7: a batch never rejects and loses no entry.  Whatever the
    callbacks do and whatever fails, [generateMultipleSections] resolves
    with a mapping that has an entry for every section identifier of
    its input other than [__proto__]. *)
Theorem generateMultipleSections_resolves env sections ctx onProgress onChunk w :
  exists results w',
    OpenAIService.generateMultipleSections env sections ctx onProgress onChunk w
      = (Returned results, w') /\
    forall sectionType template,
      In (sectionType, template) sections ->
      sectionType <> lit "__proto__" ->
      objGet results sectionType <> None.
Proof.
  unfold OpenAIService.generateMultipleSections.
  destruct (generateRest_entries env ctx onProgress onChunk sections [] w)
    as (results & w' & Hrun & _ & Hin).
  exists results, w'. split; [exact Hrun|exact Hin].
Qed.

Lemma generateMultipleSections_resolves_witness :
  exists results w',
    OpenAIService.generateMultipleSections (Sample.env true Sample.serverError)
      [(lit "pricing", tpl_pricing); (lit "compliance", tpl_compliance)]
      Sample.noContext None None Sample.fresh
      = (Returned results, w') /\
    objGet results (lit "compliance") <> None.
Proof.
  destruct (generateMultipleSections_resolves (Sample.env true Sample.serverError)
              [(lit "pricing", tpl_pricing); (lit "compliance", tpl_compliance)]
              Sample.noContext None None Sample.fresh)
    as (results & w' & Hrun & Hin).
  exists results, w'. split; [exact Hrun|].
  apply (Hin (lit "compliance") tpl_compliance).
  - right. left. reflexivity.
  - discriminate.
Defined.

(* ================================================================== *)
(** * Further properties: document analysis *)
(* ================================================================== *)

(** X8: the milestones of a successful analysis.  When
    [analyzeDocument] resolves, it has aborted the controller left on
    the instance, if any, and then reported progress 0, issued its one
    request, which is not streamed, and reported progress 50, 90 and,
    with status completed, 100, in this order and nothing else. *)
Theorem analyzeDocument_milestones env doc w a w' :
  DocumentAnalyzer.analyzeDocument env doc logAnalysis w = (Returned a, w') ->
  trace w'
  = trace w ++ abortOf (abortController w)
      ++ [ AnalysisEv progressPreparing;
           Fetched (analysisRequest env doc w);
           AnalysisEv progress50; AnalysisEv progress90; AnalysisEv progress100 ] /\
  req_stream (analysisRequest env doc w) = false /\
  fetches w' = S (fetches w).
Proof.
  destruct (enableAIGeneration (config env)) eqn:Hflag.
  2:{ unfold DocumentAnalyzer.analyzeDocument. rewrite Hflag. discriminate. }
  unfold logAnalysis. rewrite (analyzeDocument_via AnalysisEv) by exact Hflag.
  cbv zeta. intro H. inversion H as [[Hfst Hsnd]]. clear H.
  rewrite (analysisRun_success _ _ _ Hfst).
  split; [|split; reflexivity].
  rewrite trace_openedVia. reflexivity.
Qed.

Lemma analyzeDocument_milestones_witness :
  map ap_progress
    (analysisEvents
       (trace (snd (DocumentAnalyzer.analyzeDocument
                      (Sample.env true (Sample.streamed [replyBody "{}"]))
                      (lit "An RFP.") logAnalysis Sample.fresh))))
  = [0; 50; 90; 100]%Z.
Proof.
  destruct (DocumentAnalyzer.analyzeDocument
              (Sample.env true (Sample.streamed [replyBody "{}"]))
              (lit "An RFP.") logAnalysis Sample.fresh) as [r w'] eqn:Hrun.
  assert (Hr : exists a, r = Returned a).
  { vm_compute in Hrun. inversion Hrun. eexists. reflexivity. }
  destruct Hr as (a & ->).
  destruct (analyzeDocument_milestones _ _ _ _ _ Hrun) as (Htrace & _ & _).
  cbn [snd]. rewrite Htrace. reflexivity.
Defined.

(** X9: the handler of the analyzer page settles.  It never rejects and
    issues at most one request; for a content that passes the
    validation, its last progress update has status completed, after it
    has set the analysis, or status error, and then it has set no
    analysis: the page is not left in the analyzing state. *)
Theorem handleAnalyzeDocument_settles env documentContent w :
  exists w' evs,
    DocumentAnalyzer.handleAnalyzeDocument env documentContent w = (Returned tt, w') /\
    trace w' = trace w ++ evs /\
    (List.length (requests evs) <= 1)%nat /\
    (isValid (DocumentAnalyzer.validateDocumentContent documentContent) = true ->
     (lastStatus evs = Some ACompleted /\ exists a, In (SetAnalysis a) evs) \/
     (lastStatus evs = Some AError /\ forall a, ~ In (SetAnalysis a) evs)).
Proof.
  destruct (isValid (DocumentAnalyzer.validateDocumentContent documentContent))
    eqn:Hvalid.
  2:{ unfold DocumentAnalyzer.handleAnalyzeDocument. rewrite Hvalid.
      cbn [negb]. eexists. eexists. split; [reflexivity|].
      split; [reflexivity|]. split; [cbn; lia|discriminate]. }
  destruct (enableAIGeneration (config env)) eqn:Hflag.
  - destruct (handleAnalyzeDocument_valid env documentContent w Hflag Hvalid)
      as (w' & Hrun & Htrace).
    eexists. eexists. split; [exact Hrun|]. split; [exact Htrace|].
    split.
    + rewrite !requests_app, requests_map_AnalysisEv.
      match goal with |- context [requests (AnalysisEv ?p :: abortOf ?c)] =>
        change (requests (AnalysisEv p :: abortOf c)) with (requests (abortOf c)) end.
      rewrite requests_abortOf.
      destruct (fst (analysisRun env (network env (fetches w)))); cbn; lia.
    + intros _.
      destruct (analysisRun env (network env (fetches w))) as [[a|e] steps] eqn:Hr;
        cbn [fst snd].
      * left. split.
        -- unfold lastStatus. rewrite !app_assoc, analysisEvents_app.
           change (analysisEvents [SetAnalysis a; AnalysisEv progress100])
             with [progress100].
           now rewrite lastOf_app_cons.
        -- exists a. apply in_or_app. right. apply in_or_app. right.
           apply in_or_app. right. now left.
      * right. split.
        -- unfold lastStatus. rewrite !app_assoc, analysisEvents_app.
           change (analysisEvents
                     [ConsoleError (lit "Analysis failed:") e;
                      AnalysisEv (progressError (messageOr e (lit "Analysis failed")))])
             with [progressError (messageOr e (lit "Analysis failed"))].
           now rewrite lastOf_app_cons.
        -- intros a Hin.
           destruct (analysisRun_failure env _ e (f_equal fst Hr))
             as (steps' & message & _ & _ & _).
           apply in_app_or in Hin as [Hin|Hin].
           { cbn [In] in Hin. destruct Hin as [Hin|Hin]; [discriminate|].
             destruct (abortController w); cbn in Hin; intuition discriminate. }
           apply in_app_or in Hin as [Hin|Hin].
           { cbn in Hin. intuition discriminate. }
           apply in_app_or in Hin as [Hin|Hin].
           { apply in_map_iff in Hin as (p & Hp & _). discriminate. }
           cbn in Hin. intuition discriminate.
  - unfold DocumentAnalyzer.handleAnalyzeDocument. rewrite Hvalid.
    cbn [negb]. unfold tryCatch. unfold bind at 1. unfold emit at 1.
    unfold bind at 1.
    unfold DocumentAnalyzer.analyzeDocument. rewrite Hflag. cbn [negb].
    unfold throw, bind, emit. cbn [log messageOr].
    eexists. eexists [_; _; _]. split; [reflexivity|].
    split; [unfold trace; cbn [log rev]; rewrite <- !app_assoc; reflexivity|].
    split; [cbn; lia|].
    intros _. right. split; [reflexivity|].
    intros a Hin. cbn in Hin. intuition discriminate.
Qed.

Lemma handleAnalyzeDocument_settles_witness :
  exists w' evs,
    DocumentAnalyzer.handleAnalyzeDocument
      (Sample.env true (Sample.streamed [replyBody "{}"]))
      (lit "Request for proposal: a cloud CRM with ERP integration and training.")
      Sample.fresh = (Returned tt, w') /\
    trace w' = trace Sample.fresh ++ evs /\
    lastStatus evs = Some ACompleted.
Proof.
  destruct (handleAnalyzeDocument_settles
              (Sample.env true (Sample.streamed [replyBody "{}"]))
              (lit "Request for proposal: a cloud CRM with ERP integration and training.")
              Sample.fresh)
    as (w' & evs & Hrun & Htrace & _ & Hlast).
  exists w', evs. split; [exact Hrun|]. split; [exact Htrace|].
  destruct (Hlast eq_refl) as [[H _]|[H _]]; [exact H|].
  vm_compute in Hrun. inversion Hrun; subst w'. clear Hrun.
  vm_compute in Htrace. inversion Htrace; subst evs. discriminate H.
Defined.

(* ================================================================== *)
(** * Further properties: analysis of an uploaded file *)
(* ================================================================== *)

(** X10: only a text file is analysed.  For a file whose type is not
    [text/plain] (PDF and DOCX files included), the file analysis
    rejects with an [Error] after two progress updates, the
    announcement of the extraction and an error update with progress 0
    and the message; it issues no request and leaves the controller of
    the instance alone. *)
Theorem analyzeDocumentFromFile_needs_text env file w :
  file_type file <> textType ->
  exists message w',
    FileAnalysis.analyzeDocumentFromFile env file logAnalysis w
      = (Threw (ErrorObject message), w') /\
    trace w' = trace w ++ [AnalysisEv progressExtracting;
                           AnalysisEv (progressError message)] /\
    fetches w' = fetches w /\
    abortController w' = abortController w.
Proof.
  intro Htype.
  assert (He : exists message,
             FileAnalysis.extractTextFromFile file = Threw (ErrorObject message)).
  { unfold FileAnalysis.extractTextFromFile.
    destruct (JsString.eqb (file_type file) textType) eqn:E.
    - apply eqb_eq in E. contradiction.
    - destruct (JsString.eqb (file_type file) pdfType); [eexists; reflexivity|].
      destruct (JsString.eqb (file_type file) docxType); eexists; reflexivity. }
  destruct He as (message & He).
  exists message. eexists. split; [apply analyzeDocumentFromFile_unreadable, He|].
  repeat split. unfold trace. cbn [extend log]. cbn [rev app].
  now rewrite <- app_assoc.
Qed.

Lemma analyzeDocumentFromFile_needs_text_witness :
  exists message w',
    FileAnalysis.analyzeDocumentFromFile (Sample.env true (Sample.streamed [replyBody "{}"]))
      {| file_name := lit "rfp.pdf"; file_size := 2048; file_type := pdfType;
         file_text := Some (lit "%PDF-1.7") |}
      logAnalysis Sample.fresh
      = (Threw (ErrorObject message), w') /\
    trace w' = trace Sample.fresh ++ [AnalysisEv progressExtracting;
                                      AnalysisEv (progressError message)] /\
    fetches w' = fetches Sample.fresh /\
    abortController w' = abortController Sample.fresh.
Proof.
  apply (analyzeDocumentFromFile_needs_text
           (Sample.env true (Sample.streamed [replyBody "{}"]))).
  discriminate.
Defined.

(** X11: the file analysis of a text file is the analysis of its text,
    rescaled.  When the text of the file is read, [analyzeDocumentFromFile]
    settles as [analyzeDocument] does on the text, with the same request
    and the same controller left on the instance; its events are the
    two updates of the extraction (progress 0 and 10), then the events of
    [analyzeDocument] with every progress [p] replaced by
    [Math.round(10 + p * 0.9)], then, if the analysis failed, one more
    error update with progress 0. *)
Theorem analyzeDocumentFromFile_rescales env file text w :
  FileAnalysis.extractTextFromFile file = Returned text ->
  exists r w1 w2 evs,
    DocumentAnalyzer.analyzeDocument env text logAnalysis w = (r, w1) /\
    trace w1 = trace w ++ evs /\
    FileAnalysis.analyzeDocumentFromFile env file logAnalysis w = (r, w2) /\
    trace w2
    = trace w ++ [AnalysisEv progressExtracting; AnalysisEv progressExtracted]
        ++ map rescaled evs ++ closing r /\
    fetches w2 = fetches w1 /\
    abortController w2 = abortController w1.
Proof.
  intro Htext.
  destruct (enableAIGeneration (config env)) eqn:Hflag.
  - destruct (analyzeDocumentFromFile_via env file text w Hflag Htext)
      as (w2 & Hrun & Htrace & Hctrl & _ & Hfetch).
    unfold logAnalysis at 1. rewrite (analyzeDocument_via AnalysisEv) by exact Hflag.
    cbv zeta.
    eexists. eexists. exists w2. eexists.
    split; [reflexivity|]. split; [apply trace_openedVia|].
    split; [exact Hrun|]. split; [|split; [exact Hfetch|exact Hctrl]].
    rewrite Htrace, rev_involutive, !map_app, map_rescaled_abortOf,
      map_rescaled_analysis, <- !app_assoc.
    reflexivity.
  - unfold DocumentAnalyzer.analyzeDocument. rewrite Hflag. cbn [negb].
    unfold FileAnalysis.analyzeDocumentFromFile, tryCatch.
    unfold bind at 1. unfold call at 1, logAnalysis, emit at 1.
    unfold bind at 1. rewrite Htext. unfold lift at 1.
    unfold bind at 1. unfold call at 1, emit at 1.
    unfold DocumentAnalyzer.analyzeDocument. rewrite Hflag. cbn [negb].
    unfold throw, bind, call, emit. cbn [log].
    eexists. exists w. eexists. exists [].
    split; [reflexivity|]. split; [now rewrite app_nil_r|].
    split; [reflexivity|]. split; [|split; reflexivity].
    unfold trace. cbn [log rev map app closing]. now rewrite <- !app_assoc.
Qed.

Lemma analyzeDocumentFromFile_rescales_witness :
  exists r w1 w2 evs,
    DocumentAnalyzer.analyzeDocument (Sample.env true (Sample.streamed [replyBody "{}"]))
      (lit "An RFP.") logAnalysis Sample.fresh = (r, w1) /\
    trace w1 = trace Sample.fresh ++ evs /\
    FileAnalysis.analyzeDocumentFromFile
      (Sample.env true (Sample.streamed [replyBody "{}"]))
      {| file_name := lit "rfp.txt"; file_size := 7; file_type := textType;
         file_text := Some (lit "An RFP.") |}
      logAnalysis Sample.fresh = (r, w2) /\
    trace w2
    = trace Sample.fresh ++ [AnalysisEv progressExtracting; AnalysisEv progressExtracted]
        ++ map rescaled evs ++ closing r /\
    fetches w2 = fetches w1 /\
    abortController w2 = abortController w1.
Proof.
  apply (analyzeDocumentFromFile_rescales
           (Sample.env true (Sample.streamed [replyBody "{}"]))
           {| file_name := lit "rfp.txt"; file_size := 7; file_type := textType;
              file_text := Some (lit "An RFP.") |}).
  reflexivity.
Defined.

(** X12: the progress of a successful file analysis.  When
    [analyzeDocumentFromFile] resolves, its progress updates carried, in
    this order, the values 0, 10, 10, 55, 91 and 100, the last one with
    status completed and the others with status analyzing: the progress
    never goes back. *)
Theorem analyzeDocumentFromFile_progress env file w a w' :
  FileAnalysis.analyzeDocumentFromFile env file logAnalysis w = (Returned a, w') ->
  exists evs,
    trace w' = trace w ++ evs /\
    map ap_progress (analysisEvents evs) = [0; 10; 10; 55; 91; 100]%Z /\
    map ap_status (analysisEvents evs)
    = [AAnalyzing; AAnalyzing; AAnalyzing; AAnalyzing; AAnalyzing; ACompleted].
Proof.
  destruct (FileAnalysis.extractTextFromFile file) as [text|e] eqn:Htext.
  2:{ rewrite (analyzeDocumentFromFile_unreadable env file w e Htext). discriminate. }
  destruct (enableAIGeneration (config env)) eqn:Hflag.
  - destruct (analyzeDocumentFromFile_via env file text w Hflag Htext)
      as (w2 & Hrun & Htrace & _).
    rewrite Hrun. intro H. inversion H as [[Hfst Hw]]. subst w2.
    rewrite Hfst, (analysisRun_success _ _ _ Hfst) in Htrace.
    eexists. split; [exact Htrace|].
    rewrite !analysisEvents_app, analysisEvents_abortOf. split; reflexivity.
  - unfold FileAnalysis.analyzeDocumentFromFile, tryCatch.
    unfold bind at 1. unfold call at 1, logAnalysis, emit at 1.
    unfold bind at 1. rewrite Htext. unfold lift at 1.
    unfold bind at 1. unfold call at 1, emit at 1.
    unfold DocumentAnalyzer.analyzeDocument. rewrite Hflag. cbn [negb].
    unfold throw, bind, call, emit. discriminate.
Qed.

Lemma analyzeDocumentFromFile_progress_witness :
  exists evs,
    trace (snd (FileAnalysis.analyzeDocumentFromFile
                  (Sample.env true (Sample.streamed [replyBody "{}"]))
                  {| file_name := lit "rfp.txt"; file_size := 7; file_type := textType;
                     file_text := Some (lit "An RFP.") |}
                  logAnalysis Sample.fresh))
    = trace Sample.fresh ++ evs /\
    map ap_progress (analysisEvents evs) = [0; 10; 10; 55; 91; 100]%Z /\
    map ap_status (analysisEvents evs)
    = [AAnalyzing; AAnalyzing; AAnalyzing; AAnalyzing; AAnalyzing; ACompleted].
Proof.
  destruct (FileAnalysis.analyzeDocumentFromFile
              (Sample.env true (Sample.streamed [replyBody "{}"]))
              {| file_name := lit "rfp.txt"; file_size := 7; file_type := textType;
                 file_text := Some (lit "An RFP.") |}
              logAnalysis Sample.fresh) as [r w'] eqn:Hrun.
  assert (Hr : exists a, r = Returned a).
  { vm_compute in Hrun. inversion Hrun. eexists. reflexivity. }
  destruct Hr as (a & ->).
  exact (analyzeDocumentFromFile_progress _ _ _ _ _ Hrun).
Defined.

(** X13: a failed file analysis reports its failure twice.  When the
    text of the file is read, the feature is on and the analysis fails,
    the progress callback receives two error updates and no other: the
    one of [analyzeDocument], passed on with progress 10 and the
    message of the failure, and then the one of the file analysis, with
    progress 0 and the message after [Document analysis failed: ]; the
    call rejects with an [Error] of the latter message. *)
Theorem analyzeDocumentFromFile_reports_twice env file text w e w' :
  enableAIGeneration (config env) = true ->
  FileAnalysis.extractTextFromFile file = Returned text ->
  FileAnalysis.analyzeDocumentFromFile env file logAnalysis w = (Threw e, w') ->
  exists evs message,
    trace w' = trace w ++ evs /\
    filter isErrorEvent evs
    = [ AnalysisEv (DocumentAnalyzer.analysisEvent AError 10 None (Some message));
        AnalysisEv (DocumentAnalyzer.analysisEvent AError 0 None
                      (Some (lit "Document analysis failed: " ++ message))) ] /\
    e = ErrorObject (lit "Document analysis failed: " ++ message).
Proof.
  intros Hflag Htext.
  destruct (analyzeDocumentFromFile_via env file text w Hflag Htext)
    as (w2 & Hrun & Htrace & _).
  rewrite Hrun. intro H. inversion H as [[Hfst Hw]]. subst w2.
  destruct (analysisRun_failure env _ e Hfst) as (steps & message & Hsteps & -> & Hcases).
  rewrite Hfst, Hsteps in Htrace.
  eexists. exists message. split; [exact Htrace|]. split; [|reflexivity].
  rewrite !filter_app.
  destruct (abortController w); destruct Hcases as [->|[->| ->]]; reflexivity.
Qed.

Lemma analyzeDocumentFromFile_reports_twice_witness :
  exists evs message,
    trace (snd (FileAnalysis.analyzeDocumentFromFile
                  (Sample.env true Sample.serverError)
                  {| file_name := lit "rfp.txt"; file_size := 7; file_type := textType;
                     file_text := Some (lit "An RFP.") |}
                  logAnalysis Sample.fresh))
    = trace Sample.fresh ++ evs /\
    filter isErrorEvent evs
    = [ AnalysisEv (DocumentAnalyzer.analysisEvent AError 10 None (Some message));
        AnalysisEv (DocumentAnalyzer.analysisEvent AError 0 None
                      (Some (lit "Document analysis failed: " ++ message))) ] /\
    ErrorObject (lit "Document analysis failed: OpenAI API error: 500 Internal Server Error")
    = ErrorObject (lit "Document analysis failed: " ++ message).
Proof.
  apply (analyzeDocumentFromFile_reports_twice
           (Sample.env true Sample.serverError)
           {| file_name := lit "rfp.txt"; file_size := 7; file_type := textType;
              file_text := Some (lit "An RFP.") |}
           (lit "An RFP.") Sample.fresh).
  - reflexivity.
  - reflexivity.
  - vm_compute. reflexivity.
Defined.

(* ================================================================== *)
(** * Further properties: cancellation *)
(* ================================================================== *)

(** X14: [cancelGeneration] aborts at most once.  It aborts the
    controller on the instance, if any, and removes it, so that a second
    call does nothing; and after a call to [generateSection] that passed
    the feature-flag check has settled, whatever its callbacks did and
    however it ended, there is nothing to cancel: [cancelGeneration]
    leaves the world as it is. *)
Theorem cancelGeneration_once env sid onProgress onChunk ctx tpl w :
  enableAIGeneration (config env) = true ->
  (exists w1,
      OpenAIService.cancelGeneration w = (Returned tt, w1) /\
      trace w1 = trace w ++ abortOf (abortController w) /\
      OpenAIService.cancelGeneration w1 = (Returned tt, w1)) /\
  (let w2 := snd (OpenAIService.generateSection env sid onProgress onChunk ctx tpl w) in
   OpenAIService.cancelGeneration w2 = (Returned tt, w2)).
Proof.
  intro Hflag. split.
  - unfold OpenAIService.cancelGeneration, bind, getController.
    destruct w as [[c|] next n lg].
    + eexists. split; [reflexivity|]. split; [|reflexivity].
      unfold trace. reflexivity.
    + eexists. split; [reflexivity|]. split; [|reflexivity].
      unfold trace. cbn. now rewrite app_nil_r.
  - cbv zeta.
    pose proof (generateSection_clears_controller env sid onProgress onChunk ctx tpl w Hflag)
      as Hnone.
    unfold OpenAIService.cancelGeneration, bind, getController. now rewrite Hnone.
Qed.

Lemma cancelGeneration_once_witness :
  let w2 := snd (OpenAIService.generateSection
                   (Sample.env true (Sample.streamed [frames helloFrames]))
                   (lit "pricing") logProgress logChunk Sample.noContext tpl_pricing
                   Sample.fresh) in
  OpenAIService.cancelGeneration w2 = (Returned tt, w2).
Proof.
  exact (proj2 (cancelGeneration_once
                  (Sample.env true (Sample.streamed [frames helloFrames]))
                  (lit "pricing") logProgress logChunk Sample.noContext tpl_pricing
                  Sample.fresh eq_refl)).
Defined.

(** X15: cancelling after an analysis has settled.  [analyzeDocument]
    leaves its controller on the instance and [cancelAnalysis] does not
    remove it: after a call that passed the feature-flag check has
    settled, with either outcome, the handler [handleCancelAnalysis] of
    the page aborts the controller of that call, sets the progress to
    idle with value 0, and the controller is still on the instance. *)
Theorem handleCancelAnalysis_after_analysis env doc w :
  enableAIGeneration (config env) = true ->
  let w1 := snd (DocumentAnalyzer.analyzeDocument env doc logAnalysis w) in
  exists w2,
    RFPAnalyzer.handleCancelAnalysis w1 = (Returned tt, w2) /\
    trace w2
    = trace w1 ++ [Aborted (nextController w);
                   AnalysisEv (DocumentAnalyzer.analysisEvent AIdle 0 None None)] /\
    abortController w2 = Some (nextController w).
Proof.
  intro Hflag. cbv zeta.
  pose proof (analyzeDocument_keeps_controller env doc w Hflag) as Hkeep.
  destruct (snd (DocumentAnalyzer.analyzeDocument env doc logAnalysis w))
    as [ctrl next n lg].
  cbn [abortController] in Hkeep. subst ctrl.
  eexists. split; [reflexivity|]. split; [|reflexivity].
  unfold trace. cbn [log rev]. now rewrite <- app_assoc.
Qed.

Lemma handleCancelAnalysis_after_analysis_witness :
  exists w2,
    RFPAnalyzer.handleCancelAnalysis
      (snd (DocumentAnalyzer.analyzeDocument
              (Sample.env true (Sample.streamed [replyBody "{}"]))
              (lit "An RFP.") logAnalysis Sample.fresh))
    = (Returned tt, w2) /\
    abortController w2 = Some 0%nat.
Proof.
  destruct (handleCancelAnalysis_after_analysis
              (Sample.env true (Sample.streamed [replyBody "{}"]))
              (lit "An RFP.") Sample.fresh eq_refl)
    as (w2 & Hrun & _ & Hctrl).
  exists w2. split; [exact Hrun|exact Hctrl].
Defined.

(* ================================================================== *)
(** * Further properties: validation *)
(* ================================================================== *)

Lemma trimStart_ws a s :
  forallb isWhiteSpace a = true -> trimStart (a ++ s) = trimStart s.
Proof.
  induction a as [|c a IH]; [reflexivity|].
  cbn [forallb app trimStart]. intro H. apply andb_true_iff in H as [Hc Ha].
  rewrite Hc. now apply IH.
Qed.

Lemma forallb_rev {A} (f : A -> bool) l : forallb f l = true -> forallb f (rev l) = true.
Proof.
  rewrite !forallb_forall. intros H x Hx. apply H. now apply in_rev.
Qed.

Lemma trim_ws_right s b :
  forallb isWhiteSpace b = true -> trim (s ++ b) = trim s.
Proof.
  intro Hb. unfold trim. induction s as [|c s IH].
  - cbn [app]. replace (trimStart b) with (@nil N); [reflexivity|].
    symmetry. rewrite <- (app_nil_r b). now rewrite trimStart_ws.
  - cbn [app trimStart]. destruct (isWhiteSpace c); [exact IH|].
    change (c :: s ++ b) with ((c :: s) ++ b).
    rewrite rev_app_distr, trimStart_ws by now apply forallb_rev.
    reflexivity.
Qed.

Lemma trim_ws a s b :
  forallb isWhiteSpace a = true -> forallb isWhiteSpace b = true ->
  trim (a ++ s ++ b) = trim s.
Proof.
  intros Ha Hb. rewrite <- (trim_ws_right s b Hb).
  unfold trim. now rewrite trimStart_ws.
Qed.

Lemma validate_by_trim content :
  DocumentAnalyzer.validateDocumentContent content
  = if (List.length (trim content) =? 0)%nat
    then {| isValid := false;
            validationError := Some (lit "Document content is empty") |}
    else if (List.length (trim content) <? 50)%nat
    then {| isValid := false;
            validationError :=
              Some (lit "Document content is too short for meaningful analysis") |}
    else {| isValid := true; validationError := None |}.
Proof.
  unfold DocumentAnalyzer.validateDocumentContent.
  destruct content; reflexivity.
Qed.

(** X16: the validation looks at the trimmed content only.  White space
    (in the sense of [String.prototype.trim]) before and after a
    content changes neither the verdict of [validateDocumentContent]
    nor its message: padding does not make a short document valid. *)
Theorem validateDocumentContent_ignores_padding before content after :
  forallb isWhiteSpace before = true ->
  forallb isWhiteSpace after = true ->
  DocumentAnalyzer.validateDocumentContent (before ++ content ++ after)
  = DocumentAnalyzer.validateDocumentContent content.
Proof.
  intros Ha Hb. rewrite !validate_by_trim, trim_ws by assumption. reflexivity.
Qed.

Lemma validateDocumentContent_ignores_padding_witness :
  DocumentAnalyzer.validateDocumentContent
    (repeat 32%N 60 ++ lit "An RFP." ++ repeat 10%N 60)
  = DocumentAnalyzer.validateDocumentContent (lit "An RFP.").
Proof.
  apply validateDocumentContent_ignores_padding; reflexivity.
Defined.

(* ================================================================== *)
(** * Further properties: post-processing *)
(* ================================================================== *)

Lemma orElse_idem a d :
  truthy (Some d) = true -> orElse (Some (orElse a d)) d = orElse a d.
Proof.
  intro Hd. unfold orElse at 1. rewrite (orElse_truthy a d Hd). reflexivity.
Qed.

(** The value of [processAnalysis] on an object, leaf by leaf. *)
Lemma processAnalysis_leaf_values env props result :
  DocumentAnalyzer.processAnalysis env (JObj props) = Returned result ->
  Forall (fun leaf =>
            lookup (Some result) (fst leaf)
            = Some (orElse (lookup (Some (JObj props)) (fst leaf)) (snd leaf)))
         expectedLeaves.
Proof.
  intro H. cbv [DocumentAnalyzer.processAnalysis DocumentAnalyzer.field Res.bind] in H.
  inversion H; subst result; clear H.
  unfold expectedLeaves.
  repeat (constructor; [reflexivity|]). constructor.
Qed.

(** X17: [processAnalysis] keeps what is usable and replaces the rest.
    For every parsed analysis object and every expected leaf, the leaf
    of the result is the value found at this place if that value is
    truthy, and the default of the leaf otherwise: a missing value is
    replaced, and so is an empty text, a [null], [false] or a number
    zero (a confidence of 0 is returned as 0.5). *)
Theorem processAnalysis_keeps_truthy env props path default :
  In (path, default) expectedLeaves ->
  exists result,
    DocumentAnalyzer.processAnalysis env (JObj props) = Returned result /\
    (forall v, lookup (Some (JObj props)) path = Some v ->
               truthy (Some v) = true ->
               lookup (Some result) path = Some v) /\
    (truthy (lookup (Some (JObj props)) path) = false ->
     lookup (Some result) path = Some default).
Proof.
  intro Hin.
  destruct (processAnalysis_leaves env props) as (result & Hres & _).
  exists result. split; [exact Hres|].
  pose proof (processAnalysis_leaf_values env props result Hres) as Hall.
  rewrite Forall_forall in Hall. specialize (Hall _ Hin). cbn [fst snd] in Hall.
  split.
  - intros v Hv Ht. rewrite Hall, Hv. unfold orElse. now rewrite Ht.
  - intro Hf. rewrite Hall. unfold orElse.
    destruct (lookup (Some (JObj props)) path) as [x|]; [|reflexivity].
    now rewrite Hf.
Qed.

Lemma processAnalysis_keeps_truthy_witness :
  exists result,
    DocumentAnalyzer.processAnalysis (Sample.env true Sample.serverError)
      (JObj [(lit "winThemes", JObj [(lit "confidence", JNum 0 0)])]) = Returned result /\
    lookup (Some result) [lit "winThemes"; lit "confidence"]
    = Some DocumentAnalyzer.half.
Proof.
  destruct (processAnalysis_keeps_truthy (Sample.env true Sample.serverError)
              [(lit "winThemes", JObj [(lit "confidence", JNum 0 0)])]
              [lit "winThemes"; lit "confidence"] DocumentAnalyzer.half)
    as (result & Hres & _ & Hdefault).
  - unfold expectedLeaves. cbn [In]. do 17 right. left. reflexivity.
  - exists result. split; [exact Hres|]. apply Hdefault. reflexivity.
Defined.

(** X18: [processAnalysis] is idempotent.  Processing a processed
    analysis again returns it unchanged, for every value on which the
    first pass returns. *)
Theorem processAnalysis_idempotent env analysis result :
  DocumentAnalyzer.processAnalysis env analysis = Returned result ->
  DocumentAnalyzer.processAnalysis env result = Returned result.
Proof.
  intro H. unfold DocumentAnalyzer.processAnalysis in H.
  destruct (DocumentAnalyzer.field env analysis (lit "criticalRequirementsMatrix"))
    as [crm|]; [|discriminate].
  destruct (DocumentAnalyzer.field env analysis (lit "evaluationCriteria"))
    as [ec|]; [|discriminate].
  destruct (DocumentAnalyzer.field env analysis (lit "strategicIntelligence"))
    as [si|]; [|discriminate].
  destruct (DocumentAnalyzer.field env analysis (lit "winThemes"))
    as [wt|]; [|discriminate].
  destruct (DocumentAnalyzer.field env analysis (lit "redFlags"))
    as [redFlags|]; [|discriminate].
  destruct (DocumentAnalyzer.field env analysis (lit "deadlines"))
    as [deadlines|]; [|discriminate].
  destruct (DocumentAnalyzer.field env analysis (lit "stakeholders"))
    as [stakeholders|]; [|discriminate].
  cbn [Res.bind] in H. inversion H; subst result; clear H.
  cbv [DocumentAnalyzer.processAnalysis DocumentAnalyzer.field Res.bind].
  do 2 f_equal.
  cbv -[orElse].
  rewrite !orElse_idem by reflexivity. reflexivity.
Qed.

Lemma processAnalysis_idempotent_witness :
  exists result,
    DocumentAnalyzer.processAnalysis (Sample.env true Sample.serverError)
      (JObj [(lit "redFlags", JArr [JStr (lit "tight deadline")])]) = Returned result /\
    DocumentAnalyzer.processAnalysis (Sample.env true Sample.serverError) result
    = Returned result.
Proof.
  destruct (processAnalysis_leaves (Sample.env true Sample.serverError)
              [(lit "redFlags", JArr [JStr (lit "tight deadline")])])
    as (result & Hres & _).
  exists result. split; [exact Hres|].
  exact (processAnalysis_idempotent _ _ _ Hres).
Defined.

(* ================================================================== *)
(** * Further properties: uploads *)
(* ================================================================== *)

Lemma handleFiles_entries files : forall uploadedFiles,
  RFPUploader.handleFiles files uploadedFiles
  = uploadedFiles ++ map (fun f => RFPUploader.newEntry (fst f) (snd f)) files.
Proof.
  induction files as [|[fileId file] rest IH]; intro uploadedFiles.
  - cbn. now rewrite app_nil_r.
  - cbn [RFPUploader.handleFiles map fst snd]. rewrite IH, <- app_assoc. reflexivity.
Qed.

(** X19: what the uploader accepts and what the analysis can read.
    The uploader turns a file away for its type exactly when
    [extractTextFromFile] rejects it as an unsupported file type; a
    file that the uploader accepts (a listed type and at most 10 MB)
    yields a text only if its type is [text/plain]: an accepted PDF or
    DOCX file is rejected by the extraction. *)
Theorem accepted_upload_needs_text fileId file :
  (existsb (JsString.eqb (file_type file)) RFPUploader.validTypes = false <->
   FileAnalysis.extractTextFromFile file
   = Threw (ErrorObject (lit "Unsupported file type"))) /\
  (RFPUploader.uf_status (RFPUploader.newEntry fileId file) = RFPUploader.Uploading ->
   file_type file <> textType ->
   FileAnalysis.extractTextFromFile file
   = Threw (ErrorObject (lit "PDF text extraction not implemented yet")) \/
   FileAnalysis.extractTextFromFile file
   = Threw (ErrorObject (lit "DOCX text extraction not implemented yet"))).
Proof.
  unfold RFPUploader.newEntry, FileAnalysis.extractTextFromFile, RFPUploader.validTypes.
  cbn [existsb].
  destruct (JsString.eqb (file_type file) textType) eqn:Et.
  - apply eqb_eq in Et. rewrite Et. split.
    + split; [discriminate|]. destruct (file_text file); discriminate.
    + intros _ H. now contradiction H.
  - destruct (JsString.eqb (file_type file) pdfType) eqn:Ep.
    + split; [split; discriminate|]. intros _ _. now left.
    + destruct (JsString.eqb (file_type file) docxType) eqn:Ed.
      * split; [split; discriminate|]. intros _ _. now right.
      * split; [split; reflexivity|]. cbn. discriminate.
Qed.

Lemma accepted_upload_needs_text_witness :
  FileAnalysis.extractTextFromFile
    {| file_name := lit "rfp.pdf"; file_size := 2048; file_type := pdfType;
       file_text := None |}
  = Threw (ErrorObject (lit "PDF text extraction not implemented yet")) \/
  FileAnalysis.extractTextFromFile
    {| file_name := lit "rfp.pdf"; file_size := 2048; file_type := pdfType;
       file_text := None |}
  = Threw (ErrorObject (lit "DOCX text extraction not implemented yet")).
Proof.
  apply (proj2 (accepted_upload_needs_text (lit "k3j9x0a1b")
                  {| file_name := lit "rfp.pdf"; file_size := 2048; file_type := pdfType;
                     file_text := None |})).
  - reflexivity.
  - discriminate.
Defined.

(** X20: removing an upload.  [removeFile] removes every entry with the
    given identifier and keeps the other entries in their order; for an
    identifier that no earlier upload has, it undoes the upload of a
    file with that identifier. *)
Theorem removeFile_undoes_upload fileId file uploadedFiles :
  Forall (fun f => RFPUploader.uf_id f <> fileId) uploadedFiles ->
  RFPUploader.removeFile fileId
    (RFPUploader.handleFiles [(fileId, file)] uploadedFiles)
  = uploadedFiles.
Proof.
  intro Hfresh. rewrite handleFiles_entries. cbn [map fst snd].
  unfold RFPUploader.removeFile. rewrite filter_app. cbn [filter].
  replace (RFPUploader.uf_id (RFPUploader.newEntry fileId file)) with fileId.
  2:{ unfold RFPUploader.newEntry. destruct (negb _); [reflexivity|].
      destruct (_ <? _)%Z; reflexivity. }
  rewrite eqb_refl. cbn [negb]. rewrite app_nil_r.
  induction Hfresh as [|f l Hf _ IH]; [reflexivity|].
  cbn [filter]. destruct (JsString.eqb (RFPUploader.uf_id f) fileId) eqn:E.
  - apply eqb_eq in E. contradiction.
  - cbn [negb]. now rewrite IH.
Qed.

Lemma removeFile_undoes_upload_witness :
  RFPUploader.removeFile (lit "b2")
    (RFPUploader.handleFiles
       [(lit "b2", {| file_name := lit "logo.png"; file_size := 512;
                      file_type := lit "image/png"; file_text := None |})]
       [RFPUploader.newEntry (lit "a1")
          {| file_name := lit "rfp.txt"; file_size := 7; file_type := textType;
             file_text := Some (lit "An RFP.") |}])
  = [RFPUploader.newEntry (lit "a1")
       {| file_name := lit "rfp.txt"; file_size := 7; file_type := textType;
          file_text := Some (lit "An RFP.") |}].
Proof.
  apply removeFile_undoes_upload.
  constructor; [discriminate|constructor].
Defined.

(* ================================================================== *)
(** * Further properties: the prompt *)
(* ================================================================== *)

Lemma startsWith_app s p b : startsWith s p = true -> startsWith (s ++ b) p = true.
Proof.
  revert s. induction p as [|y p IH]; intros s H; [now destruct (s ++ b)|].
  destruct s as [|x s]; [discriminate|].
  cbn [app startsWith] in *. apply andb_true_iff in H as [H1 H2].
  now rewrite H1, IH.
Qed.

Lemma startsWith_self s b : startsWith (s ++ b) s = true.
Proof.
  induction s as [|x s IH]; [now destruct b|].
  cbn [app startsWith]. now rewrite N.eqb_refl, IH.
Qed.

Lemma includes_app_left a b p : includes a p = true -> includes (a ++ b) p = true.
Proof.
  induction a as [|x a IH].
  - cbn [includes]. rewrite orb_false_r. intro H.
    destruct p; [|discriminate]. now destruct b.
  - cbn [app includes]. intro H. apply orb_true_iff in H as [H|H].
    + change (x :: a ++ b) with ((x :: a) ++ b). now rewrite startsWith_app.
    + rewrite IH by assumption. apply orb_true_r.
Qed.

Lemma includes_app_right a b p : includes b p = true -> includes (a ++ b) p = true.
Proof.
  intro H. induction a as [|x a IH]; [exact H|].
  cbn [app includes]. rewrite IH. apply orb_true_r.
Qed.

Lemma includes_self s : includes s s = true.
Proof.
  destruct s as [|x s]; [reflexivity|].
  cbn [includes]. rewrite <- (app_nil_r (x :: s)) at 1.
  now rewrite startsWith_self.
Qed.

Lemma includes_join_item sep xs x :
  In x xs -> includes (join sep xs) x = true.
Proof.
  induction xs as [|y xs IH]; [contradiction|].
  intros [->|Hin].
  - destruct xs as [|z xs]; [apply includes_self|].
    cbn [join]. apply includes_app_left, includes_self.
  - destruct xs as [|z xs]; [contradiction|].
    change (join sep (y :: z :: xs)) with (y ++ sep ++ join sep (z :: xs)).
    apply includes_app_right, includes_app_right. now apply IH.
Qed.

Lemma includes_bullet_item items s :
  In s items ->
  includes (join nl (map (fun x => lit "- " ++ x) items)) s = true.
Proof.
  intro Hin.
  assert (H : includes (join nl (map (fun x => lit "- " ++ x) items)) (lit "- " ++ s)
              = true).
  { apply includes_join_item. apply in_map_iff. now exists s. }
  clear Hin. revert H.
  generalize (join nl (map (fun x => lit "- " ++ x) items)) as t.
  induction t as [|c t IH].
  - cbn. discriminate.
  - intro H. cbn [includes] in H. apply orb_true_iff in H as [H|H].
    + destruct t as [|c2 t]; [cbn in H; rewrite andb_false_r in H; discriminate|].
      cbn [lit list_ascii_of_string map app startsWith] in H.
      apply andb_true_iff in H as [_ H]. apply andb_true_iff in H as [_ H].
      apply (includes_app_right [c; c2]).
      destruct t as [|c3 t].
      * destruct s; [reflexivity|discriminate].
      * cbn [includes]. now rewrite H.
    + apply (includes_app_right [c]). now apply IH.
Qed.

(** A text that one block of the prompt holds is in the prompt. *)
Ltac includes_here :=
  repeat match goal with
         | |- context [match ?d with Some _ => _ | None => _ end] => destruct d
         end;
  repeat first
    [ solve [ do 5 apply includes_app_right;
              first [ apply includes_self
                    | apply includes_bullet_item; assumption ] ]
    | apply includes_app_left ].

(** X21: the context reaches the model as it is.  Every text of the
    generation context (the RFP content, the company profile, every
    requirement, every constraint, the target audience) occurs in the
    prompt of [buildPrompt] verbatim, for every section and every
    template: neither the placeholder substitution nor a later block
    alters it. *)
Theorem buildPrompt_includes_context env sectionType context template s :
  In s (contextTexts context) ->
  includes (OpenAIService.buildPrompt env sectionType context template) s = true.
Proof.
  intro Hin.
  destruct s as [|c0 s0].
  { generalize (OpenAIService.buildPrompt env sectionType context template).
    intro p. now destruct p. }
  unfold contextTexts in Hin. unfold OpenAIService.buildPrompt. cbv zeta.
  set (base := Replace.replace _ _ _). clearbody base.
  generalize (getRelevantContentForRFP env) as index. intro index.
  destruct context as [rfp profile reqs cons audience].
  cbn [rfpContent companyProfile requirements constraints targetAudience] in *.
  repeat (apply in_app_or in Hin as [Hin|Hin]).
  - destruct rfp as [r|]; [|contradiction]. destruct Hin as [->|[]].
    cbn [present]. includes_here.
  - destruct profile as [r|]; [|contradiction]. destruct Hin as [->|[]].
    cbn [present]. includes_here.
  - destruct reqs as [[|r l]|]; try contradiction.
    cbn [nonEmptyList]. includes_here.
  - destruct cons as [[|r l]|]; try contradiction.
    cbn [nonEmptyList]. includes_here.
  - destruct audience as [r|]; [|contradiction]. destruct Hin as [->|[]].
    cbn [present]. includes_here.
Qed.

Lemma buildPrompt_includes_context_witness :
  includes
    (OpenAIService.buildPrompt (Sample.env true Sample.serverError) (lit "pricing")
       {| rfpContent := Some (lit "We need a CRM for $& 100 users.");
          companyProfile := None;
          requirements := Some [lit "cloud"; lit "support {sectionType}"];
          constraints := None;
          targetAudience := Some (lit "CTO") |}
       tpl_pricing)
    (lit "support {sectionType}") = true.
Proof.
  apply buildPrompt_includes_context.
  cbn. right. right. left. reflexivity.
Defined.

(* ================================================================== *)
(** * Further properties: the progress of a generation *)
(* ================================================================== *)

(** X22: the progress estimate never goes back.  In binary64
    arithmetic, for every chunk count from 1 on,
    [Math.min(95, Math.floor((chunkCount / 50) * 100))] lies between 0
    and 95, does not decrease when the count grows, and is 95 from the
    count 48 on. *)
Theorem progressEstimate_monotone n m :
  (1 <= n)%Z -> (n <= m)%Z ->
  (0 <= progressEstimate n)%Z /\
  (progressEstimate n <= progressEstimate m)%Z /\
  (progressEstimate m <= 95)%Z /\
  ((48 <= m)%Z -> progressEstimate m = 95%Z).
Proof.
  intros Hn Hm. split; [apply progressEstimate_step, Hn|].
  split; [now apply progressEstimate_le|].
  split; [unfold progressEstimate; apply Z.le_min_l|].
  apply progressEstimate_cap.
Qed.

Lemma progressEstimate_monotone_witness :
  (0 <= progressEstimate 29)%Z /\
  (progressEstimate 29 <= progressEstimate 9007199254740993)%Z /\
  (progressEstimate 9007199254740993 <= 95)%Z /\
  ((48 <= 9007199254740993)%Z -> progressEstimate 9007199254740993 = 95%Z).
Proof.
  apply progressEstimate_monotone; lia.
Defined.

Lemma progress_deltaEvents sid deltas : forall acc cc lo tail,
  (0 <= cc)%Z ->
  (lo <= 95)%Z ->
  (lo <= progressEstimate (cc + 1))%Z ->
  nondecreasing (lo :: tail) ->
  (forall v, In v tail -> (95 <= v)%Z) ->
  nondecreasing
    (lo :: map gp_progress (progressEvents (deltaEvents sid ChunkEv acc cc deltas))
        ++ tail).
Proof.
  induction deltas as [|[c s] deltas IH]; intros acc cc lo tail Hcc Hlo Hnext Htail Hcap.
  - exact Htail.
  - cbn [deltaEvents progressEvents flat_map app map gp_progress
         OpenAIService.progressEvent].
    change (flat_map _ (deltaEvents sid ChunkEv (acc ++ s) (cc + 1) deltas))
      with (progressEvents (deltaEvents sid ChunkEv (acc ++ s) (cc + 1) deltas)).
    split; [exact Hnext|].
    apply IH.
    + lia.
    + unfold progressEstimate. apply Z.le_min_l.
    + apply progressEstimate_step. lia.
    + destruct tail as [|v tail]; [exact I|].
      split; [|apply Htail].
      specialize (Hcap v (or_introl eq_refl)).
      assert (progressEstimate (cc + 1) <= 95)%Z
        by (unfold progressEstimate; apply Z.le_min_l).
      lia.
    + exact Hcap.
Qed.

(** X23: the progress of a generation never goes back.  When
    [generateSection] resolves, the progress values of its progress
    events, in their order, never decrease: 0 at the start, the
    estimates of the deltas, at most 95, and 100 with the completion
    if the stream had its end mark. *)
Theorem generateSection_progress_monotone env sid ctx tpl w content w' :
  OpenAIService.generateSection env sid logProgress logChunk ctx tpl w
    = (Returned content, w') ->
  exists evs,
    trace w' = trace w ++ evs /\
    nondecreasing (map gp_progress (progressEvents evs)).
Proof.
  destruct (enableAIGeneration (config env)) eqn:Hflag.
  2:{ rewrite generateSection_disabled by exact Hflag. discriminate. }
  change logChunk with (logVia ChunkEv).
  rewrite generateSection_via by exact Hflag. cbv zeta.
  intro H. inversion H as [[Hfst Hw]]. clear H.
  exists (callEvents env sid ctx tpl w
            (rev (snd (sectionRun env sid ChunkEv (network env (fetches w)))))).
  split; [rewrite trace_settled; apply trace_opened|].
  rewrite progressEvents_callEvents, rev_involutive.
  cbn [map gp_progress OpenAIService.progressEvent].
  revert Hfst. unfold sectionRun.
  destruct (network env (fetches w)) as [e|r]; [discriminate|].
  destruct (negb (ok r)); [discriminate|].
  destruct (body r) as [b|]; [|discriminate].
  unfold streamRun. cbv zeta.
  destruct (hasDone _).
  - intros _. cbn [snd]. rewrite progressEvents_app, map_app.
    apply progress_deltaEvents.
    + apply Z.le_refl.
    + discriminate.
    + apply (progressEstimate_step 1). discriminate.
    + split; [discriminate|exact I].
    + intros v [<-|[]]. discriminate.
  - destruct (ending b); [|discriminate]. intros _. cbn [snd].
    rewrite <- (app_nil_r (map _ _)).
    apply progress_deltaEvents.
    + apply Z.le_refl.
    + discriminate.
    + apply (progressEstimate_step 1). discriminate.
    + exact I.
    + intros v [].
Qed.

Lemma generateSection_progress_monotone_witness :
  exists evs,
    trace (snd (OpenAIService.generateSection
                  (Sample.env true (Sample.streamed [frames helloFrames]))
                  (lit "pricing") logProgress logChunk Sample.noContext tpl_pricing
                  Sample.fresh))
    = trace Sample.fresh ++ evs /\
    nondecreasing (map gp_progress (progressEvents evs)).
Proof.
  apply (generateSection_progress_monotone
           (Sample.env true (Sample.streamed [frames helloFrames]))
           (lit "pricing") Sample.noContext tpl_pricing Sample.fresh
           (lit "Hello world")).
  vm_compute. reflexivity.
Defined.
